(** * Expense tracker: ledger, budget threshold engine, recurring expenses

    A shallow embedding of [remote_mcp_server.py].

    Modelling conventions.
    - The three SQLite tables are lists of rows in rowid order; an
      [AUTOINCREMENT] key is the table's [sqlite_sequence] counter plus one.
    - [TEXT] columns and Python [str] are [string]s of 8-bit characters;
      SQLite's default BINARY collation is [String.compare].
    - A [REAL] column or Python [float] holds the rational number that the
      binary64 value denotes ([Q]).  Python's float arithmetic ([/], [*],
      [-], [+=]) rounds the exact result to binary64, ties to even, and
      [round(x, n)] is the binary64 value nearest to the exact value rounded
      half to even at [n] decimals.  SQLite's [SUM] and Python's [sum],
      whose rounding depends on the library version (plain or compensated
      summation), are the exact sum; [AVG] is that sum divided by the count
      as floats.
    - An [int] bound to a statement must fit SQLite's 64-bit INTEGER, and
      a statement takes at most [SQLITE_MAX_VARIABLE_NUMBER] parameters, a
      build constant of the SQLite library: [sqlite3] raises otherwise, and
      the tool's [except] clause turns that into its failure response.
    - A tool's response dictionary is a value of the tagged union
      [response]; human-readable message texts are represented by the
      constructors of [message].
    - [created_at] columns are never read by any tool and are left out.
    - [datetime.strptime] is modelled after CPython's [_strptime] regular
      expressions for the two formats the program uses. *)

From Stdlib Require Import ZArith QArith Qround Qabs Qpower List String Ascii Bool Lia Lqa.
From Stdlib Require Import Permutation Sorted OrderedTypeEx.
Import ListNotations.

Open Scope string_scope.
Open Scope Z_scope.

(** ** Python string primitives *)

(** [s[:n]] *)
Definition py_slice_to (n : nat) (s : string) : string := substring 0 n s.

(** [s.endswith(suffix)]: some tail of [s] is [suffix]. *)
Fixpoint endswith (s suffix : string) : bool :=
  if String.eqb s suffix then true
  else match s with
       | EmptyString => false
       | String _ s' => endswith s' suffix
       end.

(** [s.endswith((a, b, ...))] *)
Definition endswith_any (s : string) (suffixes : list string) : bool :=
  existsb (endswith s) suffixes.

(** Truthiness of a [str]: non-empty. *)
Definition truthy (s : string) : bool :=
  match s with EmptyString => false | _ => true end.

Definition is_digit (c : ascii) : bool :=
  (Ascii.leb "0" c && Ascii.leb c "9")%bool.

Definition digit_value (c : ascii) : Z := Z.of_N (N_of_ascii c) - 48.

(** [int(s)] on a string of ASCII decimal digits; [None] stands for
    [ValueError].  The program only calls [int] on the first four characters
    of a key. *)
Fixpoint int_digits (acc : Z) (l : list ascii) : option Z :=
  match l with
  | [] => Some acc
  | c :: l' => if is_digit c then int_digits (10 * acc + digit_value c) l' else None
  end.

Definition py_int (s : string) : option Z :=
  match list_ascii_of_string s with
  | [] => None
  | l => int_digits 0 l
  end.

(** ** Calendar *)

Definition is_leap (year : Z) : bool :=
  ((year mod 4 =? 0) && (negb (year mod 100 =? 0) || (year mod 400 =? 0)))%bool.

(** [datetime]'s days-in-month table. *)
Definition days_in_month (year month : Z) : Z :=
  if month =? 2 then (if is_leap year then 29 else 28)
  else if (month =? 4) || (month =? 6) || (month =? 9) || (month =? 11) then 30
  else 31.

(** [datetime.date(year, month, day)] does not raise. *)
Definition valid_ymd (year month day : Z) : bool :=
  ((1 <=? year) && (year <=? 9999) && (1 <=? month) && (month <=? 12)
   && (1 <=? day) && (day <=? days_in_month year month))%bool.

(** *** [strptime] directives: each yields its candidate matches in the
    order in which the regular expression tries its alternatives. *)

Definition in_range (lo hi c : ascii) : bool := (Ascii.leb lo c && Ascii.leb c hi)%bool.

(** [%Y]: exactly four digits. *)
Definition directive_Y (l : list ascii) : option (Z * list ascii) :=
  match l with
  | a :: b :: c :: d :: rest =>
      if (is_digit a && is_digit b && is_digit c && is_digit d)%bool
      then Some (1000 * digit_value a + 100 * digit_value b
                 + 10 * digit_value c + digit_value d, rest)
      else None
  | _ => None
  end.

(** [%m]: [1[0-2]|0[1-9]|[1-9]]. *)
Definition directive_m (l : list ascii) : list (Z * list ascii) :=
  (match l with
   | a :: b :: rest =>
       if (Ascii.eqb a "1" && in_range "0" "2" b)%bool
       then [(10 + digit_value b, rest)] else []
   | _ => []
   end) ++
  (match l with
   | a :: b :: rest =>
       if (Ascii.eqb a "0" && in_range "1" "9" b)%bool
       then [(digit_value b, rest)] else []
   | _ => []
   end) ++
  (match l with
   | a :: rest => if in_range "1" "9" a then [(digit_value a, rest)] else []
   | _ => []
   end).

(** [%d]: [3[0-1]|[1-2]\d|0[1-9]|[1-9]| [1-9]]. *)
Definition directive_d (l : list ascii) : list (Z * list ascii) :=
  (match l with
   | a :: b :: rest =>
       if (Ascii.eqb a "3" && in_range "0" "1" b)%bool
       then [(30 + digit_value b, rest)] else []
   | _ => []
   end) ++
  (match l with
   | a :: b :: rest =>
       if (in_range "1" "2" a && is_digit b)%bool
       then [(10 * digit_value a + digit_value b, rest)] else []
   | _ => []
   end) ++
  (match l with
   | a :: b :: rest =>
       if (Ascii.eqb a "0" && in_range "1" "9" b)%bool
       then [(digit_value b, rest)] else []
   | _ => []
   end) ++
  (match l with
   | a :: rest => if in_range "1" "9" a then [(digit_value a, rest)] else []
   | _ => []
   end) ++
  (match l with
   | a :: b :: rest =>
       if (Ascii.eqb a " " && in_range "1" "9" b)%bool
       then [(digit_value b, rest)] else []
   | _ => []
   end).

Definition literal_dash (l : list ascii) : option (list ascii) :=
  match l with
  | c :: rest => if Ascii.eqb c "-" then Some rest else None
  | [] => None
  end.

(** First candidate, in order, for which the continuation matches. *)
Fixpoint first_match {A B : Type} (k : A -> option B) (candidates : list A) : option B :=
  match candidates with
  | [] => None
  | c :: cs => match k c with Some r => Some r | None => first_match k cs end
  end.

(** [re.match] of the pattern for ["%Y-%m-%d"]: the fields and the
    unconverted remainder. *)
Definition match_Y_m_d (l : list ascii) : option (Z * Z * Z * list ascii) :=
  match directive_Y l with
  | None => None
  | Some (y, r1) =>
      match literal_dash r1 with
      | None => None
      | Some r2 =>
          first_match
            (fun mr : Z * list ascii =>
               match literal_dash (snd mr) with
               | None => None
               | Some r4 =>
                   match directive_d r4 with
                   | [] => None
                   | (d, r5) :: _ => Some (y, fst mr, d, r5)
                   end
               end)
            (directive_m r2)
      end
  end.

(** [re.match] of the pattern for ["%Y-%m"]. *)
Definition match_Y_m (l : list ascii) : option (Z * Z * list ascii) :=
  match directive_Y l with
  | None => None
  | Some (y, r1) =>
      match literal_dash r1 with
      | None => None
      | Some r2 =>
          match directive_m r2 with
          | [] => None
          | (m, r3) :: _ => Some (y, m, r3)
          end
      end
  end.

(** [datetime.strptime(s, "%Y-%m-%d")]; [None] stands for [ValueError]. *)
Definition strptime_Y_m_d (s : string) : option (Z * Z * Z) :=
  match match_Y_m_d (list_ascii_of_string s) with
  | Some (y, m, d, []) => if valid_ymd y m d then Some (y, m, d) else None
  | _ => None
  end.

(** [datetime.strptime(s, "%Y-%m")]; the day defaults to 1. *)
Definition strptime_Y_m (s : string) : option (Z * Z) :=
  match match_Y_m (list_ascii_of_string s) with
  | Some (y, m, []) => if valid_ymd y m 1 then Some (y, m) else None
  | _ => None
  end.

(** ** Float operations *)

(** [x > y] and [x >= y] *)
Definition Qgtb (x y : Q) : bool := negb (Qle_bool x y).
Definition Qgeb (x y : Q) : bool := Qle_bool y x.

(** Rounding to the nearest integer, ties to even. *)
Definition round_half_even (x : Q) : Z :=
  let f := Qfloor x in
  match Qcompare (x - inject_Z f) (1 # 2) with
  | Lt => f
  | Gt => f + 1
  | Eq => if Z.even f then f else f + 1
  end.

(** [floor(log2 |x|)] of a nonzero [x]. *)
Definition Qlog2 (x : Q) : Z :=
  let k := Z.log2 (Z.abs (Qnum x)) - Z.log2 (Zpos (Qden x)) in
  if Qle_bool (2 ^ k) (Qabs x) then k else k - 1.

(** The binary64 value nearest to [x], ties to even: a multiple of the unit
    in the last place of [x], which leaves 53 significant bits, or is
    [2^-1074] for [|x| < 2^-1022].  [Q] has no infinity and no signed zero:
    where the hardware gives an infinity (a rounded magnitude of [2^1024]
    or more) or flushes a nonzero result to zero, the exact value is kept. *)
Definition binary64 (x : Q) : Q :=
  if Qeq_bool x 0 then 0%Q
  else
    let ulp := (2 ^ Z.max (Qlog2 x - 52) (-1074))%Q in
    let y := (inject_Z (round_half_even (x / ulp)) * ulp)%Q in
    if (Qeq_bool y 0 || Qle_bool (2 ^ 1024) (Qabs y))%bool then Qred x else Qred y.

(** [x + y], [x - y], [x * y] and [x / y] on floats *)
Definition float_add (x y : Q) : Q := binary64 (x + y).
Definition float_sub (x y : Q) : Q := binary64 (x - y).
Definition float_mul (x y : Q) : Q := binary64 (x * y).
Definition float_div (x y : Q) : Q := binary64 (x / y).

(** [round(x, ndigits)]: the decimal nearest to [x], ties to even, as a
    float. *)
Definition py_round (x : Q) (ndigits : nat) : Q :=
  let scale := inject_Z (10 ^ Z.of_nat ndigits) in
  binary64 (inject_Z (round_half_even (x * scale)) / scale).

(** ** Helper functions of the server *)

Definition validate_date (date_str : string) : bool :=
  match strptime_Y_m_d date_str with Some _ => true | None => false end.

Definition validate_amount (amount : Q) : bool := Qgtb amount 0.

(** ** SQL and dictionary primitives *)

(** An [int] that [sqlite3] accepts as a parameter: it fits 64 bits,
    otherwise binding raises [OverflowError]. *)
Definition fits_int64 (n : Z) : bool :=
  ((- 2 ^ 63 <=? n) && (n <? 2 ^ 63))%bool.

(** [x BETWEEN lo AND hi] on [TEXT] values. *)
Definition sql_between (x lo hi : string) : bool :=
  (String.leb lo x && String.leb x hi)%bool.

(** [SUM] over a column. *)
Definition Qsum (l : list Q) : Q := fold_right Qplus 0%Q l.

(** [COUNT( * )] *)
Definition sql_count {A : Type} (l : list A) : Z := Z.of_nat (List.length l).

(** [ORDER BY]: insertion into a list sorted by the boolean order [leb]. *)
Fixpoint insert_by {A : Type} (leb : A -> A -> bool) (x : A) (l : list A) : list A :=
  match l with
  | [] => [x]
  | y :: l' => if leb x y then x :: l else y :: insert_by leb x l'
  end.

Definition sort_by {A : Type} (leb : A -> A -> bool) (l : list A) : list A :=
  fold_right (insert_by leb) [] l.

(** A Python [dict] with [str] keys, in insertion order. *)
Fixpoint dict_get {V : Type} (k : string) (m : list (string * V)) : option V :=
  match m with
  | [] => None
  | (k', v) :: m' => if String.eqb k' k then Some v else dict_get k m'
  end.

Fixpoint dict_set {V : Type} (k : string) (v : V) (m : list (string * V)) : list (string * V) :=
  match m with
  | [] => [(k, v)]
  | (k', v') :: m' =>
      if String.eqb k' k then (k', v) :: m' else (k', v') :: dict_set k v m'
  end.

Definition dict_mem {V : Type} (k : string) (m : list (string * V)) : bool :=
  match dict_get k m with Some _ => true | None => false end.

(** ** Data model *)

(** A row of [expenses]. *)
Record expense := mkExpense {
  e_id : Z;
  e_date : string;
  e_amount : Q;
  e_category : string;
  e_subcategory : string;
  e_note : string
}.

(** A row of [budgets]; its surrogate [id] is never selected. *)
Record budget := mkBudget {
  b_category : string;
  b_monthly_limit : Q;
  b_alert_threshold : Q
}.

(** A row of [recurring_expenses]. *)
Record recurring := mkRecurring {
  r_id : Z;
  r_amount : Q;
  r_category : string;
  r_subcategory : string;
  r_note : string;
  r_frequency : string;
  r_start_date : string;
  r_end_date : option string;
  r_last_applied : option string;
  r_active : Z
}.

(** The database file: three tables and the two [sqlite_sequence] counters
    the tools depend on. *)
Record db := mkDb {
  expenses : list expense;
  expenses_seq : Z;
  budgets : list budget;
  recurring_expenses : list recurring;
  recurring_seq : Z
}.

(** The state left by [init_db] on a fresh file. *)
Definition init_db : db := mkDb [] 0 [] [] 0.

(** ** Responses *)

(** The [budget_alert] dictionary (its [message] text is left out). *)
Record budget_alert := mkAlert {
  alert_level : string;
  alert_category : string;
  alert_spent : Q;
  alert_limit : Q;
  alert_remaining : Q;
  alert_percentage : Q
}.

(** An element of [subcategories] in the breakdown. *)
Record subcategory_entry := mkSub {
  s_subcategory : string;
  s_total : Q;
  s_count : Z;
  s_average : Q
}.

(** A value of the [breakdown] dictionary. *)
Record category_entry := mkCat {
  c_total : Q;
  c_count : Z;
  c_subcategories : list subcategory_entry
}.

(** An element of [budgets] in the budget status report. *)
Record budget_status := mkStatus {
  bs_category : string;
  bs_limit : Q;
  bs_spent : Q;
  bs_remaining : Q;
  bs_percentage : Q;
  bs_alert_status : string;
  bs_transaction_count : Z
}.

(** The distinct error texts. *)
Inductive message :=
| InvalidDateFormat          (* Invalid date format. Use YYYY-MM-DD *)
| InvalidStartDateFormat     (* Invalid start date format. Use YYYY-MM-DD *)
| InvalidEndDateFormat       (* Invalid end date format. Use YYYY-MM-DD *)
| InvalidMonthFormat         (* Invalid format. Use YYYY-MM *)
| AmountNotPositive          (* Amount must be a positive number *)
| LimitNotPositive           (* Monthly limit must be a positive number *)
| ThresholdOutOfRange        (* Alert threshold must be between 0 and 1 *)
| InvalidFrequency           (* Frequency must be: daily, weekly, monthly, or yearly *)
| InvalidCategory (category : string)
| InvalidSubcategory (subcategory category : string)
| ExpenseNotFound (id : Z)   (* Expense with id .. not found *)
| NoExpensesWithIds          (* No expenses found with the provided IDs *)
| NoExpensesToDelete         (* No expenses to delete *)
| NoExpensesMatching         (* No expenses found matching the criteria *)
| NoDeletionCriteria         (* No deletion criteria provided. ... *)
| NoFieldsToUpdate           (* No fields provided to update *)
| NoBudgetFound (category : string)
| RecurringNotFound (id : Z) (* Recurring expense with id .. not found *)
| Failed.                    (* Failed to ...: the text of a caught exception *)

(** The error of [SELECT id FROM t WHERE id = ?] finding no row for [id]:
    the tool's own not-found message, unless [id] does not fit 64 bits; then
    the bind has raised before any row was looked at, and the [except]
    clause answers.  (No stored key is outside 64 bits, so that case always
    ends here.) *)
Definition lookup_failure (not_found : message) (id : Z) : message :=
  if fits_int64 id then not_found else Failed.

(** A response dictionary: [Error] has status ["error"], every other
    constructor has status ["ok"] and carries the remaining keys. *)
Inductive response :=
| Error (m : message)
| ExpenseAdded (id : Z) (alert : option budget_alert)
| ExpenseList (rows : list expense)
| ExpensesDeleted (deleted_count : Z) (warning : option string)
| ExpenseUpdated (id : Z)
| CategoryBreakdown (start_date end_date : string)
                    (breakdown : list (string * category_entry))
| BudgetSet (category : string)
| NoBudgetsSet
| BudgetStatus (month : string) (report : list budget_status)
| BudgetDeleted (category : string)
| RecurringAdded (recurring_id first_expense_id : Z) (alert : option budget_alert)
| RecurringList (rows : list recurring)
| RecurringDeactivated (id : Z).

(** [response["status"]] *)
Definition status (r : response) : string :=
  match r with Error _ => "error" | _ => "ok" end.

(** [response.get("budget_alert")] *)
Definition budget_alert_of (r : response) : option budget_alert :=
  match r with
  | ExpenseAdded _ a => a
  | RecurringAdded _ _ a => a
  | _ => None
  end.

(** ** Budget threshold computation *)

(** [(spent / limit) * 100 if limit > 0 else 0] *)
Definition percentage_of (spent limit : Q) : Q :=
  if Qgtb limit 0 then float_mul (float_div spent limit) 100 else 0%Q.

(** The alert built by [add_expense] and, with the same text, by
    [add_recurring_expense] once [spent], [limit] and [threshold] are known. *)
Definition threshold_alert (category : string) (spent limit threshold : Q)
  : option budget_alert :=
  let percentage := percentage_of spent limit in
  let remaining := float_sub limit spent in
  if Qgeb percentage 100 then
    Some (mkAlert "CRITICAL" category (py_round spent 2) (py_round limit 2)
                  (py_round remaining 2) (py_round percentage 1))
  else if Qgeb percentage (float_mul threshold 100) then
    Some (mkAlert "WARNING" category (py_round spent 2) (py_round limit 2)
                  (py_round remaining 2) (py_round percentage 1))
  else None.

(** The [alert_status] of [get_budget_status]. *)
Definition alert_status_of (percentage threshold : Q) : string :=
  if Qgeb percentage 100 then "exceeded"
  else if Qgeb percentage (float_mul threshold 100) then "warning"
  else "ok".

(** *** Month boundaries, one transcription per site *)

(** [add_expense], last day of [year_month]; [None] is the [ValueError]
    of [int]. *)
Definition add_expense_last_day (year_month : string) : option string :=
  if endswith year_month "02" then
    match py_int (py_slice_to 4 year_month) with
    | None => None
    | Some year =>
        Some (if ((year mod 4 =? 0)
                  && (negb (year mod 100 =? 0) || (year mod 400 =? 0)))%bool
              then "29" else "28")
    end
  else if endswith_any year_month ["04"; "06"; "09"; "11"] then Some "30"
  else Some "31".

(** [add_recurring_expense], last day of [year_month]. *)
Definition add_recurring_expense_last_day (year_month : string) : option string :=
  if endswith year_month "02" then
    match py_int (py_slice_to 4 year_month) with
    | None => None
    | Some year =>
        Some (if ((year mod 4 =? 0)
                  && (negb (year mod 100 =? 0) || (year mod 400 =? 0)))%bool
              then "29" else "28")
    end
  else if endswith_any year_month ["04"; "06"; "09"; "11"] then Some "30"
  else Some "31".

(** [get_budget_status], last day of [year_month]. *)
Definition get_budget_status_last_day (year_month : string) : option string :=
  if endswith year_month "02" then
    match py_int (py_slice_to 4 year_month) with
    | None => None
    | Some year =>
        Some (if ((year mod 4 =? 0)
                  && (negb (year mod 100 =? 0) || (year mod 400 =? 0)))%bool
              then "29" else "28")
    end
  else if endswith_any year_month ["04"; "06"; "09"; "11"] then Some "30"
  else Some "31".

(** [SELECT COALESCE(SUM(amount), 0) FROM expenses
     WHERE category = ? AND date BETWEEN ? AND ?] *)
Definition in_category_window (category start_date end_date : string) (e : expense) : bool :=
  (String.eqb (e_category e) category
   && sql_between (e_date e) start_date end_date)%bool.

Definition spent_in (d : db) (category start_date end_date : string) : Q :=
  Qsum (map e_amount (filter (in_category_window category start_date end_date) (expenses d))).

(** [SELECT monthly_limit, alert_threshold FROM budgets WHERE category = ?] *)
Definition budget_row (d : db) (category : string) : option budget :=
  find (fun b => String.eqb (b_category b) category) (budgets d).

(** Replacing the [expenses] table. *)
Definition with_expenses (d : db) (rows : list expense) : db :=
  mkDb rows (expenses_seq d) (budgets d) (recurring_expenses d) (recurring_seq d).

(** [INSERT INTO expenses(date, amount, category, subcategory, note)]:
    the new rowid ([lastrowid]) and the database after the insert. *)
Definition insert_expense (date : string) (amount : Q)
           (category subcategory note : string) (d : db) : Z * db :=
  let new_id := expenses_seq d + 1 in
  (new_id,
   mkDb (expenses d ++ [mkExpense new_id date amount category subcategory note])
        new_id (budgets d) (recurring_expenses d) (recurring_seq d)).

(** [ORDER BY date DESC, id DESC]: [e1] may come before [e2]. *)
Definition date_desc_id_desc (e1 e2 : expense) : bool :=
  match String.compare (e_date e2) (e_date e1) with
  | Lt => true
  | Gt => false
  | Eq => e_id e2 <=? e_id e1
  end.

(** [ORDER BY id DESC] on [recurring_expenses]. *)
Definition recurring_id_desc (r1 r2 : recurring) : bool := r_id r2 <=? r_id r1.

(** The [WHERE] clause of the optional category filter ([if category:]). *)
Definition category_filter (category : option string) (e : expense) : bool :=
  match category with
  | Some c => if truthy c then String.eqb (e_category e) c else true
  | None => true
  end.

(** The dynamically built [conditions] of [delete_expense]. *)
Inductive condition :=
| DateBetween (start_date end_date : string)
| CategoryIs (category : string).

Definition condition_holds (c : condition) (e : expense) : bool :=
  match c with
  | DateBetween s t => sql_between (e_date e) s t
  | CategoryIs k => String.eqb (e_category e) k
  end.

(** [" AND ".join(conditions)] as a row predicate. *)
Definition where_clause (conditions : list condition) (e : expense) : bool :=
  forallb (fun c => condition_holds c e) conditions.

(** The dynamically built [updates] of [update_expense]. *)
Inductive assignment :=
| SetDate (v : string)
| SetAmount (v : Q)
| SetCategory (v : string)
| SetSubcategory (v : string)
| SetNote (v : string).

Definition assign (e : expense) (a : assignment) : expense :=
  match a with
  | SetDate v => mkExpense (e_id e) v (e_amount e) (e_category e) (e_subcategory e) (e_note e)
  | SetAmount v => mkExpense (e_id e) (e_date e) v (e_category e) (e_subcategory e) (e_note e)
  | SetCategory v => mkExpense (e_id e) (e_date e) (e_amount e) v (e_subcategory e) (e_note e)
  | SetSubcategory v => mkExpense (e_id e) (e_date e) (e_amount e) (e_category e) v (e_note e)
  | SetNote v => mkExpense (e_id e) (e_date e) (e_amount e) (e_category e) (e_subcategory e) v
  end.

(** [UPDATE expenses SET ... WHERE id = ?] *)
Definition sql_update (updates : list assignment) (id : Z) (rows : list expense) : list expense :=
  map (fun e => if e_id e =? id then fold_left assign updates e else e) rows.

Definition opt_list {A B : Type} (f : A -> B) (o : option A) : list B :=
  match o with Some a => [f a] | None => [] end.

(** [x or ""] *)
Definition or_empty (o : option string) : string :=
  match o with Some s => s | None => "" end.

(** *** [GROUP BY category, subcategory] *)

Record group_row := mkGroup {
  g_category : string;
  g_subcategory : string;
  g_total : Q;
  g_count : Z;
  g_average : Q
}.

Definition same_group (category subcategory : string) (e : expense) : bool :=
  (String.eqb (e_category e) category && String.eqb (e_subcategory e) subcategory)%bool.

Definition group_key (e : expense) : string * string :=
  (e_category e, e_subcategory e).

Definition key_eqb (k1 k2 : string * string) : bool :=
  (String.eqb (fst k1) (fst k2) && String.eqb (snd k1) (snd k2))%bool.

(** The distinct keys of a list of keys. *)
Fixpoint distinct (keys : list (string * string)) : list (string * string) :=
  match keys with
  | [] => []
  | k :: keys' =>
      if existsb (key_eqb k) keys' then distinct keys' else k :: distinct keys'
  end.

(** One output row per group, with [SUM(amount)], [COUNT( * )] and
    [AVG(amount)] over the members of the group. *)
Definition aggregate (rows : list expense) (k : string * string) : group_row :=
  let members := filter (same_group (fst k) (snd k)) rows in
  let total := Qsum (map e_amount members) in
  let count := sql_count members in
  mkGroup (fst k) (snd k) total count (float_div total (inject_Z count)).

Definition group_by_category_subcategory (rows : list expense) : list group_row :=
  map (aggregate rows) (distinct (map group_key rows)).

(** [ORDER BY category, total DESC]: [g1] may come before [g2]. *)
Definition category_asc_total_desc (g1 g2 : group_row) : bool :=
  match String.compare (g_category g1) (g_category g2) with
  | Lt => true
  | Gt => false
  | Eq => Qle_bool (g_total g2) (g_total g1)
  end.

(** One iteration of the loop that organises the rows by category. *)
Definition breakdown_step (breakdown : list (string * category_entry)) (row : group_row)
  : list (string * category_entry) :=
  let cat := g_category row in
  let breakdown :=
    if negb (dict_mem cat breakdown)
    then dict_set cat (mkCat 0%Q 0 []) breakdown
    else breakdown in
  match dict_get cat breakdown with
  | Some entry =>
      dict_set cat
        (mkCat (float_add (c_total entry) (g_total row))
               (c_count entry + g_count row)
               (c_subcategories entry
                  ++ [mkSub (g_subcategory row) (py_round (g_total row) 2)
                            (g_count row) (py_round (g_average row) 2)]))
        breakdown
  | None => breakdown
  end.

(** The loop that rounds the totals. *)
Definition round_totals (breakdown : list (string * category_entry))
  : list (string * category_entry) :=
  map (fun ce => (fst ce, mkCat (py_round (c_total (snd ce)) 2)
                                (c_count (snd ce))
                                (c_subcategories (snd ce))))
      breakdown.

(** The category taxonomy: category name to subcategory names. *)
Definition taxonomy : Type := list (string * list string).

(** ** The tools *)

Section Server.

(** The dictionary returned by [load_categories()]: the contents of
    [categories.json], category name to subcategory names (empty when the
    file cannot be read). *)
Variable load_categories : taxonomy.

(** [SQLITE_MAX_VARIABLE_NUMBER]: the most parameters that one statement
    takes, a build constant of the SQLite library (999 before 3.32, 32766
    since, 250000 in some distributions); with more, [execute] raises
    [OperationalError]. *)
Variable max_variable_number : Z.

(** [None] is [{"valid": True}]; [Some m] is [{"valid": False, "error": m}]. *)
Definition validate_category (category subcategory : string) : option message :=
  match dict_get category load_categories with
  | None => Some (InvalidCategory category)
  | Some subcategories =>
      if (truthy subcategory && negb (existsb (String.eqb subcategory) subcategories))%bool
      then Some (InvalidSubcategory subcategory category)
      else None
  end.

Definition add_expense (date : string) (amount : Q)
           (category subcategory note : string) (d : db) : response * db :=
  if negb (validate_date date) then (Error InvalidDateFormat, d)
  else if negb (validate_amount amount) then (Error AmountNotPositive, d)
  else
    match validate_category category subcategory with
    | Some err => (Error err, d)
    | None =>
        let (expense_id, d1) := insert_expense date amount category subcategory note d in
        let year_month := py_slice_to 7 date in
        match budget_row d1 category with
        | None => (ExpenseAdded expense_id None, d1)
        | Some b =>
            let limit := b_monthly_limit b in
            let threshold := b_alert_threshold b in
            let start_date := year_month ++ "-01" in
            match add_expense_last_day year_month with
            | None => (Error Failed, d1)
            | Some last_day =>
                let end_date := year_month ++ "-" ++ last_day in
                let spent := spent_in d1 category start_date end_date in
                (ExpenseAdded expense_id (threshold_alert category spent limit threshold), d1)
            end
        end
    end.

Definition list_expenses (start_date end_date : string) (category : option string)
           (d : db) : response :=
  if (negb (validate_date start_date) || negb (validate_date end_date))%bool
  then Error InvalidDateFormat
  else
    ExpenseList
      (sort_by date_desc_id_desc
         (filter (fun e => (sql_between (e_date e) start_date end_date
                            && category_filter category e)%bool)
                 (expenses d))).

(** The part of [delete_expense] after the [id] and [ids] modes. *)
Definition delete_by_conditions (start_date end_date category : option string)
           (delete_all : bool) (d : db) : response * db :=
  match
    match start_date, end_date with
    | Some s, Some t =>
        if (negb (validate_date s) || negb (validate_date t))%bool
        then None else Some [DateBetween s t]
    | _, _ => Some []
    end
  with
  | None => (Error InvalidDateFormat, d)
  | Some date_conditions =>
      let conditions := (date_conditions ++ opt_list CategoryIs category)%list in
      if (delete_all && match conditions with [] => true | _ => false end)%bool then
        let count := sql_count (expenses d) in
        if count =? 0 then (Error NoExpensesToDelete, d)
        else (ExpensesDeleted count (Some "All expense data has been cleared"),
              with_expenses d [])
      else
        match conditions with
        | _ :: _ =>
            let count := sql_count (filter (where_clause conditions) (expenses d)) in
            if count =? 0 then (Error NoExpensesMatching, d)
            else (ExpensesDeleted count None,
                  with_expenses d (filter (fun e => negb (where_clause conditions e))
                                          (expenses d)))
        | [] => (Error NoDeletionCriteria, d)
        end
  end.

Definition delete_expense (id : option Z) (ids : option (list Z))
           (start_date end_date category : option string) (delete_all : bool)
           (d : db) : response * db :=
  match id with
  | Some i =>
      if existsb (fun e => e_id e =? i) (expenses d)
      then (ExpensesDeleted 1 None,
            with_expenses d (filter (fun e => negb (e_id e =? i)) (expenses d)))
      else (Error (lookup_failure (ExpenseNotFound i) i), d)
  | None =>
      match ids with
      | Some (i0 :: rest) =>
          let id_list := i0 :: rest in
          if (negb (sql_count id_list <=? max_variable_number)
              || negb (forallb fits_int64 id_list))%bool
          then (Error Failed, d)
          else
            let in_ids := fun e => existsb (Z.eqb (e_id e)) id_list in
            let count := sql_count (filter in_ids (expenses d)) in
            if count =? 0 then (Error NoExpensesWithIds, d)
            else (ExpensesDeleted count None,
                  with_expenses d (filter (fun e => negb (in_ids e)) (expenses d)))
      | _ => delete_by_conditions start_date end_date category delete_all d
      end
  end.

Definition update_expense (id : Z) (date : option string) (amount : option Q)
           (category subcategory note : option string) (d : db) : response * db :=
  if negb (existsb (fun e => e_id e =? id) (expenses d))
  then (Error (lookup_failure (ExpenseNotFound id) id), d)
  else if match date with Some v => negb (validate_date v) | None => false end
  then (Error InvalidDateFormat, d)
  else if match amount with Some v => negb (validate_amount v) | None => false end
  then (Error AmountNotPositive, d)
  else
    match
      match category with
      | Some c => validate_category c (or_empty subcategory)
      | None => None
      end
    with
    | Some err => (Error err, d)
    | None =>
        let updates :=
          (opt_list SetDate date ++ opt_list SetAmount amount
           ++ opt_list SetCategory category ++ opt_list SetSubcategory subcategory
           ++ opt_list SetNote note)%list in
        match updates with
        | [] => (Error NoFieldsToUpdate, d)
        | _ :: _ => (ExpenseUpdated id, with_expenses d (sql_update updates id (expenses d)))
        end
    end.

Definition get_category_breakdown (start_date end_date : string) (d : db) : response :=
  if (negb (validate_date start_date) || negb (validate_date end_date))%bool
  then Error InvalidDateFormat
  else
    let rows :=
      sort_by category_asc_total_desc
        (group_by_category_subcategory
           (filter (fun e => sql_between (e_date e) start_date end_date) (expenses d))) in
    CategoryBreakdown start_date end_date
                      (round_totals (fold_left breakdown_step rows [])).

Definition set_budget (category : string) (monthly_limit alert_threshold : Q)
           (d : db) : response * db :=
  if negb (validate_amount monthly_limit) then (Error LimitNotPositive, d)
  else if negb (Qgtb alert_threshold 0 && Qle_bool alert_threshold 1)%bool
  then (Error ThresholdOutOfRange, d)
  else
    match validate_category category "" with
    | Some err => (Error err, d)
    | None =>
        (BudgetSet category,
         mkDb (expenses d) (expenses_seq d)
              (filter (fun b => negb (String.eqb (b_category b) category)) (budgets d)
                 ++ [mkBudget category monthly_limit alert_threshold])
              (recurring_expenses d) (recurring_seq d))
    end.

Definition get_budget_status (year_month : string) (d : db) : response :=
  match strptime_Y_m year_month with
  | None => Error InvalidMonthFormat
  | Some _ =>
      let start_date := year_month ++ "-01" in
      match get_budget_status_last_day year_month with
      | None => Error Failed
      | Some last_day =>
          let end_date := year_month ++ "-" ++ last_day in
          match budgets d with
          | [] => NoBudgetsSet
          | _ :: _ =>
              BudgetStatus year_month
                (map (fun b =>
                        let category := b_category b in
                        let limit := b_monthly_limit b in
                        let threshold := b_alert_threshold b in
                        let matching :=
                          filter (in_category_window category start_date end_date)
                                 (expenses d) in
                        let spent := Qsum (map e_amount matching) in
                        let percentage := percentage_of spent limit in
                        let remaining := float_sub limit spent in
                        mkStatus category (py_round limit 2) (py_round spent 2)
                                 (py_round remaining 2) (py_round percentage 1)
                                 (alert_status_of percentage threshold)
                                 (sql_count matching))
                     (budgets d))
          end
      end
  end.

Definition delete_budget (category : string) (d : db) : response * db :=
  match budget_row d category with
  | None => (Error (NoBudgetFound category), d)
  | Some _ =>
      (BudgetDeleted category,
       mkDb (expenses d) (expenses_seq d)
            (filter (fun b => negb (String.eqb (b_category b) category)) (budgets d))
            (recurring_expenses d) (recurring_seq d))
  end.

Definition add_recurring_expense (amount : Q) (category frequency start_date : string)
           (subcategory note : string) (end_date : option string)
           (d : db) : response * db :=
  if negb (validate_amount amount) then (Error AmountNotPositive, d)
  else if negb (validate_date start_date) then (Error InvalidStartDateFormat, d)
  else if match end_date with
          | Some t => (truthy t && negb (validate_date t))%bool
          | None => false
          end
  then (Error InvalidEndDateFormat, d)
  else if negb (existsb (String.eqb frequency) ["daily"; "weekly"; "monthly"; "yearly"])
  then (Error InvalidFrequency, d)
  else
    match validate_category category subcategory with
    | Some err => (Error err, d)
    | None =>
        let recurring_id := recurring_seq d + 1 in
        let d0 :=
          mkDb (expenses d) (expenses_seq d) (budgets d)
               (recurring_expenses d
                  ++ [mkRecurring recurring_id amount category subcategory note
                                  frequency start_date end_date (Some start_date) 1])
               recurring_id in
        let recurring_note :=
          if truthy note then "[Recurring " ++ frequency ++ "] " ++ note
          else "Recurring " ++ frequency ++ " expense" in
        let (expense_id, d1) :=
          insert_expense start_date amount category subcategory recurring_note d0 in
        let year_month := py_slice_to 7 start_date in
        match budget_row d1 category with
        | None => (RecurringAdded recurring_id expense_id None, d1)
        | Some b =>
            let limit := b_monthly_limit b in
            let threshold := b_alert_threshold b in
            let month_start := year_month ++ "-01" in
            match add_recurring_expense_last_day year_month with
            | None => (Error Failed, d1)
            | Some last_day =>
                let month_end := year_month ++ "-" ++ last_day in
                let spent := spent_in d1 category month_start month_end in
                (RecurringAdded recurring_id expense_id
                                (threshold_alert category spent limit threshold), d1)
            end
        end
    end.

Definition list_recurring_expenses (active_only : bool) (d : db) : response :=
  RecurringList
    (sort_by recurring_id_desc
       (filter (fun r => if active_only then r_active r =? 1 else true)
               (recurring_expenses d))).

Definition deactivate_recurring_expense (id : Z) (d : db) : response * db :=
  if negb (existsb (fun r => r_id r =? id) (recurring_expenses d))
  then (Error (lookup_failure (RecurringNotFound id) id), d)
  else
    (RecurringDeactivated id,
     mkDb (expenses d) (expenses_seq d) (budgets d)
          (map (fun r =>
                  if r_id r =? id
                  then mkRecurring (r_id r) (r_amount r) (r_category r) (r_subcategory r)
                                   (r_note r) (r_frequency r) (r_start_date r)
                                   (r_end_date r) (r_last_applied r) 0
                  else r)
               (recurring_expenses d))
          (recurring_seq d)).

(** *** Sequences of tool calls *)

Inductive call :=
| AddExpense (date : string) (amount : Q) (category subcategory note : string)
| ListExpenses (start_date end_date : string) (category : option string)
| DeleteExpense (id : option Z) (ids : option (list Z))
                (start_date end_date category : option string) (delete_all : bool)
| UpdateExpense (id : Z) (date : option string) (amount : option Q)
                (category subcategory note : option string)
| GetCategoryBreakdown (start_date end_date : string)
| SetBudget (category : string) (monthly_limit alert_threshold : Q)
| GetBudgetStatus (year_month : string)
| DeleteBudget (category : string)
| AddRecurringExpense (amount : Q) (category frequency start_date : string)
                      (subcategory note : string) (end_date : option string)
| ListRecurringExpenses (active_only : bool)
| DeactivateRecurringExpense (id : Z).

Definition invoke (c : call) (d : db) : response * db :=
  match c with
  | AddExpense date amount category subcategory note =>
      add_expense date amount category subcategory note d
  | ListExpenses s t category => (list_expenses s t category d, d)
  | DeleteExpense id ids s t category delete_all =>
      delete_expense id ids s t category delete_all d
  | UpdateExpense id date amount category subcategory note =>
      update_expense id date amount category subcategory note d
  | GetCategoryBreakdown s t => (get_category_breakdown s t d, d)
  | SetBudget category monthly_limit alert_threshold =>
      set_budget category monthly_limit alert_threshold d
  | GetBudgetStatus year_month => (get_budget_status year_month d, d)
  | DeleteBudget category => delete_budget category d
  | AddRecurringExpense amount category frequency start_date subcategory note end_date =>
      add_recurring_expense amount category frequency start_date subcategory note end_date d
  | ListRecurringExpenses active_only => (list_recurring_expenses active_only d, d)
  | DeactivateRecurringExpense id => deactivate_recurring_expense id d
  end.

(** The database after a sequence of calls. *)
Definition run (calls : list call) (d : db) : db :=
  fold_left (fun s c => snd (invoke c s)) calls d.

End Server.

(** ** Vocabulary of the properties *)

(** The verdict of a budget evaluation, read off the alert of the response:
    the alert's level, or OK when no alert is produced. *)
Definition verdict_of (alert : option budget_alert) : string :=
  match alert with
  | Some a => alert_level a
  | None => "OK"
  end.

(** The decimal digit [k] as a character. *)
Definition digit_char (k : Z) : ascii := ascii_of_N (Z.to_N (48 + k)).

(** Zero-padded decimal fields. *)
Definition pad2 (n : Z) : string :=
  String (digit_char (n / 10)) (String (digit_char (n mod 10)) EmptyString).

Definition pad4 (n : Z) : string :=
  String (digit_char (n / 1000))
    (String (digit_char (n / 100 mod 10))
       (String (digit_char (n / 10 mod 10))
          (String (digit_char (n mod 10)) EmptyString))).

(** The key [YYYY-MM] of a month. *)
Definition year_month_key (year month : Z) : string :=
  (pad4 year ++ "-") ++ pad2 month.

(** The ISO form [YYYY-MM-DD] of a calendar day. *)
Definition iso_date (year month day : Z) : string :=
  pad4 year ++ "-" ++ pad2 month ++ "-" ++ pad2 day.

(** Calendar order on (year, month, day). *)
Definition ymd_le (a b : Z * Z * Z) : Prop :=
  let '(y1, m1, d1) := a in
  let '(y2, m2, d2) := b in
  y1 < y2 \/ (y1 = y2 /\ (m1 < m2 \/ (m1 = m2 /\ d1 <= d2))).

(** The leap-year rule in words: divisible by 4 and (not divisible by 100
    or divisible by 400). *)
Definition leap_year (year : Z) : Prop :=
  (4 | year) /\ (~ (100 | year) \/ (400 | year)).

(** Keys are unique and were allocated by the table's sequence. *)
Definition keys_allocated (ids : list Z) (seq : Z) : Prop :=
  NoDup ids /\ 0 <= seq /\ Forall (fun i => 1 <= i <= seq) ids.

(** Consistency of the stored tables with their key sequences. *)
Definition wf_db (d : db) : Prop :=
  keys_allocated (map e_id (expenses d)) (expenses_seq d)
  /\ keys_allocated (map r_id (recurring_expenses d)) (recurring_seq d).

(** Most recent first: later date, and on equal dates larger id. *)
Definition precedes (e1 e2 : expense) : Prop :=
  String.compare (e_date e2) (e_date e1) = Lt
  \/ (e_date e1 = e_date e2 /\ e_id e2 <= e_id e1).

(** The row of a recurring definition after deactivation. *)
Definition deactivated (r : recurring) : recurring :=
  mkRecurring (r_id r) (r_amount r) (r_category r) (r_subcategory r) (r_note r)
              (r_frequency r) (r_start_date r) (r_end_date r) (r_last_applied r) 0.

(** The value of a field after an update that may or may not provide it. *)
Definition updated {A : Type} (provided : option A) (stored : A) : A :=
  match provided with Some v => v | None => stored end.

(** The row [e] after an update of expense [id]: the provided fields of the
    addressed row are replaced, everything else is as stored. *)
Definition update_row (id : Z) (date : option string) (amount : option Q)
           (category subcategory note : option string) (e : expense) : expense :=
  if e_id e =? id
  then mkExpense (e_id e) (updated date (e_date e)) (updated amount (e_amount e))
                 (updated category (e_category e))
                 (updated subcategory (e_subcategory e)) (updated note (e_note e))
  else e.

(** The validation an update performs on what it is given. *)
Definition provided_fields_valid (tx : taxonomy) (date : option string)
           (amount : option Q) (category subcategory : option string) : Prop :=
  (forall v, date = Some v -> validate_date v = true)
  /\ (forall v, amount = Some v -> validate_amount v = true)
  /\ (forall c, category = Some c -> validate_category tx c (or_empty subcategory) = None).

(** A call other than the deactivation of the recurring definition [id]. *)
Definition keeps_active (id : Z) (c : call) : Prop :=
  match c with
  | DeactivateRecurringExpense j => j <> id
  | _ => True
  end.


(** The expenses of the ledger within an inclusive date range. *)
Definition in_range_rows (d : db) (start_date end_date : string) : list expense :=
  filter (fun e => sql_between (e_date e) start_date end_date) (expenses d).







(** The floats that Python writes 0.8, 79.99 and 99.99. *)
Definition float_0_8 : Q := 3602879701896397 # 4503599627370496.
Definition float_79_99 : Q := 5628795846771343 # 70368744177664.
Definition float_99_99 : Q := 7036170730324623 # 70368744177664.

(** A sample taxonomy and sample databases for the concrete checks. *)
Definition sample_categories : taxonomy :=
  [("food", ["groceries"; "dining"]); ("transport", ["fuel"; "taxi"])].

Definition sample_db : db :=
  mkDb [mkExpense 1 "2024-02-10" 10 "food" "groceries" "milk";
        mkExpense 2 "2024-03-05" (25 # 2) "transport" "fuel" ""]
       2
       [mkBudget "food" 100 (8 # 10)]
       []
       0.

Definition five_db : db :=
  mkDb [mkExpense 4 "2026-01-02" 12 "transport" "taxi" "airport";
        mkExpense 5 "2026-01-03" 30 "food" "dining" "lunch"]
       5 [] [] 0.



(** ** Reporting tools *)

(** The response of a reporting tool: [ReportError] has status ["error"],
    [ReportOk] has status ["ok"] and carries the remaining keys. *)
Inductive report (A : Type) :=
| ReportError (m : message)
| ReportOk (payload : A).

Arguments ReportError {A} m.
Arguments ReportOk {A} payload.







(** [LIMIT n]: a negative [n] means no limit. *)
Definition sql_limit {A : Type} (n : Z) (rows : list A) : list A :=
  if n <? 0 then rows else firstn (Z.to_nat n) rows.

(** [ORDER BY amount DESC] *)
Definition amount_desc (e1 e2 : expense) : bool :=
  Qle_bool (e_amount e2) (e_amount e1).

Definition get_top_expenses (start_date end_date : string) (limit : Z) (d : db)
  : report (list expense) :=
  if (negb (validate_date start_date) || negb (validate_date end_date))%bool
  then ReportError InvalidDateFormat
  else if negb (fits_int64 limit) then ReportError Failed
  else
    ReportOk
      (sql_limit limit
         (sort_by amount_desc
            (filter (fun e => sql_between (e_date e) start_date end_date)
                    (expenses d)))).

(** An element of [budgets] in the listing of budgets. *)
Record budget_entry := mkBudgetEntry {
  le_category : string;
  le_monthly_limit : Q;
  le_alert_threshold : Q
}.

(** [ORDER BY category] on [budgets]. *)
Definition budget_category_asc (b1 b2 : budget) : bool :=
  String.leb (b_category b1) (b_category b2).

(** [list_budgets] has no error path of its own; its payload is the list
    under [budgets]. *)
Definition list_budgets (d : db) : list budget_entry :=
  map (fun b => mkBudgetEntry (b_category b) (py_round (b_monthly_limit b) 2)
                              (b_alert_threshold b))
      (sort_by budget_category_asc (budgets d)).

(** ** Further vocabulary *)

(** What the tools check before they store an expense. *)
Definition expense_valid (tx : taxonomy) (e : expense) : Prop :=
  validate_date (e_date e) = true
  /\ (0 < e_amount e)%Q
  /\ dict_mem (e_category e) tx = true.

(** What [set_budget] checks before it stores a budget. *)
Definition budget_valid (tx : taxonomy) (b : budget) : Prop :=
  (0 < b_monthly_limit b)%Q
  /\ (0 < b_alert_threshold b)%Q /\ (b_alert_threshold b <= 1)%Q
  /\ dict_mem (b_category b) tx = true.

(** What holds of a recurring definition from its creation on. *)
Definition recurring_valid (tx : taxonomy) (r : recurring) : Prop :=
  (0 < r_amount r)%Q
  /\ validate_date (r_start_date r) = true
  /\ In (r_frequency r) ["daily"; "weekly"; "monthly"; "yearly"]
  /\ r_last_applied r = Some (r_start_date r)
  /\ (r_active r = 0 \/ r_active r = 1)
  /\ dict_mem (r_category r) tx = true.

(** The same month and year. *)
Definition same_month (year month year' month' : Z) : Prop :=
  year' = year /\ month' = month.

(** The [alert_status] that corresponds to a verdict. *)
Definition status_of_verdict (verdict : string) : string :=
  if String.eqb verdict "CRITICAL" then "exceeded"
  else if String.eqb verdict "WARNING" then "warning"
  else "ok".

(** A database with two budgets, out of category order. *)
Definition two_budgets_db : db :=
  mkDb [mkExpense 1 "2024-02-10" 60 "transport" "fuel" "";
        mkExpense 2 "2024-02-11" 30 "food" "dining" "";
        mkExpense 3 "2024-02-12" 45 "food" "groceries" ""]
       3
       [mkBudget "transport" 50 (8 # 10); mkBudget "food" 100 (5 # 10)]
       []
       0.

(** * Properties *)

(** ** Budget verdicts *)

Lemma Qgeb_true (x y : Q) : Qgeb x y = true <-> (y <= x)%Q.
Proof. unfold Qgeb. apply Qle_bool_iff. Qed.

Lemma Qgeb_false (x y : Q) : Qgeb x y = false <-> (x < y)%Q.
Proof.
  unfold Qgeb. split; intro H.
  - apply Qnot_le_lt. intro Hle. apply Qle_bool_iff in Hle. congruence.
  - destruct (Qle_bool y x) eqn:E; [|reflexivity].
    apply Qle_bool_iff in E. exfalso. exact (Qlt_not_le _ _ H E).
Qed.

Lemma Qgtb_true (x y : Q) : Qgtb x y = true <-> (y < x)%Q.
Proof.
  unfold Qgtb. rewrite negb_true_iff. apply (Qgeb_false y x).
Qed.

(** *** Rounding to binary64 *)

Lemma round_half_even_nonneg (y : Q) : (0 <= y)%Q -> 0 <= round_half_even y.
Proof.
  intro Hy. unfold round_half_even.
  assert (Hf : 0 <= Qfloor y).
  { change 0 with (Qfloor 0). now apply Qfloor_resp_le. }
  destruct (Qcompare (y - inject_Z (Qfloor y)) (1 # 2)); [|lia|lia].
  destruct (Z.even (Qfloor y)); lia.
Qed.

Lemma binary64_zero (x : Q) : (x == 0)%Q -> binary64 x = 0%Q.
Proof.
  intro H. unfold binary64. apply Qeq_bool_iff in H. now rewrite H.
Qed.

(** Rounding keeps the sign of a positive value. *)
Lemma binary64_positive (x : Q) : (0 < x)%Q -> (0 < binary64 x)%Q.
Proof.
  intro Hx. unfold binary64.
  destruct (Qeq_bool x 0) eqn:E0.
  { apply Qeq_bool_iff in E0. rewrite E0 in Hx. discriminate Hx. }
  set (ulp := (2 ^ Z.max (Qlog2 x - 52) (-1074))%Q).
  assert (Hulp : (0 < ulp)%Q) by (apply Qpower_0_lt; reflexivity).
  set (m := round_half_even (x / ulp)).
  assert (Hm : 0 <= m).
  { apply round_half_even_nonneg. apply Qle_shift_div_l; [exact Hulp|].
    rewrite Qmult_0_l. now apply Qlt_le_weak. }
  destruct (Qeq_bool (inject_Z m * ulp) 0) eqn:Ey; cbn [orb].
  - now rewrite Qred_correct.
  - destruct (Qle_bool (2 ^ 1024) (Qabs (inject_Z m * ulp))); rewrite Qred_correct;
      [exact Hx|].
    apply Qeq_bool_neq in Ey.
    assert (Hy : (0 <= inject_Z m * ulp)%Q).
    { apply Qmult_le_0_compat; [|now apply Qlt_le_weak].
      change 0%Q with (inject_Z 0). now rewrite <- Zle_Qle. }
    apply Qle_lt_or_eq in Hy. destruct Hy as [Hy | Hy]; [exact Hy|].
    exfalso. apply Ey. now symmetry.
Qed.

(** Values of the rounding and of the operations built on it, as Python
    prints them: 0.1, 0.1 + 0.2 = 0.30000000000000004, 3.3 / 10 * 100 =
    32.99999999999999, 0.33 * 100 = 33.0, 0.8 * 100 = 80.0, 1e16 + 0.5 = 1e16,
    round(0.015, 2) = 0.01, round(0.125, 2) = 0.12 and 5e-324 / 2 * 2 (the
    smallest float, halved to the tie that rounds to even). *)
Lemma binary64_known_values :
  binary64 (1 # 10) = (3602879701896397 # 36028797018963968)%Q
  /\ float_add (binary64 (1 # 10)) (binary64 (2 # 10))
     = (1351079888211149 # 4503599627370496)%Q
  /\ float_mul (float_div (binary64 (33 # 10)) 10) 100
     = (4644337115725823 # 140737488355328)%Q
  /\ float_mul (binary64 (33 # 100)) 100 = 33%Q
  /\ float_mul (binary64 (8 # 10)) 100 = 80%Q
  /\ float_add (10 ^ 16) (1 # 2) = (10 ^ 16)%Q
  /\ py_round (binary64 (15 # 1000)) 2 = binary64 (1 # 100)
  /\ py_round (1 # 8) 2 = binary64 (12 # 100)
  /\ binary64 (binary64 (33 # 10)) = binary64 (33 # 10)
  /\ binary64 (8 # 10) = float_0_8
  /\ binary64 (7999 # 100) = float_79_99
  /\ binary64 (9999 # 100) = float_99_99
  /\ (8 # 10 < float_0_8)%Q
  /\ (binary64 ((3 # 2) * 2 ^ (-1074)) == 2 * 2 ^ (-1074))%Q.
Proof. repeat split; vm_compute; reflexivity. Qed.

(** *** The verdict *)

Lemma percentage_of_positive (spent limit : Q) :
  (0 < limit)%Q -> percentage_of spent limit = float_mul (float_div spent limit) 100.
Proof.
  intro H. unfold percentage_of. apply Qgtb_true in H. now rewrite H.
Qed.

Lemma percentage_of_nonpositive (spent limit : Q) :
  (limit <= 0)%Q -> percentage_of spent limit = 0%Q.
Proof.
  intro H. unfold percentage_of, Qgtb. apply Qle_bool_iff in H. now rewrite H.
Qed.

(** The three outcomes of [threshold_alert], by the position of the
    percentage. *)
Lemma threshold_alert_cases (category : string) (spent limit threshold : Q) :
  let p := percentage_of spent limit in
  ((100 <= p)%Q
   /\ verdict_of (threshold_alert category spent limit threshold) = "CRITICAL")
  \/ ((p < 100)%Q /\ (float_mul threshold 100 <= p)%Q
      /\ verdict_of (threshold_alert category spent limit threshold) = "WARNING")
  \/ ((p < 100)%Q /\ (p < float_mul threshold 100)%Q
      /\ threshold_alert category spent limit threshold = None).
Proof.
  intro p. unfold threshold_alert. fold p.
  destruct (Qgeb p 100) eqn:E1.
  - left. split; [now apply Qgeb_true | reflexivity].
  - apply Qgeb_false in E1.
    destruct (Qgeb p (float_mul threshold 100)) eqn:E2.
    + right; left. repeat split; [exact E1 | now apply Qgeb_true].
    + right; right. apply Qgeb_false in E2. now repeat split.
Qed.

(** The comparison is made on the computed floats: 3.3 of 10 is 33 percent
    in decimal arithmetic, but [3.3 / 10 * 100] computes
    32.99999999999999, below [0.33 * 100 = 33.0], and no alert is given. *)
Lemma verdict_on_computed_percentage (category : string) :
  percentage_of (binary64 (33 # 10)) 10 = (4644337115725823 # 140737488355328)%Q
  /\ (percentage_of (binary64 (33 # 10)) 10 < float_mul (binary64 (33 # 100)) 100)%Q
  /\ threshold_alert category (binary64 (33 # 10)) 10 (binary64 (33 # 100)) = None.
Proof. repeat split. Qed.

(** C1. Budget verdict: with percentage = spent/limit*100 as the code
    computes it in binary64 when limit > 0 (and 0 when limit = 0, with no
    division), the evaluation yields CRITICAL exactly when percentage >=
    100, WARNING exactly when threshold*100 (as computed) <= percentage <
    100, and OK exactly otherwise, so exactly one of the three verdicts; the
    threshold boundary is inclusive, as the four boundary cases for limit
    100 and threshold 0.8 show on the floats 80.0, 79.99, 99.99 and 100.0
    (0.8 * 100 is computed as 80.0, although the float 0.8 is slightly more
    than 8/10). *)
Theorem budget_verdict_rule (category : string) (spent limit threshold : Q) :
  let p := percentage_of spent limit in
  let v := verdict_of (threshold_alert category spent limit threshold) in
  ((0 < limit)%Q -> p = float_mul (float_div spent limit) 100)
  /\ (limit == 0 -> p = 0%Q)
  /\ (v = "CRITICAL" <-> (100 <= p)%Q)
  /\ (v = "WARNING" <-> (float_mul threshold 100 <= p)%Q /\ (p < 100)%Q)
  /\ (v = "OK" <-> ~ (100 <= p)%Q /\ ~ (float_mul threshold 100 <= p)%Q)
  /\ (v = "CRITICAL" \/ v = "WARNING" \/ v = "OK")
  /\ verdict_of (threshold_alert category 80 100 float_0_8) = "WARNING"
  /\ verdict_of (threshold_alert category float_79_99 100 float_0_8) = "OK"
  /\ verdict_of (threshold_alert category float_99_99 100 float_0_8) = "WARNING"
  /\ verdict_of (threshold_alert category 100 100 float_0_8) = "CRITICAL".
Proof.
  intros p v.
  split; [apply percentage_of_positive|].
  split; [intro H; apply percentage_of_nonpositive; rewrite H; apply Qle_refl|].
  assert (Hv : v = "CRITICAL" /\ (100 <= p)%Q
               \/ v = "WARNING" /\ (p < 100)%Q /\ (float_mul threshold 100 <= p)%Q
               \/ v = "OK" /\ (p < 100)%Q /\ (p < float_mul threshold 100)%Q).
  { destruct (threshold_alert_cases category spent limit threshold)
      as [[H1 H2] | [[H1 [H2 H3]] | [H1 [H2 H3]]]]; fold p in H1, H2; fold v in H2.
    - left. now split.
    - fold v in H3. right; left. now repeat split.
    - right; right. subst v. rewrite H3. now repeat split. }
  assert (Hex : forall a b : Q, (a < b)%Q -> (b <= a)%Q -> False)
    by (intros a b; apply Qlt_not_le).
  split; [|split; [|split; [|split; [|repeat split; reflexivity]]]].
  - split; intro H.
    + destruct Hv as [[_ H1] | [[E _] | [E _]]];
        [exact H1 | rewrite H in E; discriminate ..].
    + destruct Hv as [[E _] | [[_ [H1 _]] | [_ [H1 _]]]];
        [exact E | exfalso; exact (Hex _ _ H1 H) ..].
  - split; intro H.
    + destruct Hv as [[E _] | [[_ [H1 H2]] | [E _]]];
        [rewrite H in E; discriminate | now split | rewrite H in E; discriminate].
    + destruct H as [H1 H2].
      destruct Hv as [[_ H3] | [[E _] | [_ [_ H3]]]];
        [exfalso; exact (Hex _ _ H2 H3) | exact E | exfalso; exact (Hex _ _ H3 H1)].
  - split; intro H.
    + destruct Hv as [[E _] | [[E _] | [_ [H1 H2]]]];
        [rewrite H in E; discriminate ..
        | split; intro H3; [exact (Hex _ _ H1 H3) | exact (Hex _ _ H2 H3)]].
    + destruct H as [H1 H2].
      destruct Hv as [[_ H3] | [[_ [_ H3]] | [E _]]];
        [exfalso; exact (H1 H3) | exfalso; exact (H2 H3) | exact E].
  - destruct Hv as [[E _] | [[E _] | [E _]]]; auto.
Qed.

Lemma budget_verdict_rule_witness :
  (0 < 100)%Q /\ percentage_of 80 100 = float_mul (float_div 80 100) 100.
Proof.
  split; [reflexivity|].
  apply (proj1 (budget_verdict_rule "food" 80 100 float_0_8)). reflexivity.
Defined.

(** ** Month boundaries *)

Lemma digit_cases (k : Z) :
  0 <= k <= 9 ->
  k = 0 \/ k = 1 \/ k = 2 \/ k = 3 \/ k = 4 \/ k = 5 \/ k = 6 \/ k = 7 \/ k = 8 \/ k = 9.
Proof. lia. Qed.

Ltac each_digit H :=
  apply digit_cases in H;
  repeat (destruct H as [H | H]); subst.

Lemma is_digit_digit_char (k : Z) : 0 <= k <= 9 -> is_digit (digit_char k) = true.
Proof. intro H. each_digit H; reflexivity. Qed.

Lemma digit_value_digit_char (k : Z) : 0 <= k <= 9 -> digit_value (digit_char k) = k.
Proof. intro H. each_digit H; reflexivity. Qed.

Lemma eqb_same_length (s t : string) :
  String.eqb s t = true -> String.length s = String.length t.
Proof. intro H. apply String.eqb_eq in H. now subst. Qed.

Lemma length_append (s t : string) :
  String.length (s ++ t) = (String.length s + String.length t)%nat.
Proof. induction s as [|c s IH]; simpl; [reflexivity | now rewrite IH]. Qed.

Lemma eqb_length_differs (s t : string) :
  String.length s <> String.length t -> String.eqb s t = false.
Proof.
  intro H. destruct (String.eqb s t) eqn:E; [|reflexivity].
  apply eqb_same_length in E. contradiction.
Qed.

Lemma endswith_shorter (t suffix : string) :
  (String.length t < String.length suffix)%nat -> endswith t suffix = false.
Proof.
  induction t as [|c t IH]; intro H; cbn [endswith].
  - rewrite eqb_length_differs by lia. reflexivity.
  - rewrite eqb_length_differs by lia. apply IH. simpl in H. lia.
Qed.

(** A suffix test against a string that ends with a block of the tested
    length only looks at that block. *)
Lemma endswith_append (s t suffix : string) :
  String.length t = String.length suffix ->
  endswith (s ++ t) suffix = String.eqb t suffix.
Proof.
  intro Hlen. induction s as [|c s IH].
  - change ("" ++ t) with t.
    destruct t as [|c t]; cbn [endswith].
    + destruct (String.eqb "" suffix); reflexivity.
    + destruct (String.eqb (String c t) suffix) eqn:E; [reflexivity|].
      apply endswith_shorter. simpl in Hlen. lia.
  - change (String c s ++ t) with (String c (s ++ t)). cbn [endswith].
    rewrite eqb_length_differs; [exact IH|].
    simpl. rewrite length_append. lia.
Qed.

Lemma py_int_pad4 (year : Z) : 0 <= year <= 9999 -> py_int (pad4 year) = Some year.
Proof.
  intro H.
  assert (H1 : 0 <= year / 1000 <= 9)
    by (pose proof (Z.div_pos year 1000);
        pose proof (Z.div_lt_upper_bound year 1000 10); lia).
  assert (H2 : 0 <= year / 100 mod 10 <= 9) by (pose proof (Z.mod_pos_bound (year / 100) 10); lia).
  assert (H3 : 0 <= year / 10 mod 10 <= 9) by (pose proof (Z.mod_pos_bound (year / 10) 10); lia).
  assert (H4 : 0 <= year mod 10 <= 9) by (pose proof (Z.mod_pos_bound year 10); lia).
  unfold py_int, pad4. cbn [list_ascii_of_string int_digits].
  rewrite !is_digit_digit_char, !digit_value_digit_char by assumption.
  f_equal.
  pose proof (Z.div_mod year 10 ltac:(lia)).
  pose proof (Z.div_mod (year / 10) 10 ltac:(lia)).
  pose proof (Z.div_mod (year / 100) 10 ltac:(lia)).
  assert (year / 10 / 10 = year / 100) by (rewrite Z.div_div by lia; reflexivity).
  assert (year / 100 / 10 = year / 1000) by (rewrite Z.div_div by lia; reflexivity).
  lia.
Qed.

Lemma slice_year_of_key (year month : Z) :
  py_slice_to 4 (year_month_key year month) = pad4 year.
Proof. reflexivity. Qed.

Lemma month_cases (month : Z) :
  1 <= month <= 12 ->
  month = 1 \/ month = 2 \/ month = 3 \/ month = 4 \/ month = 5 \/ month = 6
  \/ month = 7 \/ month = 8 \/ month = 9 \/ month = 10 \/ month = 11 \/ month = 12.
Proof. lia. Qed.

Lemma leap_rule_iff (year : Z) :
  ((year mod 4 =? 0) && (negb (year mod 100 =? 0) || (year mod 400 =? 0)))%bool = true
  <-> leap_year year.
Proof.
  unfold leap_year.
  rewrite andb_true_iff, orb_true_iff, negb_true_iff, !Z.eqb_eq, Z.eqb_neq.
  rewrite <- !Z.mod_divide by lia. tauto.
Qed.

(** The last day computed by [add_expense] for a well-formed key. *)
Lemma add_expense_last_day_key (year month : Z) :
  0 <= year <= 9999 -> 1 <= month <= 12 ->
  add_expense_last_day (year_month_key year month)
  = Some (if month =? 2
          then (if ((year mod 4 =? 0)
                    && (negb (year mod 100 =? 0) || (year mod 400 =? 0)))%bool
                then "29" else "28")
          else if ((month =? 4) || (month =? 6) || (month =? 9) || (month =? 11))%bool
               then "30" else "31").
Proof.
  intros Hy Hm. unfold add_expense_last_day, endswith_any.
  rewrite slice_year_of_key, py_int_pad4 by assumption.
  unfold year_month_key. cbn [existsb].
  rewrite !endswith_append
    by (apply month_cases in Hm; repeat (destruct Hm as [Hm | Hm]); subst; reflexivity).
  apply month_cases in Hm; repeat (destruct Hm as [Hm | Hm]); subst; reflexivity.
Qed.

(** C2. Last day of the month window: for every key YYYY-MM the last day
    is 29 for February of a leap year, 28 for February otherwise, 30 for
    April, June, September and November and 31 for every other month; the
    keys 2024-02, 2023-02, 2024-04 and 2024-01 give 29, 28, 30 and 31; and
    the computations of add_expense, add_recurring_expense and
    get_budget_status agree on every key. *)
Theorem month_last_day_rule (year month : Z) :
  0 <= year <= 9999 -> 1 <= month <= 12 ->
  let key := year_month_key year month in
  (month = 2 -> leap_year year -> add_expense_last_day key = Some "29")
  /\ (month = 2 -> ~ leap_year year -> add_expense_last_day key = Some "28")
  /\ (month = 4 \/ month = 6 \/ month = 9 \/ month = 11 ->
      add_expense_last_day key = Some "30")
  /\ (month <> 2 -> month <> 4 -> month <> 6 -> month <> 9 -> month <> 11 ->
      add_expense_last_day key = Some "31")
  /\ add_expense_last_day "2024-02" = Some "29"
  /\ add_expense_last_day "2023-02" = Some "28"
  /\ add_expense_last_day "2024-04" = Some "30"
  /\ add_expense_last_day "2024-01" = Some "31"
  /\ (forall year_month : string,
         add_recurring_expense_last_day year_month = add_expense_last_day year_month
         /\ get_budget_status_last_day year_month = add_expense_last_day year_month).
Proof.
  intros Hy Hm key. subst key.
  rewrite (add_expense_last_day_key year month Hy Hm).
  repeat match goal with |- _ /\ _ => split end; try reflexivity.
  - intros -> Hleap. apply leap_rule_iff in Hleap.
    cbn [Z.eqb Pos.eqb]. now rewrite Hleap.
  - intros -> Hleap. cbn [Z.eqb Pos.eqb].
    destruct ((year mod 4 =? 0)
              && (negb (year mod 100 =? 0) || (year mod 400 =? 0)))%bool eqn:E;
      [|reflexivity].
    apply leap_rule_iff in E. contradiction.
  - intros [-> | [-> | [-> | ->]]]; reflexivity.
  - intros H2 H4 H6 H9 H11.
    apply Z.eqb_neq in H2, H4, H6, H9, H11.
    now rewrite H2, H4, H6, H9, H11.
  - intro year_month. split; reflexivity.
Qed.

Lemma month_last_day_rule_witness :
  0 <= 2024 <= 9999 /\ 1 <= 2 <= 12 /\ leap_year 2024
  /\ add_expense_last_day (year_month_key 2024 2) = Some "29".
Proof.
  assert (Hleap : leap_year 2024).
  { split; [exists 506; reflexivity | left; intros [k Hk]; lia]. }
  split; [lia|]. split; [lia|]. split; [exact Hleap|].
  apply (proj1 (month_last_day_rule 2024 2 ltac:(lia) ltac:(lia)));
    [reflexivity | exact Hleap].
Defined.

(** ** Updates *)

Lemma existsb_id_false (id : Z) (rows : list expense) :
  existsb (fun e => e_id e =? id) rows = false <-> ~ In id (map e_id rows).
Proof.
  induction rows as [|e rows IH]; simpl.
  - split; [intros _ [] | reflexivity].
  - rewrite orb_false_iff, IH, Z.eqb_neq. tauto.
Qed.

Lemma existsb_id_true (id : Z) (rows : list expense) :
  existsb (fun e => e_id e =? id) rows = true <-> In id (map e_id rows).
Proof.
  induction rows as [|e rows IH]; simpl.
  - split; [discriminate | intros []].
  - rewrite orb_true_iff, IH, Z.eqb_eq. tauto.
Qed.

(** The effect of the assembled [SET] list on one row. *)
Lemma assign_updates (date : option string) (amount : option Q)
      (category subcategory note : option string) (e : expense) :
  fold_left assign
            (opt_list SetDate date ++ opt_list SetAmount amount
             ++ opt_list SetCategory category ++ opt_list SetSubcategory subcategory
             ++ opt_list SetNote note)%list e
  = mkExpense (e_id e) (updated date (e_date e)) (updated amount (e_amount e))
              (updated category (e_category e))
              (updated subcategory (e_subcategory e)) (updated note (e_note e)).
Proof.
  destruct e, date, amount, category, subcategory, note; reflexivity.
Qed.

Lemma fits_int64_iff (n : Z) : fits_int64 n = true <-> - 2 ^ 63 <= n < 2 ^ 63.
Proof.
  unfold fits_int64. rewrite andb_true_iff, Z.leb_le, Z.ltb_lt. tauto.
Qed.

(** C10, as stated, fails: 2^63 matches no stored expense, yet the update
    is not answered with the not-found error: binding the id fails first. *)
Lemma update_expense_unbindable_id :
  ~ (forall (tx : taxonomy) (id : Z) (date : option string) (amount : option Q)
            (category subcategory note : option string) (d : db),
        ~ In id (map e_id (expenses d)) ->
        update_expense tx id date amount category subcategory note d
        = (Error (ExpenseNotFound id), d)).
Proof.
  intro H.
  specialize (H sample_categories (2 ^ 63) None (Some 1%Q) None None None sample_db).
  assert (Hid : ~ In (2 ^ 63) (map e_id (expenses sample_db))).
  { simpl. intros [E | [E | []]]; discriminate E. }
  specialize (H Hid). vm_compute in H. discriminate H.
Qed.

(** C10 (amended). An update addressed to an id that matches no stored
    expense changes nothing and returns an error whatever the other
    arguments are, valid or not: the not-found error when the id is within
    SQLite's 64-bit integer range, the failure of the bind otherwise. *)
Theorem update_expense_not_found (tx : taxonomy) (id : Z) (date : option string)
        (amount : option Q) (category subcategory note : option string) (d : db) :
  ~ In id (map e_id (expenses d)) ->
  (- 2 ^ 63 <= id < 2 ^ 63 ->
   update_expense tx id date amount category subcategory note d
   = (Error (ExpenseNotFound id), d))
  /\ (~ - 2 ^ 63 <= id < 2 ^ 63 ->
      update_expense tx id date amount category subcategory note d
      = (Error Failed, d)).
Proof.
  intro H. apply existsb_id_false in H.
  unfold update_expense, lookup_failure. rewrite H. cbn [negb].
  split; intro Hid.
  - apply fits_int64_iff in Hid. now rewrite Hid.
  - destruct (fits_int64 id) eqn:E; [|reflexivity].
    apply fits_int64_iff in E. contradiction.
Qed.

Lemma update_expense_not_found_witness :
  ~ In 7 (map e_id (expenses sample_db))
  /\ update_expense sample_categories 7 (Some "not a date") (Some (-3 # 1))
                    (Some "no such category") None None sample_db
     = (Error (ExpenseNotFound 7), sample_db).
Proof.
  assert (H : ~ In 7 (map e_id (expenses sample_db))).
  { simpl. intros [H | [H | []]]; discriminate H. }
  split; [exact H|].
  apply (proj1 (update_expense_not_found sample_categories 7 (Some "not a date")
                  (Some (-3 # 1)) (Some "no such category") None None sample_db H)).
  lia.
Defined.

Lemma sql_update_rows (id : Z) (date : option string) (amount : option Q)
      (category subcategory note : option string) (rows : list expense) :
  sql_update (opt_list SetDate date ++ opt_list SetAmount amount
              ++ opt_list SetCategory category ++ opt_list SetSubcategory subcategory
              ++ opt_list SetNote note)%list id rows
  = map (update_row id date amount category subcategory note) rows.
Proof.
  unfold sql_update, update_row. apply map_ext. intro e.
  now rewrite assign_updates.
Qed.

(** Every outcome of [update_expense]: either an error that leaves the
    database as it was, or the update of the addressed row. *)
Lemma update_expense_cases (tx : taxonomy) (id : Z) (date : option string)
      (amount : option Q) (category subcategory note : option string) (d : db) :
  (exists m, update_expense tx id date amount category subcategory note d = (Error m, d))
  \/ (update_expense tx id date amount category subcategory note d
      = (ExpenseUpdated id,
         with_expenses d (map (update_row id date amount category subcategory note)
                              (expenses d)))
      /\ In id (map e_id (expenses d))
      /\ provided_fields_valid tx date amount category subcategory
      /\ (opt_list SetDate date ++ opt_list SetAmount amount
          ++ opt_list SetCategory category ++ opt_list SetSubcategory subcategory
          ++ opt_list SetNote note)%list <> []).
Proof.
  unfold update_expense.
  destruct (existsb (fun e => e_id e =? id) (expenses d)) eqn:Eid; simpl;
    [|left; eauto].
  apply existsb_id_true in Eid.
  destruct (match date with Some v => negb (validate_date v) | None => false end) eqn:Ed;
    [left; eauto|].
  destruct (match amount with Some v => negb (validate_amount v) | None => false end) eqn:Ea;
    [left; eauto|].
  destruct (match category with
            | Some c => validate_category tx c (or_empty subcategory)
            | None => None
            end) eqn:Ec; [left; eauto|].
  rewrite <- sql_update_rows.
  destruct (opt_list SetDate date ++ opt_list SetAmount amount
            ++ opt_list SetCategory category ++ opt_list SetSubcategory subcategory
            ++ opt_list SetNote note)%list eqn:Eu; [left; eauto|].
  right. split; [reflexivity|]. split; [exact Eid|]. split; [|discriminate].
  repeat split.
  - intros v ->. now apply negb_false_iff in Ed.
  - intros v ->. now apply negb_false_iff in Ea.
  - intros c ->. exact Ec.
Qed.

(** What makes an update succeed only concerns the arguments provided. *)
Lemma update_expense_ok (tx : taxonomy) (id : Z) (date : option string)
      (amount : option Q) (category subcategory note : option string) (d : db) :
  In id (map e_id (expenses d)) ->
  provided_fields_valid tx date amount category subcategory ->
  (opt_list SetDate date ++ opt_list SetAmount amount
   ++ opt_list SetCategory category ++ opt_list SetSubcategory subcategory
   ++ opt_list SetNote note)%list <> [] ->
  update_expense tx id date amount category subcategory note d
  = (ExpenseUpdated id,
     with_expenses d (map (update_row id date amount category subcategory note)
                          (expenses d))).
Proof.
  intros Hid [Hd [Ha Hc]] Hne.
  apply existsb_id_true in Hid.
  unfold update_expense. rewrite Hid. simpl.
  replace (match date with Some v => negb (validate_date v) | None => false end)
    with false by (destruct date as [v|]; [rewrite (Hd v eq_refl)|]; reflexivity).
  replace (match amount with Some v => negb (validate_amount v) | None => false end)
    with false by (destruct amount as [v|]; [rewrite (Ha v eq_refl)|]; reflexivity).
  replace (match category with
           | Some c => validate_category tx c (or_empty subcategory)
           | None => None
           end)
    with (@None message) by (destruct category as [c|]; [rewrite (Hc c eq_refl)|]; reflexivity).
  rewrite <- sql_update_rows.
  destruct (opt_list SetDate date ++ opt_list SetAmount amount
            ++ opt_list SetCategory category ++ opt_list SetSubcategory subcategory
            ++ opt_list SetNote note)%list; [contradiction | reflexivity].
Qed.

(** C7. An update of a stored expense that omits the category and
    supplies a subcategory succeeds for every subcategory string and writes
    it to the stored row, whatever the category of that row, which stays as
    it is; the subcategory is checked against the taxonomy only when a
    category is supplied in the same call, and then against that supplied
    category. *)
Theorem update_subcategory_unvalidated (tx : taxonomy) (id : Z) (date : option string)
        (amount : option Q) (subcategory : string) (note : option string) (d : db) :
  In id (map e_id (expenses d)) ->
  (forall v, date = Some v -> validate_date v = true) ->
  (forall v, amount = Some v -> validate_amount v = true) ->
  (exists d',
      update_expense tx id date amount None (Some subcategory) note d
      = (ExpenseUpdated id, d')
      /\ expenses d'
         = map (fun e =>
                  if e_id e =? id
                  then mkExpense (e_id e) (updated date (e_date e))
                                 (updated amount (e_amount e)) (e_category e)
                                 subcategory (updated note (e_note e))
                  else e)
               (expenses d)
      /\ (exists e, In e (expenses d') /\ e_id e = id)
      /\ (forall e, In e (expenses d') -> e_id e = id -> e_subcategory e = subcategory)
      /\ map e_category (expenses d') = map e_category (expenses d))
  /\ (forall category err,
         validate_category tx category subcategory = Some err ->
         update_expense tx id date amount (Some category) (Some subcategory) note d
         = (Error err, d))
  /\ (forall category,
         validate_category tx category subcategory = None ->
         exists d',
           update_expense tx id date amount (Some category) (Some subcategory) note d
           = (ExpenseUpdated id, d')
           /\ expenses d'
              = map (fun e =>
                       if e_id e =? id
                       then mkExpense (e_id e) (updated date (e_date e))
                                      (updated amount (e_amount e)) category
                                      subcategory (updated note (e_note e))
                       else e)
                    (expenses d)).
Proof.
  intros Hid Hd Ha.
  assert (Hne : forall category,
             (opt_list SetDate date ++ opt_list SetAmount amount
              ++ opt_list SetCategory category
              ++ opt_list SetSubcategory (Some subcategory)
              ++ opt_list SetNote note)%list <> []).
  { intro category. destruct date, amount, category; discriminate. }
  split; [|split].
  - eexists. split.
    { apply update_expense_ok; [exact Hid | | apply Hne].
      repeat split; [exact Hd | exact Ha | discriminate]. }
    cbn [with_expenses expenses]. split; [reflexivity|]. split; [|split].
    + apply in_map_iff in Hid. destruct Hid as [e0 [He0 Hin]].
      exists (update_row id date amount None (Some subcategory) note e0).
      split; [now apply in_map|].
      unfold update_row. now destruct (e_id e0 =? id).
    + intros e He Heq. apply in_map_iff in He. destruct He as [e0 [<- _]].
      unfold update_row in *. destruct (e_id e0 =? id) eqn:E; [reflexivity|].
      apply Z.eqb_neq in E. contradiction.
    + rewrite map_map. apply map_ext. intro e. unfold update_row.
      now destruct (e_id e =? id).
  - intros category err Hc.
    destruct (update_expense_cases tx id date amount (Some category)
                                   (Some subcategory) note d)
      as [[m Hm] | [_ [_ [[_ [_ Hv]] _]]]].
    + rewrite Hm. f_equal. f_equal.
      revert Hm. unfold update_expense.
      apply existsb_id_true in Hid. rewrite Hid. simpl.
      replace (match date with Some v => negb (validate_date v) | None => false end)
        with false by (destruct date as [v|]; [rewrite (Hd v eq_refl)|]; reflexivity).
      replace (match amount with Some v => negb (validate_amount v) | None => false end)
        with false by (destruct amount as [v|]; [rewrite (Ha v eq_refl)|]; reflexivity).
      rewrite Hc. congruence.
    + specialize (Hv category eq_refl). simpl in Hv. congruence.
  - intros category Hc. eexists. split.
    { apply update_expense_ok; [exact Hid | | apply Hne].
      repeat split; [exact Hd | exact Ha |].
      intros c [= <-]. exact Hc. }
    reflexivity.
Qed.

Lemma update_subcategory_unvalidated_witness :
  In 1 (map e_id (expenses sample_db))
  /\ validate_category sample_categories "food" "fuel"
     = Some (InvalidSubcategory "fuel" "food")
  /\ expenses (snd (update_expense sample_categories 1 None None None (Some "fuel")
                                   None sample_db))
     = [mkExpense 1 "2024-02-10" 10 "food" "fuel" "milk";
        mkExpense 2 "2024-03-05" (25 # 2) "transport" "fuel" ""].
Proof.
  assert (H : In 1 (map e_id (expenses sample_db))) by (simpl; auto).
  split; [exact H|]. split; [reflexivity|].
  destruct (update_subcategory_unvalidated sample_categories 1 None None "fuel"
              None sample_db H
              ltac:(intros v Hv; discriminate Hv)
              ltac:(intros v Hv; discriminate Hv))
    as [[d' [Hrun [Hrows _]]] _].
  rewrite Hrun. cbn [snd]. rewrite Hrows. reflexivity.
Defined.

(** C8. A successful update replaces exactly the provided fields of the
    addressed row: every unprovided field of that row and every other row
    and table stay as stored; the same call succeeds on any database that
    holds the id, so stored fields are never validated; and a call that
    provides no field returns the no-fields validation error and changes
    nothing. *)
Theorem update_expense_frame (tx : taxonomy) (id : Z) (date : option string)
        (amount : option Q) (category subcategory note : option string)
        (d : db) (r : response) (d' : db) :
  update_expense tx id date amount category subcategory note d = (r, d') ->
  status r = "ok" ->
  r = ExpenseUpdated id
  /\ expenses d' = map (update_row id date amount category subcategory note) (expenses d)
  /\ (forall e, e_id e <> id ->
        update_row id date amount category subcategory note e = e)
  /\ (forall e, e_id e = id ->
        update_row id date amount category subcategory note e
        = mkExpense (e_id e) (updated date (e_date e)) (updated amount (e_amount e))
                    (updated category (e_category e))
                    (updated subcategory (e_subcategory e))
                    (updated note (e_note e)))
  /\ (forall e, update_row id None amount None None None e
               = if e_id e =? id
                 then mkExpense (e_id e) (e_date e) (updated amount (e_amount e))
                                (e_category e) (e_subcategory e) (e_note e)
                 else e)
  /\ (expenses_seq d' = expenses_seq d /\ budgets d' = budgets d
      /\ recurring_expenses d' = recurring_expenses d
      /\ recurring_seq d' = recurring_seq d)
  /\ (forall d0, In id (map e_id (expenses d0)) ->
        status (fst (update_expense tx id date amount category subcategory note d0)) = "ok")
  /\ update_expense tx id None None None None None d = (Error NoFieldsToUpdate, d).
Proof.
  intros Hrun Hok.
  destruct (update_expense_cases tx id date amount category subcategory note d)
    as [[m Hm] | [Hu [Hid [Hv Hne]]]].
  - rewrite Hm in Hrun. injection Hrun as <- <-. discriminate Hok.
  - rewrite Hu in Hrun. injection Hrun as <- <-.
    repeat match goal with |- _ /\ _ => split end; try reflexivity.
    + intros e He. unfold update_row. apply Z.eqb_neq in He. now rewrite He.
    + intros e He. unfold update_row. apply Z.eqb_eq in He. now rewrite He.
    + intros d0 Hid0. now rewrite (update_expense_ok tx id _ _ _ _ _ d0 Hid0 Hv Hne).
    + unfold update_expense. apply existsb_id_true in Hid. now rewrite Hid.
Qed.

Lemma update_expense_frame_witness :
  update_expense sample_categories 5 None (Some (85 # 2)) None None None five_db
  = (ExpenseUpdated 5,
     mkDb [mkExpense 4 "2026-01-02" 12 "transport" "taxi" "airport";
           mkExpense 5 "2026-01-03" (85 # 2) "food" "dining" "lunch"]
          5 [] [] 0)
  /\ status (ExpenseUpdated 5) = "ok"
  /\ expenses (mkDb [mkExpense 4 "2026-01-02" 12 "transport" "taxi" "airport";
                     mkExpense 5 "2026-01-03" (85 # 2) "food" "dining" "lunch"]
                    5 [] [] 0)
     = map (update_row 5 None (Some (85 # 2)) None None None) (expenses five_db).
Proof.
  split; [reflexivity|]. split; [reflexivity|].
  apply (proj1 (proj2 (update_expense_frame sample_categories 5 None (Some (85 # 2))
                         None None None five_db _ _ eq_refl eq_refl))).
Defined.

(** ** Deletion modes *)

(** C4, as stated, fails: with only a start date next to delete_all the
    whole ledger is deleted, so delete_all does take effect while another
    addressing field is present. *)
Lemma delete_all_with_lone_start_date :
  ~ (forall (max_vars : Z) (id : option Z) (ids : option (list Z))
            (start_date end_date category : option string)
            (d : db) (n : Z) (w : string) (d' : db),
        delete_expense max_vars id ids start_date end_date category true d
        = (ExpensesDeleted n (Some w), d') ->
        id = None /\ ids = None /\ start_date = None /\ end_date = None
        /\ category = None).
Proof.
  intro H.
  specialize (H 32766 None None (Some "2026-01-01") None None sample_db 2
                "All expense data has been cleared" (with_expenses sample_db [])
                eq_refl).
  destruct H as [_ [_ [H _]]]. discriminate H.
Qed.

(** C4 (amended). Exactly one addressing mode applies, in the order id,
    then a non-empty ids list, then the conditions (a complete date range
    and/or a category), then delete_all, and what a later mode would use is
    ignored; a start date without an end date (or the reverse) and an empty
    ids list are not addressing criteria; delete_all takes effect exactly
    when id is absent, ids is absent or empty, no complete date range and
    no category is given; it then deletes every row and reports the prior
    count, or returns an error on an empty ledger; and a call without any
    criterion returns the no-criteria validation error. *)
Theorem delete_expense_modes (max_vars : Z) (id : option Z) (ids : option (list Z))
        (start_date end_date category : option string) (delete_all : bool) (d : db) :
  (forall i, id = Some i ->
     delete_expense max_vars id ids start_date end_date category delete_all d
     = delete_expense max_vars (Some i) None None None None false d)
  /\ (forall i0 rest, id = None -> ids = Some (i0 :: rest) ->
        delete_expense max_vars id ids start_date end_date category delete_all d
        = delete_expense max_vars None (Some (i0 :: rest)) None None None false d)
  /\ (id = None -> ids = None \/ ids = Some [] ->
      (exists s t, start_date = Some s /\ end_date = Some t) \/ category <> None ->
      delete_expense max_vars id ids start_date end_date category delete_all d
      = delete_expense max_vars None None start_date end_date category false d)
  /\ (id = None -> ids = None \/ ids = Some [] ->
      start_date = None \/ end_date = None ->
      delete_expense max_vars id ids start_date end_date category delete_all d
      = delete_expense max_vars None None None None category delete_all d)
  /\ (id = None -> ids = None \/ ids = Some [] ->
      start_date = None \/ end_date = None -> category = None ->
      delete_all = true ->
      (expenses d <> [] ->
       delete_expense max_vars id ids start_date end_date category delete_all d
       = (ExpensesDeleted (sql_count (expenses d))
                          (Some "All expense data has been cleared"),
          with_expenses d []))
      /\ (expenses d = [] ->
          delete_expense max_vars id ids start_date end_date category delete_all d
          = (Error NoExpensesToDelete, d)))
  /\ (id = None -> ids = None \/ ids = Some [] ->
      start_date = None \/ end_date = None -> category = None ->
      delete_all = false ->
      delete_expense max_vars id ids start_date end_date category delete_all d
      = (Error NoDeletionCriteria, d))
  /\ (forall n w d',
        delete_expense max_vars id ids start_date end_date category delete_all d
        = (ExpensesDeleted n (Some w), d') ->
        id = None /\ (ids = None \/ ids = Some [])
        /\ (start_date = None \/ end_date = None) /\ category = None
        /\ delete_all = true /\ n = sql_count (expenses d)
        /\ expenses d' = []).
Proof.
  repeat match goal with |- _ /\ _ => split end.
  - intros i ->. reflexivity.
  - intros i0 rest -> ->. reflexivity.
  - intros -> Hids Hcond.
    assert (Hrest : delete_expense max_vars None ids start_date end_date category delete_all d
                    = delete_by_conditions start_date end_date category delete_all d)
      by (destruct Hids as [-> | ->]; reflexivity).
    rewrite Hrest. cbn [delete_expense]. unfold delete_by_conditions.
    destruct Hcond as [[s [t [-> ->]]] | Hc].
    + destruct (negb (validate_date s) || negb (validate_date t))%bool; [reflexivity|].
      cbn [app]. now rewrite andb_false_r.
    + destruct category as [c|]; [|contradiction].
      destruct start_date as [s|], end_date as [t|];
        try (cbn [app opt_list]; now rewrite andb_false_r).
      destruct (negb (validate_date s) || negb (validate_date t))%bool; [reflexivity|].
      cbn [app]. now rewrite andb_false_r.
  - intros -> Hids Hdates.
    destruct Hids as [-> | ->];
      destruct Hdates as [-> | ->]; cbn [delete_expense]; unfold delete_by_conditions;
      try reflexivity; destruct start_date; reflexivity.
  - intros -> Hids Hdates -> ->.
    assert (Hrun : delete_expense max_vars None ids start_date end_date None true d
                   = if sql_count (expenses d) =? 0
                     then (Error NoExpensesToDelete, d)
                     else (ExpensesDeleted (sql_count (expenses d))
                             (Some "All expense data has been cleared"),
                           with_expenses d [])).
    { destruct Hids as [-> | ->]; destruct Hdates as [-> | ->];
        cbn [delete_expense]; unfold delete_by_conditions;
        try reflexivity; destruct start_date; reflexivity. }
    rewrite Hrun. split; intro He.
    + destruct (expenses d) as [|e l]; [contradiction|].
      unfold sql_count. cbn [List.length].
      destruct (Z.of_nat (S (List.length l)) =? 0) eqn:E; [|reflexivity].
      apply Z.eqb_eq in E. lia.
    + rewrite He. reflexivity.
  - intros -> Hids Hdates -> ->.
    destruct Hids as [-> | ->]; destruct Hdates as [-> | ->];
      cbn [delete_expense]; unfold delete_by_conditions;
      try reflexivity; destruct start_date; reflexivity.
  - intros n w d' Hrun.
    destruct id as [i|].
    { cbn [delete_expense] in Hrun.
      destruct (existsb (fun e => e_id e =? i) (expenses d)); discriminate Hrun. }
    assert (Hids : (ids = None \/ ids = Some [])
                   /\ delete_by_conditions start_date end_date category delete_all d
                      = (ExpensesDeleted n (Some w), d')).
    { destruct ids as [[|i0 rest]|]; cbn [delete_expense] in Hrun; auto.
      destruct (negb _ || negb _)%bool; [discriminate Hrun|].
      destruct (sql_count _ =? 0); discriminate Hrun. }
    destruct Hids as [Hids Hc]. clear Hrun.
    unfold delete_by_conditions in Hc.
    assert (Hshape : forall conditions,
               (if (delete_all && match conditions with [] => true | _ => false end)%bool
                then
                  if sql_count (expenses d) =? 0 then (Error NoExpensesToDelete, d)
                  else (ExpensesDeleted (sql_count (expenses d))
                          (Some "All expense data has been cleared"),
                        with_expenses d [])
                else
                  match conditions with
                  | _ :: _ =>
                      if sql_count (filter (where_clause conditions) (expenses d)) =? 0
                      then (Error NoExpensesMatching, d)
                      else (ExpensesDeleted
                              (sql_count (filter (where_clause conditions) (expenses d)))
                              None,
                            with_expenses d
                              (filter (fun e => negb (where_clause conditions e))
                                      (expenses d)))
                  | [] => (Error NoDeletionCriteria, d)
                  end) = (ExpensesDeleted n (Some w), d') ->
               conditions = [] /\ delete_all = true
               /\ n = sql_count (expenses d) /\ expenses d' = []).
    { intros conditions Hx.
      destruct delete_all, conditions as [|c0 cs]; cbn [andb] in Hx; cbv iota in Hx.
      - destruct (sql_count (expenses d) =? 0); [discriminate Hx|].
        injection Hx as <- _ <-. auto.
      - destruct (sql_count (filter _ _) =? 0); discriminate Hx.
      - discriminate Hx.
      - destruct (sql_count (filter _ _) =? 0); discriminate Hx. }
    split; [reflexivity|]. split; [exact Hids|].
    destruct start_date as [s|], end_date as [t|];
      try (apply Hshape in Hc; destruct Hc as [Hcs [Hda [Hn Hd]]];
           destruct category; [simpl in Hcs; discriminate Hcs|]; auto 10).
    destruct (negb (validate_date s) || negb (validate_date t))%bool;
      [discriminate Hc|].
    apply Hshape in Hc. destruct Hc as [Hcs _]. discriminate Hcs.
Qed.

Lemma delete_expense_modes_witness :
  expenses sample_db <> []
  /\ delete_expense 32766 None None None None None true sample_db
     = (ExpensesDeleted (sql_count (expenses sample_db))
                        (Some "All expense data has been cleared"),
        with_expenses sample_db []).
Proof.
  assert (Hne : expenses sample_db <> []) by discriminate.
  split; [exact Hne|].
  destruct (delete_expense_modes 32766 None None None None None true sample_db)
    as [_ [_ [_ [_ [H _]]]]].
  apply (H eq_refl (or_introl eq_refl) (or_introl eq_refl) eq_refl eq_refl).
  exact Hne.
Defined.

(** ** Alerts carried by the response of a write *)




(** ** Ordering of listings *)

Section SortBy.

Variable A : Type.
Variable leb : A -> A -> bool.
Hypothesis leb_total : forall x y, leb x y = true \/ leb y x = true.
Hypothesis leb_trans : forall x y z, leb x y = true -> leb y z = true -> leb x z = true.

Lemma insert_by_permutation (x : A) (l : list A) :
  Permutation (insert_by leb x l) (x :: l).
Proof.
  induction l as [|y l IH]; simpl.
  - apply Permutation_refl.
  - destruct (leb x y).
    + apply Permutation_refl.
    + apply Permutation_trans with (y :: x :: l).
      * now apply perm_skip.
      * apply perm_swap.
Qed.

Lemma sort_by_permutation (l : list A) : Permutation (sort_by leb l) l.
Proof.
  induction l as [|x l IH]; simpl.
  - apply perm_nil.
  - apply Permutation_trans with (x :: sort_by leb l).
    + apply insert_by_permutation.
    + now apply perm_skip.
Qed.

Lemma sort_by_In (x : A) (l : list A) : In x (sort_by leb l) <-> In x l.
Proof.
  split; apply Permutation_in;
    [apply sort_by_permutation | apply Permutation_sym, sort_by_permutation].
Qed.

Lemma insert_by_sorted (x : A) (l : list A) :
  StronglySorted (fun a b => leb a b = true) l ->
  StronglySorted (fun a b => leb a b = true) (insert_by leb x l).
Proof.
  induction l as [|y l IH]; intro Hs; simpl.
  - constructor; [constructor | constructor].
  - inversion Hs as [|? ? Hl Hy]; subst.
    destruct (leb x y) eqn:E.
    + constructor; [exact Hs|].
      constructor; [exact E|].
      eapply Forall_impl; [|exact Hy].
      intros z Hz. now apply leb_trans with y.
    + constructor; [now apply IH|].
      assert (Hyx : leb y x = true)
        by (destruct (leb_total x y) as [H | H]; [congruence | exact H]).
      apply Forall_forall. intros z Hz.
      apply (Permutation_in _ (insert_by_permutation x l)) in Hz.
      destruct Hz as [<- | Hz]; [exact Hyx|].
      rewrite Forall_forall in Hy. now apply Hy.
Qed.

Lemma sort_by_sorted (l : list A) :
  StronglySorted (fun a b => leb a b = true) (sort_by leb l).
Proof.
  induction l as [|x l IH]; simpl.
  - constructor.
  - now apply insert_by_sorted.
Qed.

End SortBy.

Lemma compare_refl (s : string) : String.compare s s = Eq.
Proof. now apply String_as_OT.cmp_eq. Qed.

Lemma compare_lt_trans (a b c : string) :
  String.compare a b = Lt -> String.compare b c = Lt -> String.compare a c = Lt.
Proof.
  intros H1 H2. apply String_as_OT.cmp_lt.
  apply String_as_OT.lt_trans with b; now apply String_as_OT.cmp_lt.
Qed.

Lemma date_desc_id_desc_total (e1 e2 : expense) :
  date_desc_id_desc e1 e2 = true \/ date_desc_id_desc e2 e1 = true.
Proof.
  unfold date_desc_id_desc.
  rewrite (String.compare_antisym (e_date e1) (e_date e2)).
  destruct (String.compare (e_date e2) (e_date e1)); simpl; auto.
  destruct (Z.leb_spec (e_id e2) (e_id e1)); [now left|].
  right. apply Z.leb_le. lia.
Qed.

Lemma date_desc_id_desc_trans (e1 e2 e3 : expense) :
  date_desc_id_desc e1 e2 = true -> date_desc_id_desc e2 e3 = true ->
  date_desc_id_desc e1 e3 = true.
Proof.
  unfold date_desc_id_desc.
  destruct (String.compare (e_date e2) (e_date e1)) eqn:E21; try discriminate;
    destruct (String.compare (e_date e3) (e_date e2)) eqn:E32; try discriminate;
    intros H1 H2.
  - apply String.compare_eq_iff in E21, E32. rewrite E32, E21, compare_refl.
    apply Z.leb_le. apply Z.leb_le in H1, H2. lia.
  - apply String.compare_eq_iff in E21. rewrite <- E21. now rewrite E32.
  - apply String.compare_eq_iff in E32. rewrite E32. now rewrite E21.
  - now rewrite (compare_lt_trans _ _ _ E32 E21).
Qed.

Lemma date_desc_id_desc_precedes (e1 e2 : expense) :
  date_desc_id_desc e1 e2 = true <-> precedes e1 e2.
Proof.
  unfold date_desc_id_desc, precedes.
  destruct (String.compare (e_date e2) (e_date e1)) eqn:E.
  - apply String.compare_eq_iff in E. rewrite Z.leb_le. split.
    + intro H. right. now split.
    + intros [H | [_ H]]; [discriminate H | exact H].
  - split; [now left | reflexivity].
  - split; [discriminate|].
    intros [H | [H _]]; [discriminate H|].
    rewrite H, compare_refl in E. discriminate E.
Qed.

Lemma StronglySorted_impl {A : Type} (R S : A -> A -> Prop) (l : list A) :
  (forall x y, R x y -> S x y) -> StronglySorted R l -> StronglySorted S l.
Proof.
  intros HRS Hs. induction Hs as [|x l Hs IH Hx]; constructor.
  - exact IH.
  - eapply Forall_impl; [|exact Hx]. intros y. apply HRS.
Qed.

(** ** Adding and listing *)

(** A date accepted by [validate_date] starts with four digits, so the
    month-boundary computation cannot fail on its key. *)
Lemma valid_date_last_day (date : string) :
  validate_date date = true ->
  exists last_day, add_expense_last_day (py_slice_to 7 date) = Some last_day.
Proof.
  unfold validate_date, strptime_Y_m_d, match_Y_m_d.
  destruct date as [|a [|b [|c [|d rest]]]]; try discriminate.
  cbn [list_ascii_of_string directive_Y].
  destruct (is_digit a) eqn:Ea; [|discriminate].
  destruct (is_digit b) eqn:Eb; [|discriminate].
  destruct (is_digit c) eqn:Ec; [|discriminate].
  destruct (is_digit d) eqn:Ed; [|discriminate].
  intros _. unfold add_expense_last_day.
  destruct (endswith _ "02"); [|destruct (endswith_any _ _); eauto].
  assert (Hslice : py_slice_to 4 (py_slice_to 7 (String a (String b (String c (String d rest)))))
                   = String a (String b (String c (String d ""))))
    by (unfold py_slice_to; simpl; destruct (substring 0 3 rest); reflexivity).
  rewrite Hslice. unfold py_int. cbn [list_ascii_of_string int_digits].
  rewrite Ea, Eb, Ec, Ed. eauto.
Qed.

(** On valid arguments [add_expense] stores the row under the next key. *)
Lemma add_expense_ok (tx : taxonomy) (date : string) (amount : Q)
      (category subcategory note : string) (d : db) :
  validate_date date = true ->
  validate_amount amount = true ->
  validate_category tx category subcategory = None ->
  exists alert,
    add_expense tx date amount category subcategory note d
    = (ExpenseAdded (expenses_seq d + 1) alert,
       snd (insert_expense date amount category subcategory note d)).
Proof.
  intros Hd Ha Hc. unfold add_expense. rewrite Hd, Ha, Hc. cbn [negb].
  unfold insert_expense. cbn [snd].
  destruct (budget_row _ category); [|eauto].
  destruct (valid_date_last_day date Hd) as [last_day ->]. eauto.
Qed.

Lemma keys_allocated_next (ids : list Z) (seq : Z) :
  keys_allocated ids seq -> keys_allocated (ids ++ [seq + 1]) (seq + 1).
Proof.
  intros [Hnd [Hseq Hall]]. split; [|split].
  - apply NoDup_app; [exact Hnd | repeat constructor; intros [] |].
    intros x Hx. rewrite Forall_forall in Hall. apply Hall in Hx. simpl. lia.
  - lia.
  - apply Forall_app. split.
    + eapply Forall_impl; [|exact Hall]. simpl. intros; lia.
    + repeat constructor; lia.
Qed.

Lemma keys_allocated_fresh (ids : list Z) (seq : Z) :
  keys_allocated ids seq -> ~ In (seq + 1) ids.
Proof.
  intros [_ [_ Hall]] Hin. rewrite Forall_forall in Hall. apply Hall in Hin. lia.
Qed.

Lemma filter_keeps_keys_distinct {Row Key : Type} (key : Row -> Key)
      (keep : Row -> bool) (rows : list Row) :
  NoDup (map key rows) -> NoDup (map key (filter keep rows)).
Proof.
  induction rows as [|r rows IH]; simpl; intro Hnd; [constructor|].
  inversion Hnd as [|? ? Hr Hrows]; subst.
  destruct (keep r); simpl; [|now apply IH].
  constructor; [|now apply IH].
  intro Hin. apply Hr. apply in_map_iff in Hin. destruct Hin as [r' [Hk Hin]].
  apply filter_In in Hin. apply in_map_iff. exists r'. tauto.
Qed.

Lemma keys_allocated_filter {A : Type} (f : A -> Z) (p : A -> bool) (l : list A) (seq : Z) :
  keys_allocated (map f l) seq -> keys_allocated (map f (filter p l)) seq.
Proof.
  intros [Hnd [Hseq Hall]]. split; [now apply filter_keeps_keys_distinct|]. split; [exact Hseq|].
  rewrite Forall_forall in *. intros x Hx. apply Hall.
  apply in_map_iff in Hx. destruct Hx as [y [Hy Hin]].
  apply filter_In in Hin. apply in_map_iff. exists y. tauto.
Qed.

Lemma wf_db_insert_expense (date : string) (amount : Q)
      (category subcategory note : string) (d : db) :
  wf_db d -> wf_db (snd (insert_expense date amount category subcategory note d)).
Proof.
  intros [He Hr]. split; [|exact Hr].
  simpl. rewrite map_app. simpl. now apply keys_allocated_next.
Qed.

(** Adding and then listing, with the range given as the inclusive text
    comparison the query performs. *)
Lemma add_then_list_between (tx : taxonomy) (date : string) (amount : Q)
        (category subcategory note : string) (start_date end_date : string) (d : db) :
  wf_db d ->
  validate_date date = true ->
  (0 < amount)%Q ->
  validate_category tx category subcategory = None ->
  validate_date start_date = true ->
  validate_date end_date = true ->
  String.leb start_date date = true ->
  String.leb date end_date = true ->
  exists id alert d' rows,
    add_expense tx date amount category subcategory note d
    = (ExpenseAdded id alert, d')
    /\ list_expenses start_date end_date None d' = ExpenseList rows
    /\ In (mkExpense id date amount category subcategory note) rows
    /\ (forall e, In e rows -> e_id e = id ->
          e = mkExpense id date amount category subcategory note)
    /\ NoDup (map e_id rows)
    /\ StronglySorted precedes rows
    /\ (forall e, In e rows <->
                  In e (expenses d')
                  /\ String.leb start_date (e_date e) = true
                  /\ String.leb (e_date e) end_date = true)
    /\ (exists rows',
          list_expenses start_date end_date (Some category) d' = ExpenseList rows'
          /\ In (mkExpense id date amount category subcategory note) rows').
Proof.
  intros Hwf Hd Ha Hc Hs Ht Hlo Hhi.
  apply Qgtb_true in Ha.
  destruct (add_expense_ok tx date amount category subcategory note d Hd Ha Hc)
    as [alert Hadd].
  pose proof (wf_db_insert_expense date amount category subcategory note d Hwf) as Hwf'.
  set (d' := snd (insert_expense date amount category subcategory note d)) in *.
  set (row := mkExpense (expenses_seq d + 1) date amount category subcategory note).
  assert (Hrows : expenses d' = (expenses d ++ [row])%list) by reflexivity.
  assert (Hin : In row (expenses d'))
    by (rewrite Hrows; apply in_or_app; right; now left).
  assert (Hbetween : sql_between date start_date end_date = true)
    by (unfold sql_between; now rewrite Hlo, Hhi).
  exists (expenses_seq d + 1), alert, d'.
  eexists. split; [exact Hadd|].
  unfold list_expenses. rewrite Hs, Ht. cbn [negb orb].
  split; [reflexivity|].
  assert (Hmem : forall e,
             In e (sort_by date_desc_id_desc
                     (filter (fun e0 => (sql_between (e_date e0) start_date end_date
                                         && category_filter None e0)%bool)
                             (expenses d')))
             <-> In e (expenses d')
                 /\ String.leb start_date (e_date e) = true
                 /\ String.leb (e_date e) end_date = true).
  { intro e. rewrite sort_by_In, filter_In. unfold sql_between. cbn [category_filter].
    rewrite andb_true_r, andb_true_iff. tauto. }
  split; [|split; [|split; [|split; [|split]]]].
  - apply Hmem. auto.
  - intros e He Hid. apply Hmem in He. destruct He as [He _].
    rewrite Hrows in He. apply in_app_or in He. destruct He as [He | [<- | []]].
    + exfalso. destruct Hwf as [Hk _].
      apply (keys_allocated_fresh _ _ Hk). rewrite <- Hid. now apply in_map.
    + reflexivity.
  - apply (Permutation_NoDup
             (l := map e_id (filter (fun e0 => (sql_between (e_date e0) start_date end_date
                                                && category_filter None e0)%bool)
                                    (expenses d')))).
    + apply Permutation_map, Permutation_sym, sort_by_permutation.
    + apply filter_keeps_keys_distinct. destruct Hwf' as [[Hnd _] _]. exact Hnd.
  - apply (StronglySorted_impl (fun a b => date_desc_id_desc a b = true)).
    + intros x y. apply date_desc_id_desc_precedes.
    + apply sort_by_sorted;
        [exact date_desc_id_desc_total | exact date_desc_id_desc_trans].
  - exact Hmem.
  - eexists. split; [reflexivity|].
    rewrite sort_by_In, filter_In. split; [exact Hin|].
    cbv beta. cbn [e_date e_category]. rewrite Hbetween. unfold category_filter.
    destruct (truthy category); [|reflexivity].
    simpl. apply String.eqb_refl.
Qed.

Lemma wf_sample_db : wf_db sample_db.
Proof.
  split; (split; [|split]); simpl.
  - repeat constructor; simpl; intuition discriminate.
  - lia.
  - repeat constructor; lia.
  - constructor.
  - lia.
  - constructor.
Qed.


(** ** Shape of the database after each tool *)

Lemma filter_none {A : Type} (l : list A) : filter (fun _ => false) l = [].
Proof. induction l; simpl; auto. Qed.

Lemma add_expense_db (tx : taxonomy) (date : string) (amount : Q)
      (category subcategory note : string) (d : db) :
  snd (add_expense tx date amount category subcategory note d) = d
  \/ snd (add_expense tx date amount category subcategory note d)
     = snd (insert_expense date amount category subcategory note d).
Proof.
  unfold add_expense.
  destruct (negb (validate_date date)); [now left|].
  destruct (negb (validate_amount amount)); [now left|].
  destruct (validate_category tx category subcategory); [now left|].
  unfold insert_expense. right.
  destruct (budget_row _ category); [|reflexivity].
  destruct (add_expense_last_day _); reflexivity.
Qed.

Lemma delete_by_conditions_db (start_date end_date category : option string)
      (delete_all : bool) (d : db) :
  snd (delete_by_conditions start_date end_date category delete_all d) = d
  \/ exists p,
      snd (delete_by_conditions start_date end_date category delete_all d)
      = with_expenses d (filter p (expenses d)).
Proof.
  unfold delete_by_conditions.
  destruct (match start_date, end_date with
            | Some s, Some t =>
                if (negb (validate_date s) || negb (validate_date t))%bool
                then None else Some [DateBetween s t]
            | _, _ => Some []
            end) as [date_conditions|]; [|now left].
  destruct (delete_all && _)%bool.
  - destruct (sql_count (expenses d) =? 0); [now left|].
    right. exists (fun _ => false). now rewrite filter_none.
  - destruct (date_conditions ++ opt_list CategoryIs category)%list; [now left|].
    destruct (sql_count _ =? 0); [now left|].
    right. eexists. reflexivity.
Qed.

Lemma delete_expense_db (max_vars : Z) (id : option Z) (ids : option (list Z))
      (start_date end_date category : option string) (delete_all : bool) (d : db) :
  snd (delete_expense max_vars id ids start_date end_date category delete_all d) = d
  \/ exists p,
      snd (delete_expense max_vars id ids start_date end_date category delete_all d)
      = with_expenses d (filter p (expenses d)).
Proof.
  unfold delete_expense.
  destruct id as [i|].
  - destruct (existsb _ (expenses d)); [|now left].
    right. eexists. reflexivity.
  - destruct ids as [[|i0 rest]|]; try apply delete_by_conditions_db.
    destruct (negb _ || negb _)%bool; [now left|].
    destruct (sql_count _ =? 0); [now left|].
    right. eexists. reflexivity.
Qed.

Lemma update_expense_db (tx : taxonomy) (id : Z) (date : option string)
      (amount : option Q) (category subcategory note : option string) (d : db) :
  snd (update_expense tx id date amount category subcategory note d) = d
  \/ snd (update_expense tx id date amount category subcategory note d)
     = with_expenses d (map (update_row id date amount category subcategory note)
                            (expenses d)).
Proof.
  destruct (update_expense_cases tx id date amount category subcategory note d)
    as [[m Hm] | [Hu _]]; [rewrite Hm | rewrite Hu]; auto.
Qed.

Lemma update_row_id (id : Z) (date : option string) (amount : option Q)
      (category subcategory note : option string) (rows : list expense) :
  map e_id (map (update_row id date amount category subcategory note) rows)
  = map e_id rows.
Proof.
  rewrite map_map. apply map_ext. intro e. unfold update_row.
  destruct (e_id e =? id); reflexivity.
Qed.

Lemma add_recurring_expense_db (tx : taxonomy) (amount : Q)
      (category frequency start_date subcategory note : string)
      (end_date : option string) (d : db) :
  snd (add_recurring_expense tx amount category frequency start_date subcategory
                             note end_date d) = d
  \/ snd (add_recurring_expense tx amount category frequency start_date subcategory
                                note end_date d)
     = snd (insert_expense start_date amount category subcategory
              (if truthy note then "[Recurring " ++ frequency ++ "] " ++ note
               else "Recurring " ++ frequency ++ " expense")
              (mkDb (expenses d) (expenses_seq d) (budgets d)
                    (recurring_expenses d
                       ++ [mkRecurring (recurring_seq d + 1) amount category subcategory
                                       note frequency start_date end_date
                                       (Some start_date) 1])
                    (recurring_seq d + 1))).
Proof.
  unfold add_recurring_expense.
  destruct (negb (validate_amount amount)); [now left|].
  destruct (negb (validate_date start_date)); [now left|].
  destruct (match end_date with
            | Some t => (truthy t && negb (validate_date t))%bool
            | None => false
            end); [now left|].
  destruct (negb (existsb _ _)); [now left|].
  destruct (validate_category tx category subcategory); [now left|].
  right. unfold insert_expense.
  destruct (budget_row _ category); [|reflexivity].
  destruct (add_recurring_expense_last_day _); reflexivity.
Qed.

Lemma deactivate_recurring_expense_db (id : Z) (d : db) :
  snd (deactivate_recurring_expense id d) = d
  \/ snd (deactivate_recurring_expense id d)
     = mkDb (expenses d) (expenses_seq d) (budgets d)
            (map (fun r => if r_id r =? id then deactivated r else r)
                 (recurring_expenses d))
            (recurring_seq d).
Proof.
  unfold deactivate_recurring_expense.
  destruct (negb (existsb _ _)); [now left | now right].
Qed.

Lemma set_budget_db (tx : taxonomy) (category : string) (monthly_limit alert_threshold : Q)
      (d : db) :
  let d' := snd (set_budget tx category monthly_limit alert_threshold d) in
  expenses d' = expenses d /\ expenses_seq d' = expenses_seq d
  /\ recurring_expenses d' = recurring_expenses d /\ recurring_seq d' = recurring_seq d.
Proof.
  unfold set_budget.
  destruct (negb (validate_amount monthly_limit)); [simpl; auto|].
  destruct (negb _); [simpl; auto|].
  destruct (validate_category tx category ""); simpl; auto.
Qed.

Lemma delete_budget_db (category : string) (d : db) :
  let d' := snd (delete_budget category d) in
  expenses d' = expenses d /\ expenses_seq d' = expenses_seq d
  /\ recurring_expenses d' = recurring_expenses d /\ recurring_seq d' = recurring_seq d.
Proof.
  unfold delete_budget. destruct (budget_row d category); simpl; auto.
Qed.

(** ** Key allocation is preserved by every tool *)

Lemma wf_db_init : wf_db init_db.
Proof. split; (split; [constructor | split; [simpl; lia | constructor]]). Qed.

Lemma wf_db_with_filter (p : expense -> bool) (d : db) :
  wf_db d -> wf_db (with_expenses d (filter p (expenses d))).
Proof.
  intros [He Hr]. split; [|exact Hr]. simpl. now apply keys_allocated_filter.
Qed.

Lemma wf_db_invoke (tx : taxonomy) (max_vars : Z) (c : call) (d : db) :
  wf_db d -> wf_db (snd (invoke tx max_vars c d)).
Proof.
  intro Hwf. destruct c; cbn [invoke snd]; try exact Hwf.
  - destruct (add_expense_db tx date amount category subcategory note d) as [-> | ->];
      [exact Hwf | now apply wf_db_insert_expense].
  - destruct (delete_expense_db max_vars id ids start_date end_date category delete_all d)
      as [-> | [p ->]]; [exact Hwf | now apply wf_db_with_filter].
  - destruct (update_expense_db tx id date amount category subcategory note d)
      as [-> | ->]; [exact Hwf|].
    destruct Hwf as [He Hr]. split; [|exact Hr].
    simpl. now rewrite update_row_id.
  - destruct (set_budget_db tx category monthly_limit alert_threshold d)
      as [H1 [H2 [H3 H4]]].
    unfold wf_db. rewrite H1, H2, H3, H4. exact Hwf.
  - destruct (delete_budget_db category d) as [H1 [H2 [H3 H4]]].
    unfold wf_db. rewrite H1, H2, H3, H4. exact Hwf.
  - destruct (add_recurring_expense_db tx amount category frequency start_date
                subcategory note end_date d) as [-> | ->]; [exact Hwf|].
    apply wf_db_insert_expense.
    destruct Hwf as [He Hr]. split; [exact He|].
    simpl. rewrite map_app. simpl. now apply keys_allocated_next.
  - destruct (deactivate_recurring_expense_db id d) as [-> | ->]; [exact Hwf|].
    destruct Hwf as [He Hr]. split; [exact He|].
    simpl. rewrite map_map.
    replace (map (fun r => r_id (if r_id r =? id then deactivated r else r))
                 (recurring_expenses d))
      with (map r_id (recurring_expenses d)); [exact Hr|].
    apply map_ext. intro r. destruct (r_id r =? id); reflexivity.
Qed.

(** Every database reached from a well-formed one is well-formed; in
    particular every database reached from [init_db]. *)
Lemma wf_db_run (tx : taxonomy) (max_vars : Z) (calls : list call) (d : db) :
  wf_db d -> wf_db (run tx max_vars calls d).
Proof.
  revert d. induction calls as [|c calls IH]; intros d Hwf; [exact Hwf|].
  apply IH. now apply wf_db_invoke.
Qed.

(** ** Recurring definitions *)

(** A stored definition stays as it is under every call that is not its
    deactivation. *)
Lemma recurring_kept_invoke (tx : taxonomy) (max_vars : Z) (c : call) (d : db) (row : recurring) :
  In row (recurring_expenses d) -> keeps_active (r_id row) c ->
  In row (recurring_expenses (snd (invoke tx max_vars c d))).
Proof.
  intros Hin Hc. destruct c; cbn [invoke snd]; try exact Hin.
  - destruct (add_expense_db tx date amount category subcategory note d) as [-> | ->];
      exact Hin.
  - destruct (delete_expense_db max_vars id ids start_date end_date category delete_all d)
      as [-> | [p ->]]; exact Hin.
  - destruct (update_expense_db tx id date amount category subcategory note d)
      as [-> | ->]; exact Hin.
  - destruct (set_budget_db tx category monthly_limit alert_threshold d)
      as [_ [_ [H _]]]. now rewrite H.
  - destruct (delete_budget_db category d) as [_ [_ [H _]]]. now rewrite H.
  - destruct (add_recurring_expense_db tx amount category frequency start_date
                subcategory note end_date d) as [-> | ->]; [exact Hin|].
    simpl. apply in_or_app. now left.
  - destruct (deactivate_recurring_expense_db id d) as [-> | ->]; [exact Hin|].
    simpl in Hc. simpl. apply in_map_iff. exists row. split; [|exact Hin].
    apply Z.eqb_neq in Hc. rewrite Z.eqb_sym in Hc.
    destruct (r_id row =? id) eqn:E; [|reflexivity].
    rewrite Z.eqb_sym in E. congruence.
Qed.

Lemma recurring_kept_run (tx : taxonomy) (max_vars : Z) (calls : list call) (d : db)
      (row : recurring) :
  In row (recurring_expenses d) -> Forall (keeps_active (r_id row)) calls ->
  In row (recurring_expenses (run tx max_vars calls d)).
Proof.
  revert d. induction calls as [|c calls IH]; intros d Hin Hall; [exact Hin|].
  inversion Hall; subst. apply IH; [|assumption].
  now apply recurring_kept_invoke.
Qed.

Lemma recurring_id_desc_total (r1 r2 : recurring) :
  recurring_id_desc r1 r2 = true \/ recurring_id_desc r2 r1 = true.
Proof.
  unfold recurring_id_desc.
  destruct (Z.leb_spec (r_id r2) (r_id r1)); [now left|].
  right. apply Z.leb_le. lia.
Qed.

(** A deactivated definition is never removed nor changed. *)
Lemma inactive_row_kept_invoke (tx : taxonomy) (max_vars : Z) (c : call) (d : db)
      (row : recurring) :
  In row (recurring_expenses d) -> r_active row = 0 ->
  In row (recurring_expenses (snd (invoke tx max_vars c d))).
Proof.
  intros Hin Hzero.
  destruct c; try (apply recurring_kept_invoke; [exact Hin | exact I]).
  cbn [invoke].
  destruct (deactivate_recurring_expense_db id d) as [-> | ->]; [exact Hin|].
  simpl. apply in_map_iff. exists row. split; [|exact Hin].
  destruct (r_id row =? id); [|reflexivity].
  destruct row. simpl in Hzero. subst. reflexivity.
Qed.

Lemma inactive_row_kept_run (tx : taxonomy) (max_vars : Z) (calls : list call) (d : db)
      (row : recurring) :
  In row (recurring_expenses d) -> r_active row = 0 ->
  In row (recurring_expenses (run tx max_vars calls d)).
Proof.
  revert d. induction calls as [|c calls IH]; intros d Hin Hzero; [exact Hin|].
  apply IH; [|exact Hzero]. now apply inactive_row_kept_invoke.
Qed.

(** No call makes a deactivated id active again: keys are never reused
    and no tool sets [active] back to 1. *)
Lemma stays_inactive_invoke (tx : taxonomy) (max_vars : Z) (c : call) (d : db) (id : Z) :
  id <= recurring_seq d ->
  (forall r, In r (recurring_expenses d) -> r_id r = id -> r_active r <> 1) ->
  id <= recurring_seq (snd (invoke tx max_vars c d))
  /\ (forall r, In r (recurring_expenses (snd (invoke tx max_vars c d))) ->
                r_id r = id -> r_active r <> 1).
Proof.
  intros Hseq Hoff. destruct c; cbn [invoke snd]; try (split; assumption).
  - destruct (add_expense_db tx date amount category subcategory note d) as [-> | ->];
      split; assumption.
  - destruct (delete_expense_db max_vars id0 ids start_date end_date category delete_all d)
      as [-> | [p ->]]; split; assumption.
  - destruct (update_expense_db tx id0 date amount category subcategory note d)
      as [-> | ->]; split; assumption.
  - destruct (set_budget_db tx category monthly_limit alert_threshold d)
      as [_ [_ [H1 H2]]]. rewrite H1, H2. split; assumption.
  - destruct (delete_budget_db category d) as [_ [_ [H1 H2]]].
    rewrite H1, H2. split; assumption.
  - destruct (add_recurring_expense_db tx amount category frequency start_date
                subcategory note end_date d) as [-> | ->]; [split; assumption|].
    simpl. split; [lia|].
    intros r Hr Hid. apply in_app_or in Hr. destruct Hr as [Hr | [<- | []]].
    + now apply Hoff.
    + simpl in Hid. lia.
  - destruct (deactivate_recurring_expense_db id0 d) as [-> | ->];
      [split; assumption|].
    simpl. split; [exact Hseq|].
    intros r Hr Hid. apply in_map_iff in Hr. destruct Hr as [r0 [<- Hr0]].
    destruct (r_id r0 =? id0); [simpl; discriminate|].
    now apply Hoff.
Qed.

Lemma stays_inactive_run (tx : taxonomy) (max_vars : Z) (calls : list call) (d : db) (id : Z) :
  id <= recurring_seq d ->
  (forall r, In r (recurring_expenses d) -> r_id r = id -> r_active r <> 1) ->
  forall r, In r (recurring_expenses (run tx max_vars calls d)) -> r_id r = id -> r_active r <> 1.
Proof.
  revert d. induction calls as [|c calls IH]; intros d Hseq Hoff; [exact Hoff|].
  destruct (stays_inactive_invoke tx max_vars c d id Hseq Hoff) as [Hseq' Hoff'].
  exact (IH _ Hseq' Hoff').
Qed.

Lemma recurring_seq_run (tx : taxonomy) (max_vars : Z) (calls : list call) (d : db) (id : Z) :
  id <= recurring_seq d -> id <= recurring_seq (run tx max_vars calls d).
Proof.
  revert d. induction calls as [|c calls IH]; intros d Hseq; [exact Hseq|].
  apply IH.
  destruct c; cbn [invoke snd]; try exact Hseq.
  - destruct (add_expense_db tx date amount category subcategory note d) as [-> | ->];
      exact Hseq.
  - destruct (delete_expense_db max_vars id0 ids start_date end_date category delete_all d)
      as [-> | [p ->]]; exact Hseq.
  - destruct (update_expense_db tx id0 date amount category subcategory note d)
      as [-> | ->]; exact Hseq.
  - destruct (set_budget_db tx category monthly_limit alert_threshold d)
      as [_ [_ [_ H]]]. now rewrite H.
  - destruct (delete_budget_db category d) as [_ [_ [_ H]]]. now rewrite H.
  - destruct (add_recurring_expense_db tx amount category frequency start_date
                subcategory note end_date d) as [-> | ->]; [exact Hseq|].
    simpl. lia.
  - destruct (deactivate_recurring_expense_db id0 d) as [-> | ->]; exact Hseq.
Qed.

(** On valid arguments [add_recurring_expense] stores the definition and
    its first expense under the next keys. *)
Lemma add_recurring_expense_ok (tx : taxonomy) (amount : Q)
      (category frequency start_date subcategory note : string)
      (end_date : option string) (d : db) :
  validate_amount amount = true ->
  validate_date start_date = true ->
  (forall t, end_date = Some t -> t = "" \/ validate_date t = true) ->
  In frequency ["daily"; "weekly"; "monthly"; "yearly"] ->
  validate_category tx category subcategory = None ->
  exists alert,
    add_recurring_expense tx amount category frequency start_date subcategory
                          note end_date d
    = (RecurringAdded (recurring_seq d + 1) (expenses_seq d + 1) alert,
       mkDb (expenses d
               ++ [mkExpense (expenses_seq d + 1) start_date amount category subcategory
                             (if truthy note then "[Recurring " ++ frequency ++ "] " ++ note
                              else "Recurring " ++ frequency ++ " expense")])
            (expenses_seq d + 1) (budgets d)
            (recurring_expenses d
               ++ [mkRecurring (recurring_seq d + 1) amount category subcategory note
                               frequency start_date end_date (Some start_date) 1])
            (recurring_seq d + 1)).
Proof.
  intros Ha Hs He Hf Hc. unfold add_recurring_expense.
  rewrite Ha, Hs, Hc. cbn [negb].
  replace (match end_date with
           | Some t => (truthy t && negb (validate_date t))%bool
           | None => false
           end) with false.
  2:{ destruct end_date as [t|]; [|reflexivity].
      destruct (He t eq_refl) as [-> | ->]; [reflexivity|].
      now rewrite andb_false_r. }
  replace (existsb (String.eqb frequency) ["daily"; "weekly"; "monthly"; "yearly"])
    with true.
  2:{ symmetry. apply existsb_exists. exists frequency.
      split; [exact Hf | apply String.eqb_refl]. }
  cbn [negb]. unfold insert_expense. cbn [expenses expenses_seq budgets
                                            recurring_expenses recurring_seq].
  destruct (budget_row _ category); [|eauto].
  change add_recurring_expense_last_day with add_expense_last_day.
  destruct (valid_date_last_day start_date Hs) as [last_day ->]. eauto.
Qed.

(** C6. A valid add_recurring_expense creates exactly one definition, with
    last_applied equal to the start date and active set, and in the same
    operation exactly one expense dated at the start date whose note marks
    it as the recurring instance (a generated text when no note was given,
    the given note behind a recurring prefix otherwise).  The listing of
    active definitions contains the definition after any sequence of calls
    that does not deactivate it; once deactivated it is absent from the
    active listing, and still present, inactive, in the full listing, after
    any further calls. *)
Theorem recurring_definition_lifecycle (tx : taxonomy) (max_vars : Z) (amount : Q)
        (category frequency start_date subcategory note : string)
        (end_date : option string) (d : db) :
  wf_db d ->
  (0 < amount)%Q ->
  validate_date start_date = true ->
  (forall t, end_date = Some t -> t = "" \/ validate_date t = true) ->
  In frequency ["daily"; "weekly"; "monthly"; "yearly"] ->
  validate_category tx category subcategory = None ->
  let rid := recurring_seq d + 1 in
  let eid := expenses_seq d + 1 in
  let definition :=
    mkRecurring rid amount category subcategory note frequency start_date end_date
                (Some start_date) 1 in
  exists alert d' recurring_note,
    add_recurring_expense tx amount category frequency start_date subcategory
                          note end_date d
    = (RecurringAdded rid eid alert, d')
    /\ recurring_expenses d' = (recurring_expenses d ++ [definition])%list
    /\ ~ In rid (map r_id (recurring_expenses d))
    /\ expenses d'
       = (expenses d
            ++ [mkExpense eid start_date amount category subcategory recurring_note])%list
    /\ ~ In eid (map e_id (expenses d))
    /\ (note = "" -> recurring_note = "Recurring " ++ frequency ++ " expense")
    /\ (note <> "" -> recurring_note = "[Recurring " ++ frequency ++ "] " ++ note)
    /\ (forall calls, Forall (keeps_active rid) calls ->
          (exists rows,
              list_recurring_expenses true (run tx max_vars calls d') = RecurringList rows
              /\ In definition rows)
          /\ fst (deactivate_recurring_expense rid (run tx max_vars calls d'))
             = RecurringDeactivated rid
          /\ (forall later,
                 exists rows,
                   list_recurring_expenses true
                     (run tx max_vars later
                          (snd (deactivate_recurring_expense rid (run tx max_vars calls d'))))
                   = RecurringList rows
                   /\ forall r, In r rows -> r_id r <> rid)
          /\ (forall later,
                 exists rows,
                   list_recurring_expenses false
                     (run tx max_vars later
                          (snd (deactivate_recurring_expense rid (run tx max_vars calls d'))))
                   = RecurringList rows
                   /\ In (deactivated definition) rows)).
Proof.
  intros Hwf Ha Hs He Hf Hc rid eid definition.
  apply Qgtb_true in Ha.
  destruct (add_recurring_expense_ok tx amount category frequency start_date
              subcategory note end_date d Ha Hs He Hf Hc) as [alert Hadd].
  fold rid eid definition in Hadd.
  eexists alert, _, _. split; [exact Hadd|].
  cbn [recurring_expenses expenses].
  split; [reflexivity|].
  split; [destruct Hwf as [_ Hr]; exact (keys_allocated_fresh _ _ Hr)|].
  split; [reflexivity|].
  split; [destruct Hwf as [Hk _]; exact (keys_allocated_fresh _ _ Hk)|].
  split; [intros ->; reflexivity|].
  split.
  { intro Hn. destruct note; [contradiction | reflexivity]. }
  intros calls Hcalls.
  match goal with
  | |- context [run tx max_vars calls ?x] => set (d2 := run tx max_vars calls x)
  end.
  assert (Hin : In definition (recurring_expenses d2)).
  { apply recurring_kept_run; [|exact Hcalls].
    cbn [recurring_expenses]. apply in_or_app. right. now left. }
  assert (Hex : existsb (fun r => r_id r =? rid) (recurring_expenses d2) = true).
  { apply existsb_exists. exists definition. split; [exact Hin|]. apply Z.eqb_refl. }
  split; [|split; [|split]].
  - eexists. split; [reflexivity|].
    apply sort_by_In, filter_In. split; [exact Hin | reflexivity].
  - unfold deactivate_recurring_expense. now rewrite Hex.
  - intro later. eexists. split; [reflexivity|].
    intros r Hr Hid. apply sort_by_In in Hr. apply filter_In in Hr.
    destruct Hr as [Hr Hact]. apply Z.eqb_eq in Hact.
    revert Hact.
    apply (stays_inactive_run tx max_vars later
             (snd (deactivate_recurring_expense rid d2)) rid); [| |exact Hr|exact Hid].
    + unfold deactivate_recurring_expense. rewrite Hex.
      cbn [negb snd recurring_seq].
      apply recurring_seq_run. cbn [recurring_seq]. subst rid. lia.
    + intros r0 Hr0 Hid0.
      unfold deactivate_recurring_expense in Hr0. rewrite Hex in Hr0.
      cbn [negb snd recurring_expenses] in Hr0.
      apply in_map_iff in Hr0. destruct Hr0 as [r1 [Hr1 _]].
      destruct (r_id r1 =? rid) eqn:E.
      * subst r0. simpl. discriminate.
      * subst r0. apply Z.eqb_neq in E. contradiction.
  - intro later. eexists. split; [reflexivity|].
    apply sort_by_In, filter_In. split; [|reflexivity].
    apply inactive_row_kept_run; [|reflexivity].
    unfold deactivate_recurring_expense. rewrite Hex.
    cbn [negb snd recurring_expenses].
    apply in_map_iff. exists definition. split; [|exact Hin].
    subst definition. cbn [r_id].
    now rewrite Z.eqb_refl.
Qed.

Lemma recurring_definition_lifecycle_witness :
  exists alert d' recurring_note,
    add_recurring_expense sample_categories 20 "food" "monthly" "2026-01-15"
                          "dining" "" None sample_db
    = (RecurringAdded 1 3 alert, d')
    /\ recurring_expenses d'
       = [mkRecurring 1 20 "food" "dining" "" "monthly" "2026-01-15" None
                      (Some "2026-01-15") 1]
    /\ expenses d'
       = (expenses sample_db
            ++ [mkExpense 3 "2026-01-15" 20 "food" "dining" recurring_note])%list
    /\ recurring_note = "Recurring monthly expense".
Proof.
  destruct (recurring_definition_lifecycle sample_categories 32766 20 "food" "monthly"
              "2026-01-15" "dining" "" None sample_db wf_sample_db eq_refl eq_refl
              ltac:(intros t Ht; discriminate Ht)
              ltac:(simpl; auto) eq_refl)
    as [alert [d' [recurring_note [H1 [H2 [_ [H3 [_ [H4 _]]]]]]]]].
  exists alert, d', recurring_note.
  split; [exact H1|]. split; [exact H2|]. split; [exact H3|]. now apply H4.
Defined.

(** ** Category breakdown *)












Lemma filter_nothing {A : Type} (p : A -> bool) (l : list A) :
  existsb p l = false -> filter p l = [].
Proof.
  induction l as [|x l IH]; simpl; [reflexivity|].
  destruct (p x); [discriminate | exact IH].
Qed.









(** *** Groups partition the rows *)





Lemma filter_split_permutation {A : Type} (p : A -> bool) (l : list A) :
  Permutation (filter p l ++ filter (fun x => negb (p x)) l) l.
Proof.
  induction l as [|x l IH]; simpl; [constructor|].
  destruct (p x); simpl.
  - now constructor.
  - apply Permutation_sym, Permutation_cons_app, Permutation_sym, IH.
Qed.




(** *** Sums *)











(** *** The query rows against the ledger *)












(** ** ISO dates *)

Lemma digits4 (n : Z) :
  0 <= n <= 9999 ->
  0 <= n / 1000 <= 9 /\ 0 <= n / 100 mod 10 <= 9 /\ 0 <= n / 10 mod 10 <= 9
  /\ 0 <= n mod 10 <= 9
  /\ n = 1000 * (n / 1000) + 100 * (n / 100 mod 10) + 10 * (n / 10 mod 10) + n mod 10.
Proof.
  intro H.
  pose proof (Z.div_pos n 1000).
  pose proof (Z.div_lt_upper_bound n 1000 10).
  pose proof (Z.mod_pos_bound (n / 100) 10).
  pose proof (Z.mod_pos_bound (n / 10) 10).
  pose proof (Z.mod_pos_bound n 10).
  pose proof (Z.div_mod n 10).
  pose proof (Z.div_mod (n / 10) 10).
  pose proof (Z.div_mod (n / 100) 10).
  assert (n / 10 / 10 = n / 100) by (rewrite Z.div_div by lia; reflexivity).
  assert (n / 100 / 10 = n / 1000) by (rewrite Z.div_div by lia; reflexivity).
  lia.
Qed.

Lemma digits2 (n : Z) :
  0 <= n <= 99 ->
  0 <= n / 10 <= 9 /\ 0 <= n mod 10 <= 9 /\ n = 10 * (n / 10) + n mod 10.
Proof.
  intro H.
  pose proof (Z.div_pos n 10).
  pose proof (Z.div_lt_upper_bound n 10 10).
  pose proof (Z.mod_pos_bound n 10).
  pose proof (Z.div_mod n 10).
  lia.
Qed.

Lemma digit_char_compare (a b : Z) :
  0 <= a <= 9 -> 0 <= b <= 9 ->
  Ascii.compare (digit_char a) (digit_char b) = (a ?= b).
Proof.
  intros Ha Hb. each_digit Ha; each_digit Hb; reflexivity.
Qed.

(** On ISO dates the comparison of the stored text is calendar order. *)
Lemma iso_date_leb (y1 m1 d1 y2 m2 d2 : Z) :
  0 <= y1 <= 9999 -> 0 <= m1 <= 99 -> 0 <= d1 <= 99 ->
  0 <= y2 <= 9999 -> 0 <= m2 <= 99 -> 0 <= d2 <= 99 ->
  String.leb (iso_date y1 m1 d1) (iso_date y2 m2 d2) = true
  <-> ymd_le (y1, m1, d1) (y2, m2, d2).
Proof.
  intros Hy1 Hm1 Hd1 Hy2 Hm2 Hd2.
  destruct (digits4 y1 Hy1) as [A1 [B1 [C1 [E1 Y1]]]].
  destruct (digits4 y2 Hy2) as [A2 [B2 [C2 [E2 Y2]]]].
  destruct (digits2 m1 Hm1) as [P1 [Q1 M1]].
  destruct (digits2 m2 Hm2) as [P2 [Q2 M2]].
  destruct (digits2 d1 Hd1) as [R1 [S1 D1]].
  destruct (digits2 d2 Hd2) as [R2 [S2 D2]].
  unfold String.leb, iso_date, pad4, pad2, ymd_le.
  cbn [append String.compare].
  rewrite !digit_char_compare by assumption.
  change (Ascii.compare "-" "-") with Eq. cbv iota.
  revert A1 B1 C1 E1 Y1 A2 B2 C2 E2 Y2 P1 Q1 M1 P2 Q2 M2 R1 S1 D1 R2 S2 D2.
  generalize (y1 / 1000) (y1 / 100 mod 10) (y1 / 10 mod 10) (y1 mod 10)
             (y2 / 1000) (y2 / 100 mod 10) (y2 / 10 mod 10) (y2 mod 10)
             (m1 / 10) (m1 mod 10) (m2 / 10) (m2 mod 10)
             (d1 / 10) (d1 mod 10) (d2 / 10) (d2 mod 10).
  intros a1 b1 c1 e1 a2 b2 c2 e2 p1 q1 p2 q2 r1 s1 r2 s2.
  intros.
  destruct (Z.compare_spec a1 a2); [|split; [intros _; lia | reflexivity]
                                    |split; [discriminate | lia]].
  destruct (Z.compare_spec b1 b2); [|split; [intros _; lia | reflexivity]
                                    |split; [discriminate | lia]].
  destruct (Z.compare_spec c1 c2); [|split; [intros _; lia | reflexivity]
                                    |split; [discriminate | lia]].
  destruct (Z.compare_spec e1 e2); [|split; [intros _; lia | reflexivity]
                                    |split; [discriminate | lia]].
  destruct (Z.compare_spec p1 p2); [|split; [intros _; lia | reflexivity]
                                    |split; [discriminate | lia]].
  destruct (Z.compare_spec q1 q2); [|split; [intros _; lia | reflexivity]
                                    |split; [discriminate | lia]].
  destruct (Z.compare_spec r1 r2); [|split; [intros _; lia | reflexivity]
                                    |split; [discriminate | lia]].
  destruct (Z.compare_spec s1 s2);
    [split; [intros _; lia | reflexivity]
    |split; [intros _; lia | reflexivity]
    |split; [discriminate | lia]].
Qed.

Lemma directive_Y_digits (year : Z) (rest : list ascii) :
  0 <= year <= 9999 ->
  directive_Y (digit_char (year / 1000) :: digit_char (year / 100 mod 10)
               :: digit_char (year / 10 mod 10) :: digit_char (year mod 10) :: rest)
  = Some (year, rest).
Proof.
  intro H. destruct (digits4 year H) as [A [B [C [E Hy]]]].
  unfold directive_Y.
  rewrite !is_digit_digit_char, !digit_value_digit_char by assumption.
  cbn [andb]. now rewrite <- Hy.
Qed.

Lemma directive_m_digits {R : Type} (k : Z * list ascii -> option R) (month : Z)
      (rest : list ascii) (r : R) :
  1 <= month <= 12 ->
  k (month, rest) = Some r ->
  first_match k (directive_m (digit_char (month / 10) :: digit_char (month mod 10) :: rest))
  = Some r.
Proof.
  intros Hm Hk.
  apply month_cases in Hm; repeat (destruct Hm as [Hm | Hm]); subst month;
    vm_compute; now rewrite Hk.
Qed.

Lemma day_cases (day : Z) :
  1 <= day <= 31 ->
  (day = 1 \/ day = 2 \/ day = 3 \/ day = 4 \/ day = 5 \/ day = 6 \/ day = 7
   \/ day = 8 \/ day = 9 \/ day = 10)
  \/ (day = 11 \/ day = 12 \/ day = 13 \/ day = 14 \/ day = 15 \/ day = 16
      \/ day = 17 \/ day = 18 \/ day = 19 \/ day = 20)
  \/ (day = 21 \/ day = 22 \/ day = 23 \/ day = 24 \/ day = 25 \/ day = 26
      \/ day = 27 \/ day = 28 \/ day = 29 \/ day = 30 \/ day = 31).
Proof. lia. Qed.

Lemma directive_d_digits (day : Z) :
  1 <= day <= 31 ->
  exists others,
    directive_d [digit_char (day / 10); digit_char (day mod 10)] = (day, []) :: others.
Proof.
  intro Hd. apply day_cases in Hd.
  destruct Hd as [Hd | [Hd | Hd]]; repeat (destruct Hd as [Hd | Hd]); subst day;
    eexists; reflexivity.
Qed.

Lemma days_in_month_le_31 (year month : Z) : days_in_month year month <= 31.
Proof.
  unfold days_in_month.
  destruct (month =? 2); [destruct (is_leap year); lia|].
  destruct ((month =? 4) || (month =? 6) || (month =? 9) || (month =? 11))%bool; lia.
Qed.

Lemma literal_dash_matches (rest : list ascii) :
  literal_dash ("-"%char :: rest) = Some rest.
Proof. reflexivity. Qed.

(** Every calendar day written in ISO form is accepted. *)
Lemma validate_iso_date (year month day : Z) :
  valid_ymd year month day = true -> validate_date (iso_date year month day) = true.
Proof.
  intro Hv. pose proof Hv as Hb. unfold valid_ymd in Hb.
  repeat (apply andb_true_iff in Hb; destruct Hb as [Hb ?]).
  repeat match goal with
         | H : (_ <=? _) = true |- _ => apply Z.leb_le in H
         end.
  pose proof (days_in_month_le_31 year month).
  unfold validate_date, strptime_Y_m_d, match_Y_m_d, iso_date, pad4, pad2.
  cbn [append list_ascii_of_string].
  rewrite directive_Y_digits by lia. rewrite literal_dash_matches.
  destruct (directive_d_digits day ltac:(lia)) as [others Hday].
  erewrite directive_m_digits; [| lia |].
  2:{ cbn [snd fst]. rewrite literal_dash_matches, Hday. reflexivity. }
  cbv beta iota. now rewrite Hv.
Qed.

Lemma valid_ymd_bounds (year month day : Z) :
  valid_ymd year month day = true ->
  0 <= year <= 9999 /\ 0 <= month <= 99 /\ 0 <= day <= 99.
Proof.
  intro Hb. unfold valid_ymd in Hb.
  repeat (apply andb_true_iff in Hb; destruct Hb as [Hb ?]).
  repeat match goal with
         | H : (_ <=? _) = true |- _ => apply Z.leb_le in H
         end.
  pose proof (days_in_month_le_31 year month). lia.
Qed.

(** C5. For every calendar day (written in ISO form), positive amount and
    category with a valid or empty subcategory, add_expense succeeds, and a
    following list_expenses over any date range that contains the day
    returns the record as given (same id, date, amount, category,
    subcategory and note), once; the listing is ordered by date
    descending, then id descending, and consists of the stored rows whose
    date lies between the two bounds, bounds included. *)
Theorem add_then_list (tx : taxonomy) (year month day : Z) (amount : Q)
        (category subcategory note : string)
        (year1 month1 day1 year2 month2 day2 : Z) (d : db) :
  wf_db d ->
  valid_ymd year month day = true ->
  (0 < amount)%Q ->
  validate_category tx category subcategory = None ->
  valid_ymd year1 month1 day1 = true ->
  valid_ymd year2 month2 day2 = true ->
  ymd_le (year1, month1, day1) (year, month, day) ->
  ymd_le (year, month, day) (year2, month2, day2) ->
  exists id alert d' rows,
    add_expense tx (iso_date year month day) amount category subcategory note d
    = (ExpenseAdded id alert, d')
    /\ list_expenses (iso_date year1 month1 day1) (iso_date year2 month2 day2) None d'
       = ExpenseList rows
    /\ In (mkExpense id (iso_date year month day) amount category subcategory note) rows
    /\ (forall e, In e rows -> e_id e = id ->
          e = mkExpense id (iso_date year month day) amount category subcategory note)
    /\ NoDup (map e_id rows)
    /\ StronglySorted precedes rows
    /\ (forall e, In e rows <->
                  In e (expenses d')
                  /\ String.leb (iso_date year1 month1 day1) (e_date e) = true
                  /\ String.leb (e_date e) (iso_date year2 month2 day2) = true)
    /\ (exists rows',
          list_expenses (iso_date year1 month1 day1) (iso_date year2 month2 day2)
                        (Some category) d'
          = ExpenseList rows'
          /\ In (mkExpense id (iso_date year month day) amount category subcategory note)
                rows').
Proof.
  intros Hwf Hv Ha Hc Hv1 Hv2 Hlo Hhi.
  destruct (valid_ymd_bounds _ _ _ Hv) as [? [? ?]].
  destruct (valid_ymd_bounds _ _ _ Hv1) as [? [? ?]].
  destruct (valid_ymd_bounds _ _ _ Hv2) as [? [? ?]].
  apply add_then_list_between; try assumption.
  - now apply validate_iso_date.
  - now apply validate_iso_date.
  - now apply validate_iso_date.
  - now apply iso_date_leb.
  - now apply iso_date_leb.
Qed.

Lemma add_then_list_witness :
  exists id alert d' rows,
    add_expense sample_categories (iso_date 2024 2 15) 80 "food" "groceries" "market"
                sample_db
    = (ExpenseAdded id alert, d')
    /\ list_expenses (iso_date 2024 2 1) (iso_date 2024 2 29) None d' = ExpenseList rows
    /\ In (mkExpense id (iso_date 2024 2 15) 80 "food" "groceries" "market") rows.
Proof.
  destruct (add_then_list sample_categories 2024 2 15 80 "food" "groceries" "market"
              2024 2 1 2024 2 29 sample_db wf_sample_db
              eq_refl eq_refl eq_refl eq_refl eq_refl
              ltac:(simpl; lia) ltac:(simpl; lia))
    as [id [alert [d' [rows [H1 [H2 [H3 _]]]]]]].
  exists id, alert, d', rows. auto.
Defined.

(** * Further properties *)

(** ** Every outcome of the writing tools *)

Lemma validate_category_known (tx : taxonomy) (category subcategory : string) :
  validate_category tx category subcategory = None -> dict_mem category tx = true.
Proof.
  unfold validate_category, dict_mem.
  destruct (dict_get category tx); [reflexivity | discriminate].
Qed.

Lemma filter_all {A : Type} (l : list A) : filter (fun _ => true) l = l.
Proof. induction l as [|x l IH]; simpl; [|rewrite IH]; reflexivity. Qed.

Lemma add_expense_cases (tx : taxonomy) (date : string) (amount : Q)
      (category subcategory note : string) (d : db) :
  (exists m, add_expense tx date amount category subcategory note d = (Error m, d))
  \/ (validate_date date = true /\ validate_amount amount = true
      /\ validate_category tx category subcategory = None
      /\ exists alert,
          add_expense tx date amount category subcategory note d
          = (ExpenseAdded (expenses_seq d + 1) alert,
             snd (insert_expense date amount category subcategory note d))).
Proof.
  destruct (validate_date date) eqn:Hd;
    [|left; unfold add_expense; rewrite Hd; simpl; eauto].
  destruct (validate_amount amount) eqn:Ha;
    [|left; unfold add_expense; rewrite Hd, Ha; simpl; eauto].
  destruct (validate_category tx category subcategory) as [err|] eqn:Hc;
    [left; unfold add_expense; rewrite Hd, Ha, Hc; simpl; eauto|].
  right. repeat split. now apply add_expense_ok.
Qed.

Lemma delete_by_conditions_cases (start_date end_date category : option string)
      (delete_all : bool) (d : db) :
  (exists m, delete_by_conditions start_date end_date category delete_all d = (Error m, d))
  \/ (exists p w,
         delete_by_conditions start_date end_date category delete_all d
         = (ExpensesDeleted (sql_count (filter p (expenses d))) w,
            with_expenses d (filter (fun e => negb (p e)) (expenses d)))
         /\ sql_count (filter p (expenses d)) <> 0).
Proof.
  unfold delete_by_conditions.
  destruct (match start_date, end_date with
            | Some s, Some t =>
                if (negb (validate_date s) || negb (validate_date t))%bool
                then None else Some [DateBetween s t]
            | _, _ => Some []
            end) as [date_conditions|]; [|left; eauto].
  destruct (delete_all && _)%bool.
  - destruct (sql_count (expenses d) =? 0) eqn:E; [left; eauto|].
    right. exists (fun _ => true), (Some "All expense data has been cleared").
    rewrite filter_all, filter_none. apply Z.eqb_neq in E. now split.
  - destruct (date_conditions ++ opt_list CategoryIs category)%list as [|c0 cs];
      [left; eauto|].
    destruct (sql_count _ =? 0) eqn:E; [left; eauto|].
    right. exists (where_clause (c0 :: cs)), None.
    apply Z.eqb_neq in E. now split.
Qed.

Lemma count_of_key (id : Z) (rows : list expense) :
  NoDup (map e_id rows) ->
  existsb (fun e => e_id e =? id) rows = true ->
  sql_count (filter (fun e => e_id e =? id) rows) = 1.
Proof.
  unfold sql_count. induction rows as [|e rows IH]; simpl; [discriminate|].
  intros Hnd Hex. inversion Hnd as [|? ? He Hrows]; subst.
  destruct (e_id e =? id) eqn:E.
  - apply Z.eqb_eq in E. subst id.
    assert (Hnone : existsb (fun e0 => e_id e0 =? e_id e) rows = false)
      by (apply existsb_id_false; exact He).
    rewrite (filter_nothing _ _ Hnone). reflexivity.
  - simpl in Hex. now apply IH.
Qed.

Lemma delete_expense_cases (max_vars : Z) (id : option Z) (ids : option (list Z))
      (start_date end_date category : option string) (delete_all : bool) (d : db) :
  NoDup (map e_id (expenses d)) ->
  (exists m,
      delete_expense max_vars id ids start_date end_date category delete_all d = (Error m, d))
  \/ (exists p w,
         delete_expense max_vars id ids start_date end_date category delete_all d
         = (ExpensesDeleted (sql_count (filter p (expenses d))) w,
            with_expenses d (filter (fun e => negb (p e)) (expenses d)))
         /\ sql_count (filter p (expenses d)) <> 0).
Proof.
  intro Hnd. unfold delete_expense.
  destruct id as [i|].
  - destruct (existsb (fun e => e_id e =? i) (expenses d)) eqn:E; [|left; eauto].
    right. exists (fun e => e_id e =? i), None.
    rewrite (count_of_key i _ Hnd E). split; [reflexivity | discriminate].
  - destruct ids as [[|i0 rest]|]; try apply delete_by_conditions_cases.
    destruct (negb _ || negb _)%bool; [left; eauto|].
    destruct (sql_count _ =? 0) eqn:E; [left; eauto|].
    right. exists (fun e => existsb (Z.eqb (e_id e)) (i0 :: rest)), None.
    apply Z.eqb_neq in E. now split.
Qed.

Lemma delete_expense_error (max_vars : Z) (id : option Z) (ids : option (list Z))
      (start_date end_date category : option string) (delete_all : bool)
      (d : db) (m : message) (d' : db) :
  delete_expense max_vars id ids start_date end_date category delete_all d = (Error m, d') ->
  d' = d.
Proof.
  unfold delete_expense, delete_by_conditions.
  destruct id as [i|].
  - destruct (existsb _ (expenses d)); intro H; inversion H; reflexivity.
  - destruct ids as [[|i0 rest]|];
      try (destruct (negb _ || negb _)%bool; [intro H; inversion H; reflexivity|];
           destruct (sql_count _ =? 0); intro H; inversion H; reflexivity);
      (destruct (match start_date, end_date with
                 | Some s, Some t =>
                     if (negb (validate_date s) || negb (validate_date t))%bool
                     then None else Some [DateBetween s t]
                 | _, _ => Some []
                 end) as [date_conditions|]; [|intro H; inversion H; reflexivity];
       destruct (delete_all && _)%bool;
       [destruct (sql_count (expenses d) =? 0); intro H; inversion H; reflexivity|];
       destruct (date_conditions ++ opt_list CategoryIs category)%list;
       [intro H; inversion H; reflexivity|];
       destruct (sql_count _ =? 0); intro H; inversion H; reflexivity).
Qed.

Lemma set_budget_cases (tx : taxonomy) (category : string)
      (monthly_limit alert_threshold : Q) (d : db) :
  (exists m, set_budget tx category monthly_limit alert_threshold d = (Error m, d))
  \/ ((0 < monthly_limit)%Q /\ (0 < alert_threshold)%Q /\ (alert_threshold <= 1)%Q
      /\ validate_category tx category "" = None
      /\ set_budget tx category monthly_limit alert_threshold d
         = (BudgetSet category,
            mkDb (expenses d) (expenses_seq d)
                 (filter (fun b => negb (String.eqb (b_category b) category)) (budgets d)
                    ++ [mkBudget category monthly_limit alert_threshold])
                 (recurring_expenses d) (recurring_seq d))).
Proof.
  unfold set_budget.
  destruct (validate_amount monthly_limit) eqn:Hl; [|left; simpl; eauto].
  destruct (Qgtb alert_threshold 0) eqn:H0; [|left; simpl; eauto].
  destruct (Qle_bool alert_threshold 1) eqn:H1; [|left; simpl; eauto].
  destruct (validate_category tx category "") eqn:Hc; [left; simpl; eauto|].
  right. simpl.
  apply Qgtb_true in Hl, H0. apply Qle_bool_iff in H1. auto 6.
Qed.

Lemma delete_budget_cases (category : string) (d : db) :
  (budget_row d category = None
   /\ delete_budget category d = (Error (NoBudgetFound category), d))
  \/ (exists b, budget_row d category = Some b
                /\ delete_budget category d
                   = (BudgetDeleted category,
                      mkDb (expenses d) (expenses_seq d)
                           (filter (fun b => negb (String.eqb (b_category b) category))
                                   (budgets d))
                           (recurring_expenses d) (recurring_seq d))).
Proof.
  unfold delete_budget. destruct (budget_row d category) as [b|]; [right | left]; eauto.
Qed.

Lemma add_recurring_expense_cases (tx : taxonomy) (amount : Q)
      (category frequency start_date subcategory note : string)
      (end_date : option string) (d : db) :
  (exists m,
      add_recurring_expense tx amount category frequency start_date subcategory
                            note end_date d = (Error m, d))
  \/ (validate_amount amount = true /\ validate_date start_date = true
      /\ (forall t, end_date = Some t -> t = "" \/ validate_date t = true)
      /\ In frequency ["daily"; "weekly"; "monthly"; "yearly"]
      /\ validate_category tx category subcategory = None).
Proof.
  unfold add_recurring_expense.
  destruct (validate_amount amount) eqn:Ha; [|left; simpl; eauto].
  destruct (validate_date start_date) eqn:Hs; [|left; simpl; eauto].
  cbn [negb].
  destruct (match end_date with
            | Some t => (truthy t && negb (validate_date t))%bool
            | None => false
            end) eqn:He; [left; eauto|].
  destruct (existsb (String.eqb frequency) ["daily"; "weekly"; "monthly"; "yearly"])
    eqn:Hf; [|left; simpl; eauto].
  cbn [negb].
  destruct (validate_category tx category subcategory) eqn:Hc; [left; eauto|].
  right. repeat split.
  - intros t ->. apply andb_false_iff in He. destruct He as [He | He].
    + left. destruct t; [reflexivity | discriminate].
    + right. now apply negb_false_iff in He.
  - apply existsb_exists in Hf. destruct Hf as [f [Hin Hf]].
    apply String.eqb_eq in Hf. now subst.
Qed.

Lemma deactivate_recurring_expense_cases (id : Z) (d : db) :
  (exists m, deactivate_recurring_expense id d = (Error m, d))
  \/ deactivate_recurring_expense id d
     = (RecurringDeactivated id,
        mkDb (expenses d) (expenses_seq d) (budgets d)
             (map (fun r => if r_id r =? id then deactivated r else r)
                  (recurring_expenses d))
             (recurring_seq d)).
Proof.
  unfold deactivate_recurring_expense.
  destruct (negb (existsb _ _)); [left; eauto | now right].
Qed.

Lemma status_error (r : response) : status r = "error" -> exists m, r = Error m.
Proof. destruct r; try discriminate. eauto. Qed.

(** ** Errors change nothing *)

(** X1. Whatever the tool and its arguments, a response with status
    "error" leaves the whole database as it was. *)
Theorem invoke_error_unchanged (tx : taxonomy) (max_vars : Z) (c : call) (d : db) :
  status (fst (invoke tx max_vars c d)) = "error" -> snd (invoke tx max_vars c d) = d.
Proof.
  destruct c; cbn [invoke fst snd]; try reflexivity; intro Hs.
  - destruct (add_expense_cases tx date amount category subcategory note d)
      as [[m Hm] | [_ [_ [_ [alert Ha]]]]].
    + now rewrite Hm.
    + rewrite Ha in Hs. discriminate Hs.
  - destruct (delete_expense max_vars id ids start_date end_date category delete_all d)
      as [r d'] eqn:E.
    cbn [fst snd] in *. apply status_error in Hs. destruct Hs as [m ->].
    now apply delete_expense_error in E.
  - destruct (update_expense_cases tx id date amount category subcategory note d)
      as [[m Hm] | [Hu _]].
    + now rewrite Hm.
    + rewrite Hu in Hs. discriminate Hs.
  - destruct (set_budget_cases tx category monthly_limit alert_threshold d)
      as [[m Hm] | [_ [_ [_ [_ Hb]]]]].
    + now rewrite Hm.
    + rewrite Hb in Hs. discriminate Hs.
  - destruct (delete_budget_cases category d) as [[_ Hm] | [b [_ Hb]]].
    + now rewrite Hm.
    + rewrite Hb in Hs. discriminate Hs.
  - destruct (add_recurring_expense_cases tx amount category frequency start_date
                subcategory note end_date d)
      as [[m Hm] | [Ha [Hd [He [Hf Hc]]]]].
    + now rewrite Hm.
    + destruct (add_recurring_expense_ok tx amount category frequency start_date
                  subcategory note end_date d Ha Hd He Hf Hc) as [alert Hr].
      rewrite Hr in Hs. discriminate Hs.
  - destruct (deactivate_recurring_expense_cases id d) as [[m Hm] | Hr].
    + now rewrite Hm.
    + rewrite Hr in Hs. discriminate Hs.
Qed.

Lemma invoke_error_unchanged_witness :
  status (fst (invoke sample_categories 32766
                      (AddExpense "2024-02-30" 10 "food" "groceries" "") sample_db))
  = "error"
  /\ snd (invoke sample_categories 32766
                 (AddExpense "2024-02-30" 10 "food" "groceries" "") sample_db)
     = sample_db.
Proof.
  split; [reflexivity|].
  apply (invoke_error_unchanged sample_categories 32766
           (AddExpense "2024-02-30" 10 "food" "groceries" "") sample_db eq_refl).
Defined.

(** ** What the stored rows always satisfy *)

Lemma update_row_valid (tx : taxonomy) (id : Z) (date : option string)
      (amount : option Q) (category subcategory note : option string) (e : expense) :
  provided_fields_valid tx date amount category subcategory ->
  expense_valid tx e ->
  expense_valid tx (update_row id date amount category subcategory note e).
Proof.
  intros [Hd [Ha Hc]] [He1 [He2 He3]]. unfold update_row.
  destruct (e_id e =? id); [|now repeat split].
  repeat split; simpl.
  - destruct date as [v|]; [now apply Hd | exact He1].
  - destruct amount as [v|]; [apply Qgtb_true; now apply Ha | exact He2].
  - destruct category as [c|]; [|exact He3].
    eapply validate_category_known. now apply Hc.
Qed.

Lemma expenses_valid_invoke (tx : taxonomy) (max_vars : Z) (c : call) (d : db) :
  Forall (expense_valid tx) (expenses d) ->
  Forall (expense_valid tx) (expenses (snd (invoke tx max_vars c d))).
Proof.
  intro Hall. destruct c; cbn [invoke snd]; try exact Hall.
  - destruct (add_expense_cases tx date amount category subcategory note d)
      as [[m ->] | [Hd [Ha [Hc [alert ->]]]]]; [exact Hall|].
    simpl. apply Forall_app. split; [exact Hall|].
    repeat constructor; simpl;
      [exact Hd | now apply Qgtb_true | eapply validate_category_known; exact Hc].
  - destruct (delete_expense_db max_vars id ids start_date end_date category delete_all d)
      as [-> | [p ->]]; [exact Hall|].
    simpl. rewrite Forall_forall in *. intros e He.
    apply filter_In in He. now apply Hall.
  - destruct (update_expense_cases tx id date amount category subcategory note d)
      as [[m ->] | [-> [_ [Hv _]]]]; [exact Hall|].
    simpl. rewrite Forall_forall in *. intros e He.
    apply in_map_iff in He. destruct He as [e0 [<- He0]].
    apply update_row_valid; [exact Hv | now apply Hall].
  - destruct (set_budget_db tx category monthly_limit alert_threshold d) as [H _].
    now rewrite H.
  - destruct (delete_budget_db category d) as [H _]. now rewrite H.
  - destruct (add_recurring_expense_cases tx amount category frequency start_date
                subcategory note end_date d)
      as [[m ->] | [Ha [Hd [He [Hf Hc]]]]]; [exact Hall|].
    destruct (add_recurring_expense_ok tx amount category frequency start_date
                subcategory note end_date d Ha Hd He Hf Hc) as [alert ->].
    simpl. apply Forall_app. split; [exact Hall|].
    repeat constructor; simpl;
      [exact Hd | now apply Qgtb_true | eapply validate_category_known; exact Hc].
  - destruct (deactivate_recurring_expense_db id d) as [-> | ->]; exact Hall.
Qed.

(** X2. In every database reached from the empty one by any sequence of
    tool calls, every stored expense has a date that validate_date
    accepts, a positive amount and a category of the taxonomy. *)
Theorem stored_expenses_valid (tx : taxonomy) (max_vars : Z) (calls : list call) :
  Forall (expense_valid tx) (expenses (run tx max_vars calls init_db)).
Proof.
  assert (H : forall d, Forall (expense_valid tx) (expenses d) ->
                        Forall (expense_valid tx) (expenses (run tx max_vars calls d))).
  { induction calls as [|c calls IH]; intros d Hd; [exact Hd|].
    apply IH. now apply expenses_valid_invoke. }
  apply H. constructor.
Qed.

Lemma budgets_invoke (tx : taxonomy) (max_vars : Z) (c : call) (d : db) :
  budgets (snd (invoke tx max_vars c d)) = budgets d
  \/ (exists category monthly_limit alert_threshold,
         budget_valid tx (mkBudget category monthly_limit alert_threshold)
         /\ budgets (snd (invoke tx max_vars c d))
            = (filter (fun b => negb (String.eqb (b_category b) category)) (budgets d)
                 ++ [mkBudget category monthly_limit alert_threshold])%list)
  \/ (exists category,
         budgets (snd (invoke tx max_vars c d))
         = filter (fun b => negb (String.eqb (b_category b) category)) (budgets d)).
Proof.
  destruct c; cbn [invoke snd]; try (now left).
  - left. destruct (add_expense_db tx date amount category subcategory note d)
      as [-> | ->]; reflexivity.
  - left. destruct (delete_expense_db max_vars id ids start_date end_date category delete_all d)
      as [-> | [p ->]]; reflexivity.
  - left. destruct (update_expense_db tx id date amount category subcategory note d)
      as [-> | ->]; reflexivity.
  - destruct (set_budget_cases tx category monthly_limit alert_threshold d)
      as [[m ->] | [Hl [H0 [H1 [Hc ->]]]]]; [now left|].
    right; left. exists category, monthly_limit, alert_threshold.
    split; [|reflexivity].
    repeat split; try assumption. eapply validate_category_known. exact Hc.
  - destruct (delete_budget_cases category d) as [[_ ->] | [b [_ ->]]]; [now left|].
    right; right. now exists category.
  - left. destruct (add_recurring_expense_db tx amount category frequency start_date
                      subcategory note end_date d) as [-> | ->]; reflexivity.
  - left. destruct (deactivate_recurring_expense_db id d) as [-> | ->]; reflexivity.
Qed.

Lemma budget_categories_upsert (category : string) (b : budget) (rows : list budget) :
  b_category b = category ->
  NoDup (map b_category rows) ->
  NoDup (map b_category
             (filter (fun x => negb (String.eqb (b_category x) category)) rows ++ [b])).
Proof.
  intros Hb Hnd. rewrite map_app. apply NoDup_app.
  - now apply filter_keeps_keys_distinct.
  - repeat constructor. intros [].
  - intros c Hc [<- | []]. apply in_map_iff in Hc. destruct Hc as [x [Hx Hin]].
    apply filter_In in Hin. destruct Hin as [_ Hne].
    apply negb_true_iff, String.eqb_neq in Hne. congruence.
Qed.

(** X3. In every database reached from the empty one there is at most one
    budget per category, and every budget has a positive limit, a threshold
    in (0, 1] and a category of the taxonomy. *)
Theorem stored_budgets_valid (tx : taxonomy) (max_vars : Z) (calls : list call) :
  NoDup (map b_category (budgets (run tx max_vars calls init_db)))
  /\ Forall (budget_valid tx) (budgets (run tx max_vars calls init_db)).
Proof.
  assert (H : forall d,
             NoDup (map b_category (budgets d)) /\ Forall (budget_valid tx) (budgets d) ->
             NoDup (map b_category (budgets (run tx max_vars calls d)))
             /\ Forall (budget_valid tx) (budgets (run tx max_vars calls d))).
  { induction calls as [|c calls IH]; intros d Hd; [exact Hd|].
    apply IH. destruct Hd as [Hnd Hall].
    destruct (budgets_invoke tx max_vars c d)
      as [-> | [[category [l [t [Hv ->]]]] | [category ->]]].
    - now split.
    - split; [now apply budget_categories_upsert|].
      apply Forall_app. split; [|constructor; [exact Hv | constructor]].
      rewrite Forall_forall in *. intros b Hb. apply filter_In in Hb. now apply Hall.
    - split; [now apply filter_keeps_keys_distinct|].
      rewrite Forall_forall in *. intros b Hb. apply filter_In in Hb. now apply Hall. }
  apply H. split; constructor.
Qed.

Lemma recurring_invoke (tx : taxonomy) (max_vars : Z) (c : call) (d : db) :
  recurring_expenses (snd (invoke tx max_vars c d)) = recurring_expenses d
  \/ (exists row,
         recurring_valid tx row /\ r_active row = 1
         /\ recurring_expenses (snd (invoke tx max_vars c d))
            = (recurring_expenses d ++ [row])%list)
  \/ (exists id,
         recurring_expenses (snd (invoke tx max_vars c d))
         = map (fun r => if r_id r =? id then deactivated r else r)
               (recurring_expenses d)).
Proof.
  destruct c; cbn [invoke snd]; try (now left).
  - left. destruct (add_expense_db tx date amount category subcategory note d)
      as [-> | ->]; reflexivity.
  - left. destruct (delete_expense_db max_vars id ids start_date end_date category delete_all d)
      as [-> | [p ->]]; reflexivity.
  - left. destruct (update_expense_db tx id date amount category subcategory note d)
      as [-> | ->]; reflexivity.
  - left. now destruct (set_budget_db tx category monthly_limit alert_threshold d)
      as [_ [_ [H _]]].
  - left. now destruct (delete_budget_db category d) as [_ [_ [H _]]].
  - destruct (add_recurring_expense_cases tx amount category frequency start_date
                subcategory note end_date d)
      as [[m ->] | [Ha [Hd [He [Hf Hc]]]]]; [now left|].
    destruct (add_recurring_expense_ok tx amount category frequency start_date
                subcategory note end_date d Ha Hd He Hf Hc) as [alert ->].
    right; left. eexists. split; [|split; [|reflexivity]]; [|reflexivity].
    repeat split; simpl; auto.
    + now apply Qgtb_true.
    + eapply validate_category_known. exact Hc.
  - destruct (deactivate_recurring_expense_db id d) as [-> | ->]; [now left|].
    right; right. now exists id.
Qed.

(** X4. In every database reached from the empty one, every recurring
    definition still has last_applied equal to its start date (no tool
    advances it), an active flag of 0 or 1, a positive amount, a valid start
    date, one of the four frequencies and a category of the taxonomy. *)
Theorem stored_recurring_valid (tx : taxonomy) (max_vars : Z) (calls : list call) :
  Forall (recurring_valid tx) (recurring_expenses (run tx max_vars calls init_db)).
Proof.
  assert (H : forall d,
             Forall (recurring_valid tx) (recurring_expenses d) ->
             Forall (recurring_valid tx) (recurring_expenses (run tx max_vars calls d))).
  { induction calls as [|c calls IH]; intros d Hd; [exact Hd|].
    apply IH.
    destruct (recurring_invoke tx max_vars c d) as [-> | [[row [Hv [_ ->]]] | [id ->]]].
    - exact Hd.
    - apply Forall_app. split; [exact Hd | constructor; [exact Hv | constructor]].
    - rewrite Forall_forall in *. intros r Hr.
      apply in_map_iff in Hr. destruct Hr as [r0 [<- Hr0]].
      specialize (Hd r0 Hr0).
      destruct (r_id r0 =? id); [|exact Hd].
      destruct Hd as [H1 [H2 [H3 [H4 [_ H6]]]]].
      repeat split; simpl; auto. }
  apply H. constructor.
Qed.

(** ** Deleting *)

Lemma sql_count_split {A : Type} (p : A -> bool) (rows : list A) :
  sql_count (filter p rows) + sql_count (filter (fun x => negb (p x)) rows)
  = sql_count rows.
Proof.
  unfold sql_count.
  rewrite <- (Permutation_length (filter_split_permutation p rows)), length_app.
  lia.
Qed.

(** X5. Whatever the addressing mode, a successful delete_expense reports
    as deleted_count exactly the number of rows it removed, which is at
    least one; the rows left are rows that were stored, and nothing but the
    expenses table changes. *)
Theorem delete_reports_removed_rows (max_vars : Z) (id : option Z) (ids : option (list Z))
        (start_date end_date category : option string) (delete_all : bool)
        (d : db) (n : Z) (w : option string) (d' : db) :
  NoDup (map e_id (expenses d)) ->
  delete_expense max_vars id ids start_date end_date category delete_all d
  = (ExpensesDeleted n w, d') ->
  1 <= n
  /\ sql_count (expenses d') = sql_count (expenses d) - n
  /\ (forall e, In e (expenses d') -> In e (expenses d))
  /\ expenses_seq d' = expenses_seq d
  /\ budgets d' = budgets d
  /\ recurring_expenses d' = recurring_expenses d
  /\ recurring_seq d' = recurring_seq d.
Proof.
  intros Hnd Hrun.
  destruct (delete_expense_cases max_vars id ids start_date end_date category delete_all d Hnd)
    as [[m Hm] | [p [w' [Hp Hne]]]].
  - rewrite Hm in Hrun. discriminate Hrun.
  - rewrite Hp in Hrun. injection Hrun as <- _ <-.
    pose proof (sql_count_split p (expenses d)) as Hsplit.
    assert (Hpos : 0 <= sql_count (filter p (expenses d)))
      by (unfold sql_count; lia).
    cbn [with_expenses expenses expenses_seq budgets recurring_expenses recurring_seq].
    repeat split; try lia.
    intros e He. apply filter_In in He. tauto.
Qed.

Lemma delete_reports_removed_rows_witness :
  NoDup (map e_id (expenses two_budgets_db))
  /\ delete_expense 32766 None (Some [2; 2; 9]) None None None false two_budgets_db
     = (ExpensesDeleted 1 None,
        with_expenses two_budgets_db
          [mkExpense 1 "2024-02-10" 60 "transport" "fuel" "";
           mkExpense 3 "2024-02-12" 45 "food" "groceries" ""])
  /\ sql_count [mkExpense 1 "2024-02-10" 60 "transport" "fuel" "";
                mkExpense 3 "2024-02-12" 45 "food" "groceries" ""]
     = sql_count (expenses two_budgets_db) - 1.
Proof.
  assert (Hnd : NoDup (map e_id (expenses two_budgets_db))).
  { simpl. repeat constructor; simpl; intuition discriminate. }
  split; [exact Hnd|]. split; [reflexivity|].
  apply (proj1 (proj2 (delete_reports_removed_rows 32766 None (Some [2; 2; 9]) None None None
                         false two_budgets_db 1 None _ Hnd eq_refl))).
Defined.

(** A key that was allocated and is no longer stored stays absent. *)
Lemma absent_key_invoke (tx : taxonomy) (max_vars : Z) (c : call) (d : db) (id : Z) :
  id <= expenses_seq d ->
  ~ In id (map e_id (expenses d)) ->
  id <= expenses_seq (snd (invoke tx max_vars c d))
  /\ ~ In id (map e_id (expenses (snd (invoke tx max_vars c d)))).
Proof.
  intros Hseq Habs. destruct c; cbn [invoke snd]; try (split; assumption).
  - destruct (add_expense_db tx date amount category subcategory note d) as [-> | ->];
      [split; assumption|].
    simpl. split; [lia|]. rewrite map_app, in_app_iff. simpl.
    intros [H | [H | []]]; [contradiction | lia].
  - destruct (delete_expense_db max_vars id0 ids start_date end_date category delete_all d)
      as [-> | [p ->]]; [split; assumption|].
    simpl. split; [exact Hseq|].
    intro H. apply Habs. apply in_map_iff in H. destruct H as [e [He Hin]].
    apply filter_In in Hin. apply in_map_iff. exists e. tauto.
  - destruct (update_expense_db tx id0 date amount category subcategory note d)
      as [-> | ->]; [split; assumption|].
    simpl. now rewrite update_row_id.
  - destruct (set_budget_db tx category monthly_limit alert_threshold d)
      as [H1 [H2 _]]. now rewrite H1, H2.
  - destruct (delete_budget_db category d) as [H1 [H2 _]]. now rewrite H1, H2.
  - destruct (add_recurring_expense_db tx amount category frequency start_date
                subcategory note end_date d) as [-> | ->]; [split; assumption|].
    simpl. split; [lia|]. rewrite map_app, in_app_iff. simpl.
    intros [H | [H | []]]; [contradiction | lia].
  - destruct (deactivate_recurring_expense_db id0 d) as [-> | ->]; split; assumption.
Qed.

Lemma absent_key_run (tx : taxonomy) (max_vars : Z) (calls : list call) (d : db) (id : Z) :
  id <= expenses_seq d ->
  ~ In id (map e_id (expenses d)) ->
  id <= expenses_seq (run tx max_vars calls d)
  /\ ~ In id (map e_id (expenses (run tx max_vars calls d))).
Proof.
  revert d. induction calls as [|c calls IH]; intros d Hseq Habs; [now split|].
  destruct (absent_key_invoke tx max_vars c d id Hseq Habs) as [Hseq' Habs'].
  exact (IH _ Hseq' Habs').
Qed.

(** X6. Once delete_expense has deleted an expense by id, that id is gone
    for good: after any further tool calls no stored row and no listing
    carries it, and no later add_expense is given it again. *)
Theorem deleted_id_never_returns (tx : taxonomy) (max_vars : Z) (id : Z) (ids : option (list Z))
        (start_date end_date category : option string) (delete_all : bool)
        (d : db) (r : response) (d' : db) (calls : list call) :
  wf_db d ->
  delete_expense max_vars (Some id) ids start_date end_date category delete_all d = (r, d') ->
  status r = "ok" ->
  ~ In id (map e_id (expenses (run tx max_vars calls d')))
  /\ (forall s t c rows,
         list_expenses s t c (run tx max_vars calls d') = ExpenseList rows ->
         ~ In id (map e_id rows))
  /\ (forall date amount cat subcategory note id' alert d'',
         add_expense tx date amount cat subcategory note (run tx max_vars calls d')
         = (ExpenseAdded id' alert, d'') ->
         id' <> id).
Proof.
  intros [[Hnd [Hseq Hall]] _] Hrun Hok.
  cbn [delete_expense] in Hrun.
  destruct (existsb (fun e => e_id e =? id) (expenses d)) eqn:E;
    [|injection Hrun as <- _; discriminate Hok].
  injection Hrun as _ Hd'. subst d'.
  apply existsb_id_true in E.
  assert (Hle : id <= expenses_seq d)
    by (rewrite Forall_forall in Hall; apply Hall in E; lia).
  assert (Habs : ~ In id (map e_id (expenses
                   (with_expenses d (filter (fun e => negb (e_id e =? id)) (expenses d)))))).
  { simpl. intro H. apply in_map_iff in H. destruct H as [e [He Hin]].
    apply filter_In in Hin. destruct Hin as [_ Hin].
    apply negb_true_iff, Z.eqb_neq in Hin. contradiction. }
  destruct (absent_key_run tx max_vars calls
              (with_expenses d (filter (fun e => negb (e_id e =? id)) (expenses d)))
              id Hle Habs) as [Hseq' Habs'].
  split; [exact Habs'|]. split.
  - intros s t c rows Hlist Hin. unfold list_expenses in Hlist.
    destruct (negb (validate_date s) || negb (validate_date t))%bool;
      [discriminate Hlist|].
    injection Hlist as <-. apply Habs'.
    apply in_map_iff in Hin. destruct Hin as [e [He Hin]].
    apply sort_by_In, filter_In in Hin. apply in_map_iff. exists e. tauto.
  - intros date amount cat subcategory note id' alert d'' Hadd.
    destruct (add_expense_cases tx date amount cat subcategory note
                (run tx max_vars calls
                   (with_expenses d (filter (fun e => negb (e_id e =? id)) (expenses d)))))
      as [[m Hm] | [_ [_ [_ [alert' Ha]]]]].
    + rewrite Hm in Hadd. discriminate Hadd.
    + rewrite Ha in Hadd. injection Hadd as <- _ _. lia.
Qed.

Lemma deleted_id_never_returns_witness :
  ~ In 1 (map e_id
              (expenses (run sample_categories 32766
                             [AddExpense "2024-05-01" 3 "food" "" "later"]
                             (with_expenses sample_db
                                [mkExpense 2 "2024-03-05" (25 # 2) "transport" "fuel" ""])))).
Proof.
  apply (proj1 (deleted_id_never_returns sample_categories 32766 1 None None None None false
                  sample_db (ExpensesDeleted 1 None) _
                  [AddExpense "2024-05-01" 3 "food" "" "later"]
                  wf_sample_db eq_refl eq_refl)).
Defined.

Lemma requested_id (id : Z) (requested : list Z) :
  existsb (Z.eqb id) requested = true <-> In id requested.
Proof.
  rewrite existsb_exists. split.
  - intros [x [Hx Heq]]. apply Z.eqb_eq in Heq. now subst.
  - intro H. exists id. split; [exact H | apply Z.eqb_refl].
Qed.

(** The rows addressed by a list of ids are as many as the distinct
    requested ids that exist. *)
Lemma count_requested (requested : list Z) (rows : list expense) :
  NoDup (map e_id rows) ->
  sql_count (filter (fun e => existsb (Z.eqb (e_id e)) requested) rows)
  = Z.of_nat (List.length
                (filter (fun i => existsb (fun e => e_id e =? i) rows)
                        (nodup Z.eq_dec requested))).
Proof.
  intro Hnd. unfold sql_count. f_equal.
  rewrite <- (length_map e_id).
  apply Permutation_length, NoDup_Permutation.
  - now apply filter_keeps_keys_distinct.
  - apply NoDup_filter, NoDup_nodup.
  - intro x. rewrite in_map_iff, filter_In, nodup_In, existsb_id_true. split.
    + intros [e [<- He]]. apply filter_In in He. destruct He as [He Hreq].
      apply requested_id in Hreq. split; [exact Hreq | now apply in_map].
    + intros [Hreq Hx]. apply in_map_iff in Hx. destruct Hx as [e [<- He]].
      exists e. split; [reflexivity|]. apply filter_In. split; [exact He|].
      now apply requested_id.
Qed.

Lemma forallb_fits_int64 (requested : list Z) :
  forallb fits_int64 requested = true
  <-> Forall (fun i => - 2 ^ 63 <= i < 2 ^ 63) requested.
Proof.
  rewrite forallb_forall, Forall_forall.
  split; intros H i Hi; apply fits_int64_iff, H, Hi.
Qed.

(** X7. Deleting by a non-empty list of ids that can be bound (no more
    ids than the statement takes parameters, each within 64 bits) removes
    exactly the stored rows whose id is in the list and reports the number
    of distinct requested ids that exist, so repeated and unknown ids do not
    count; nothing but the expenses table changes.  When none of the ids
    exists the call is an error, and when the list cannot be bound the call
    fails; in both cases nothing is removed. *)
Theorem delete_ids_counts_existing (max_vars : Z) (i0 : Z) (rest : list Z)
        (start_date end_date category : option string) (delete_all : bool) (d : db) :
  NoDup (map e_id (expenses d)) ->
  let bound :=
    sql_count (i0 :: rest) <= max_vars
    /\ Forall (fun i => - 2 ^ 63 <= i < 2 ^ 63) (i0 :: rest) in
  let found :=
    filter (fun i => existsb (fun e => e_id e =? i) (expenses d))
           (nodup Z.eq_dec (i0 :: rest)) in
  (bound -> found = [] ->
   delete_expense max_vars None (Some (i0 :: rest)) start_date end_date category
                  delete_all d
   = (Error NoExpensesWithIds, d))
  /\ (bound -> found <> [] ->
      exists d',
        delete_expense max_vars None (Some (i0 :: rest)) start_date end_date category
                       delete_all d
        = (ExpensesDeleted (Z.of_nat (List.length found)) None, d')
        /\ expenses d'
           = filter (fun e => negb (existsb (Z.eqb (e_id e)) (i0 :: rest))) (expenses d)
        /\ (forall e, In e (expenses d')
                      <-> In e (expenses d) /\ ~ In (e_id e) (i0 :: rest))
        /\ sql_count (expenses d')
           = sql_count (expenses d) - Z.of_nat (List.length found)
        /\ expenses_seq d' = expenses_seq d
        /\ budgets d' = budgets d
        /\ recurring_expenses d' = recurring_expenses d
        /\ recurring_seq d' = recurring_seq d)
  /\ (~ bound ->
      delete_expense max_vars None (Some (i0 :: rest)) start_date end_date category
                     delete_all d
      = (Error Failed, d)).
Proof.
  intros Hnd bound found. cbn [delete_expense].
  assert (Hguard : (negb (sql_count (i0 :: rest) <=? max_vars)
                    || negb (forallb fits_int64 (i0 :: rest)))%bool = false <-> bound).
  { unfold bound. rewrite orb_false_iff, !negb_false_iff, Z.leb_le.
    now rewrite forallb_fits_int64. }
  pose proof (count_requested (i0 :: rest) (expenses d) Hnd) as Hcount.
  fold found in Hcount.
  split; [|split].
  - intros Hb H. apply Hguard in Hb. rewrite Hb, Hcount, H. reflexivity.
  - intros Hb H. apply Hguard in Hb. rewrite Hb.
    assert (Hnz : (sql_count (filter (fun e => existsb (Z.eqb (e_id e)) (i0 :: rest))
                                     (expenses d)) =? 0) = false).
    { rewrite Hcount. apply Z.eqb_neq. destruct found; [contradiction | simpl; lia]. }
    rewrite Hnz. eexists. split; [now rewrite Hcount|].
    cbn [with_expenses expenses expenses_seq budgets recurring_expenses recurring_seq].
    split; [reflexivity|]. split; [|split; [|now repeat split]].
    + intro e. rewrite filter_In, negb_true_iff.
      rewrite <- (requested_id (e_id e) (i0 :: rest)).
      destruct (existsb (Z.eqb (e_id e)) (i0 :: rest)); intuition congruence.
    + rewrite <- Hcount.
      pose proof (sql_count_split
                    (fun e => existsb (Z.eqb (e_id e)) (i0 :: rest)) (expenses d))
        as Hsplit.
      cbv beta in Hsplit. lia.
  - intro Hb. destruct (negb _ || negb _)%bool; [reflexivity|].
    exfalso. apply Hb, Hguard. reflexivity.
Qed.

Lemma delete_ids_counts_existing_witness :
  NoDup (map e_id (expenses two_budgets_db))
  /\ fst (delete_expense 32766 None (Some [2; 2; 9; 3]) None None None false
                         two_budgets_db)
     = ExpensesDeleted 2 None
  /\ expenses (snd (delete_expense 32766 None (Some [2; 2; 9; 3]) None None None false
                                   two_budgets_db))
     = [mkExpense 1 "2024-02-10" 60 "transport" "fuel" ""].
Proof.
  assert (Hnd : NoDup (map e_id (expenses two_budgets_db))).
  { simpl. repeat constructor; simpl; intuition discriminate. }
  split; [exact Hnd|].
  destruct (proj1 (proj2 (delete_ids_counts_existing 32766 2 [2; 9; 3] None None None
                            false two_budgets_db Hnd)))
    as [d' [Hrun [Hrows _]]].
  - split; [vm_compute; discriminate|]. repeat constructor; lia.
  - discriminate.
  - rewrite Hrun. cbn [fst snd]. rewrite Hrows. split; reflexivity.
Defined.

(** ** Budgets *)

Lemma find_filter_implied {A : Type} (p q : A -> bool) (l : list A) :
  (forall x, p x = true -> q x = true) -> find p (filter q l) = find p l.
Proof.
  intro Hpq. induction l as [|x l IH]; simpl; [reflexivity|].
  destruct (q x) eqn:Eq; simpl.
  - destruct (p x); [reflexivity | exact IH].
  - destruct (p x) eqn:Ep; [|exact IH].
    apply Hpq in Ep. congruence.
Qed.

Lemma find_filter_excluded {A : Type} (p q : A -> bool) (l : list A) :
  (forall x, p x = true -> q x = false) -> find p (filter q l) = None.
Proof.
  intro Hpq. induction l as [|x l IH]; simpl; [reflexivity|].
  destruct (q x) eqn:Eq; simpl; [|exact IH].
  destruct (p x) eqn:Ep; [|exact IH].
  apply Hpq in Ep. congruence.
Qed.

Lemma find_snoc {A : Type} (p : A -> bool) (l : list A) (x : A) :
  find p (l ++ [x]) = match find p l with
                      | Some y => Some y
                      | None => if p x then Some x else None
                      end.
Proof.
  induction l as [|y l IH]; simpl; [reflexivity|].
  destruct (p y); [reflexivity | exact IH].
Qed.

Lemma other_category (c category : string) (b : budget) :
  c <> category ->
  String.eqb (b_category b) c = true ->
  negb (String.eqb (b_category b) category) = true.
Proof.
  intros Hne Hb. apply String.eqb_eq in Hb. apply negb_true_iff, String.eqb_neq.
  congruence.
Qed.

(** X8. set_budget on valid arguments is an upsert: afterwards the budget
    of the category is exactly the given limit and threshold, whether or not
    one existed before, the budgets of all other categories are as they
    were, categories stay unique, and no expense or recurring definition is
    touched. *)
Theorem set_budget_upsert (tx : taxonomy) (category : string)
        (monthly_limit alert_threshold : Q) (d : db) :
  (0 < monthly_limit)%Q ->
  (0 < alert_threshold)%Q -> (alert_threshold <= 1)%Q ->
  dict_mem category tx = true ->
  exists d',
    set_budget tx category monthly_limit alert_threshold d = (BudgetSet category, d')
    /\ budget_row d' category = Some (mkBudget category monthly_limit alert_threshold)
    /\ (forall c, c <> category -> budget_row d' c = budget_row d c)
    /\ (NoDup (map b_category (budgets d)) -> NoDup (map b_category (budgets d')))
    /\ expenses d' = expenses d
    /\ recurring_expenses d' = recurring_expenses d.
Proof.
  intros Hl H0 H1 Hc.
  destruct (set_budget_cases tx category monthly_limit alert_threshold d)
    as [[m Hm] | [_ [_ [_ [_ Hset]]]]].
  - exfalso. revert Hm. unfold set_budget, validate_category.
    apply Qgtb_true in Hl, H0. apply Qle_bool_iff in H1.
    unfold validate_amount. rewrite Hl, H0, H1. cbn [negb andb].
    unfold dict_mem in Hc.
    destruct (dict_get category tx); [|discriminate Hc].
    cbn [truthy andb]. discriminate.
  - eexists. split; [exact Hset|].
    unfold budget_row. cbn [budgets expenses recurring_expenses].
    repeat split.
    + rewrite find_snoc, find_filter_excluded.
      * cbn [b_category]. now rewrite String.eqb_refl.
      * intros b Hb. now rewrite Hb.
    + intros c Hne. rewrite find_snoc, find_filter_implied.
      * destruct (find _ (budgets d)); [reflexivity|].
        cbn [b_category].
        destruct (String.eqb category c) eqn:E; [|reflexivity].
        apply String.eqb_eq in E. congruence.
      * intros b. now apply other_category.
    + now apply budget_categories_upsert.
Qed.

Lemma set_budget_upsert_witness :
  exists d',
    set_budget sample_categories "food" 250 (9 # 10) sample_db = (BudgetSet "food", d')
    /\ budget_row d' "food" = Some (mkBudget "food" 250 (9 # 10)).
Proof.
  destruct (set_budget_upsert sample_categories "food" 250 (9 # 10) sample_db
              eq_refl eq_refl ltac:(discriminate) eq_refl)
    as [d' [H1 [H2 _]]].
  exists d'. now split.
Defined.

Lemma add_expense_without_budget (tx : taxonomy) (date : string) (amount : Q)
      (category subcategory note : string) (d : db) :
  budget_row d category = None ->
  budget_alert_of (fst (add_expense tx date amount category subcategory note d)) = None.
Proof.
  intro Hb. unfold add_expense.
  destruct (negb (validate_date date)); [reflexivity|].
  destruct (negb (validate_amount amount)); [reflexivity|].
  destruct (validate_category tx category subcategory); [reflexivity|].
  unfold insert_expense, budget_row in *. cbn [budgets]. now rewrite Hb.
Qed.

(** X9. delete_budget on a category that has a budget removes it and
    leaves every other budget in place; from then on add_expense on that
    category carries no budget alert, however large the amount. *)
Theorem delete_budget_stops_alerts (tx : taxonomy) (category : string) (d : db)
        (b : budget) :
  budget_row d category = Some b ->
  exists d',
    delete_budget category d = (BudgetDeleted category, d')
    /\ budget_row d' category = None
    /\ (forall c, c <> category -> budget_row d' c = budget_row d c)
    /\ expenses d' = expenses d
    /\ (forall date amount subcategory note,
           budget_alert_of
             (fst (add_expense tx date amount category subcategory note d'))
           = None).
Proof.
  intro Hb.
  destruct (delete_budget_cases category d) as [[Hn _] | [b' [_ Hdel]]];
    [congruence|].
  eexists. split; [exact Hdel|].
  assert (Hnone : budget_row
                    (mkDb (expenses d) (expenses_seq d)
                          (filter (fun x => negb (String.eqb (b_category x) category))
                                  (budgets d))
                          (recurring_expenses d) (recurring_seq d)) category = None).
  { unfold budget_row. cbn [budgets]. apply find_filter_excluded.
    intros x Hx. now rewrite Hx. }
  split; [exact Hnone|]. split; [|split; [reflexivity|]].
  - intros c Hne. unfold budget_row. cbn [budgets]. apply find_filter_implied.
    intro x. now apply other_category.
  - intros. now apply add_expense_without_budget.
Qed.

Lemma delete_budget_stops_alerts_witness :
  exists d',
    delete_budget "food" sample_db = (BudgetDeleted "food", d')
    /\ budget_alert_of
         (fst (add_expense sample_categories "2024-02-20" 5000 "food" "" "" d'))
       = None.
Proof.
  destruct (delete_budget_stops_alerts sample_categories "food" sample_db
              (mkBudget "food" 100 (8 # 10)) eq_refl)
    as [d' [H1 [_ [_ [_ H2]]]]].
  exists d'. split; [exact H1 | apply H2].
Defined.

(** X10. A valid add_expense on a category that has no budget is stored
    under the next id and answered with status ok and no budget alert: the
    missing budget is skipped, not reported as an error. *)
Theorem add_expense_no_budget (tx : taxonomy) (date : string) (amount : Q)
        (category subcategory note : string) (d : db) :
  validate_date date = true ->
  (0 < amount)%Q ->
  validate_category tx category subcategory = None ->
  budget_row d category = None ->
  add_expense tx date amount category subcategory note d
  = (ExpenseAdded (expenses_seq d + 1) None,
     mkDb (expenses d
             ++ [mkExpense (expenses_seq d + 1) date amount category subcategory note])
          (expenses_seq d + 1) (budgets d) (recurring_expenses d) (recurring_seq d)).
Proof.
  intros Hd Ha Hc Hb. apply Qgtb_true in Ha.
  pose proof (add_expense_without_budget tx date amount category subcategory note d Hb)
    as Hnone.
  destruct (add_expense_ok tx date amount category subcategory note d Hd Ha Hc)
    as [alert Hadd].
  rewrite Hadd in Hnone |- *. cbn [fst budget_alert_of] in Hnone. now subst alert.
Qed.

Lemma add_expense_no_budget_witness :
  add_expense sample_categories "2024-03-09" 7 "transport" "taxi" "" sample_db
  = (ExpenseAdded 3 None,
     mkDb (expenses sample_db
             ++ [mkExpense 3 "2024-03-09" 7 "transport" "taxi" ""])
          3 (budgets sample_db) [] 0).
Proof.
  apply (add_expense_no_budget sample_categories "2024-03-09" 7 "transport" "taxi" ""
           sample_db eq_refl eq_refl eq_refl eq_refl).
Defined.

(** ** Month windows *)

Lemma days_in_month_ge_28 (year month : Z) : 28 <= days_in_month year month.
Proof.
  unfold days_in_month.
  destruct (month =? 2); [destruct (is_leap year); lia|].
  destruct ((month =? 4) || (month =? 6) || (month =? 9) || (month =? 11))%bool; lia.
Qed.

(** The last day the tools compute is the length of the month. *)
Lemma last_day_days_in_month (year month : Z) :
  0 <= year <= 9999 -> 1 <= month <= 12 ->
  add_expense_last_day (year_month_key year month)
  = Some (pad2 (days_in_month year month)).
Proof.
  intros Hy Hm. rewrite (add_expense_last_day_key year month Hy Hm).
  unfold days_in_month, is_leap. f_equal.
  destruct (month =? 2).
  - destruct ((year mod 4 =? 0)
              && (negb (year mod 100 =? 0) || (year mod 400 =? 0)))%bool; reflexivity.
  - destruct ((month =? 4) || (month =? 6) || (month =? 9) || (month =? 11))%bool;
      reflexivity.
Qed.

Lemma month_window_bounds (year month day : Z) :
  year_month_key year month ++ "-01" = iso_date year month 1
  /\ year_month_key year month ++ "-" ++ pad2 day = iso_date year month day.
Proof. split; reflexivity. Qed.

(** An ISO date lies in the window of a month exactly when it is a day of
    that month. *)
Lemma month_window_between (year month y m dd : Z) :
  0 <= year <= 9999 -> 1 <= month <= 12 ->
  valid_ymd y m dd = true ->
  sql_between (iso_date y m dd)
              (year_month_key year month ++ "-01")
              (year_month_key year month ++ "-" ++ pad2 (days_in_month year month))
  = true
  <-> same_month year month y m.
Proof.
  intros Hy Hm Hv.
  destruct (month_window_bounds year month (days_in_month year month)) as [-> ->].
  destruct (valid_ymd_bounds _ _ _ Hv) as [? [? ?]].
  pose proof (days_in_month_ge_28 year month).
  pose proof (days_in_month_le_31 year month).
  unfold sql_between. rewrite andb_true_iff.
  rewrite !iso_date_leb by lia.
  unfold valid_ymd in Hv.
  repeat (apply andb_true_iff in Hv; destruct Hv as [Hv ?]).
  repeat match goal with
         | H : (_ <=? _) = true |- _ => apply Z.leb_le in H
         end.
  unfold ymd_le, same_month. split.
  - intros [Hlo Hhi]. lia.
  - intros [-> ->]. lia.
Qed.

(** X11. For every month key YYYY-MM, the window from the first day to the
    computed last day that the budget checks sum over contains a calendar
    day written in ISO form exactly when the day belongs to that month and
    year. *)
Theorem month_window_exact (year month y m dd : Z) :
  0 <= year <= 9999 -> 1 <= month <= 12 ->
  valid_ymd y m dd = true ->
  exists last_day,
    add_expense_last_day (year_month_key year month) = Some last_day
    /\ (sql_between (iso_date y m dd)
                    (year_month_key year month ++ "-01")
                    (year_month_key year month ++ "-" ++ last_day) = true
        <-> y = year /\ m = month).
Proof.
  intros Hy Hm Hv. exists (pad2 (days_in_month year month)).
  split; [now apply last_day_days_in_month|].
  now apply month_window_between.
Qed.

Lemma month_window_exact_witness :
  exists last_day,
    add_expense_last_day (year_month_key 2023 2) = Some last_day
    /\ (sql_between (iso_date 2023 3 1)
                    (year_month_key 2023 2 ++ "-01")
                    (year_month_key 2023 2 ++ "-" ++ last_day) = true
        <-> 2023 = 2023 /\ 3 = 2).
Proof.
  apply (month_window_exact 2023 2 2023 3 1); [lia | lia | reflexivity].
Defined.

(** ** The budget status report *)

Lemma directive_m_first (month : Z) :
  1 <= month <= 12 ->
  exists others,
    directive_m [digit_char (month / 10); digit_char (month mod 10)]
    = (month, []) :: others.
Proof.
  intro Hm. apply month_cases in Hm; repeat (destruct Hm as [Hm | Hm]); subst month;
    eexists; reflexivity.
Qed.

(** A well-formed month key passes the format check of the report. *)
Lemma strptime_month_key (year month : Z) :
  1 <= year <= 9999 -> 1 <= month <= 12 ->
  strptime_Y_m (year_month_key year month) = Some (year, month).
Proof.
  intros Hy Hm.
  unfold strptime_Y_m, match_Y_m, year_month_key, pad4, pad2.
  cbn [append list_ascii_of_string].
  rewrite directive_Y_digits by lia. rewrite literal_dash_matches.
  destruct (directive_m_first month Hm) as [others ->].
  assert (Hv : valid_ymd year month 1 = true).
  { unfold valid_ymd. pose proof (days_in_month_ge_28 year month).
    repeat (apply andb_true_iff; split); apply Z.leb_le; lia. }
  now rewrite Hv.
Qed.

Lemma slice_month_of_date (year month day : Z) :
  py_slice_to 7 (iso_date year month day) = year_month_key year month.
Proof. reflexivity. Qed.

Lemma alert_status_of_verdict (category : string) (spent limit threshold : Q) :
  alert_status_of (percentage_of spent limit) threshold
  = status_of_verdict (verdict_of (threshold_alert category spent limit threshold)).
Proof.
  unfold alert_status_of, threshold_alert.
  destruct (Qgeb (percentage_of spent limit) 100); [reflexivity|].
  destruct (Qgeb (percentage_of spent limit) (float_mul threshold 100)); reflexivity.
Qed.

(** The alert of a successful [add_expense] on a budgeted category. *)
Lemma add_expense_alert_value (tx : taxonomy) (date : string) (amount : Q)
      (category subcategory note : string) (d : db) (r : response) (d' : db)
      (b : budget) (last_day : string) :
  add_expense tx date amount category subcategory note d = (r, d') ->
  status r = "ok" ->
  budget_row d' category = Some b ->
  add_expense_last_day (py_slice_to 7 date) = Some last_day ->
  budget_alert_of r
  = threshold_alert category
      (spent_in d' category (py_slice_to 7 date ++ "-01")
                (py_slice_to 7 date ++ "-" ++ last_day))
      (b_monthly_limit b) (b_alert_threshold b)
  /\ In (mkExpense (expenses_seq d + 1) date amount category subcategory note)
        (expenses d').
Proof.
  intros Hrun Hok Hb Hl. unfold add_expense in Hrun.
  destruct (negb (validate_date date));
    [injection Hrun as <- <-; discriminate Hok|].
  destruct (negb (validate_amount amount));
    [injection Hrun as <- <-; discriminate Hok|].
  destruct (validate_category tx category subcategory);
    [injection Hrun as <- <-; discriminate Hok|].
  unfold insert_expense in Hrun.
  set (d1 := mkDb (expenses d ++ [mkExpense (expenses_seq d + 1) date amount category
                                            subcategory note])
                  (expenses_seq d + 1) (budgets d) (recurring_expenses d)
                  (recurring_seq d)) in *.
  destruct (budget_row d1 category) as [b1|] eqn:Eb.
  - rewrite Hl in Hrun. injection Hrun as <- <-.
    rewrite Eb in Hb. injection Hb as ->.
    split; [reflexivity|].
    subst d1. simpl. apply in_or_app. right. now left.
  - injection Hrun as <- <-. rewrite Eb in Hb. discriminate Hb.
Qed.



(** X12. After a successful add_expense of an ISO-dated expense on a
    budgeted category, the budget status report of that month has an entry
    for the category whose alert_status agrees with the alert just returned
    (exceeded for CRITICAL, warning for WARNING, ok for none), with the same
    spent, limit, remaining and percentage figures, and which counts at
    least the new transaction. *)
Theorem budget_status_matches_alert (tx : taxonomy) (year month day : Z) (amount : Q)
        (category subcategory note : string) (d : db) (r : response) (d' : db)
        (b : budget) :
  valid_ymd year month day = true ->
  add_expense tx (iso_date year month day) amount category subcategory note d
  = (r, d') ->
  status r = "ok" ->
  budget_row d' category = Some b ->
  exists report entry,
    get_budget_status (year_month_key year month) d'
    = BudgetStatus (year_month_key year month) report
    /\ In entry report
    /\ bs_category entry = category
    /\ bs_alert_status entry = status_of_verdict (verdict_of (budget_alert_of r))
    /\ (forall a, budget_alert_of r = Some a ->
                  bs_spent entry = alert_spent a /\ bs_limit entry = alert_limit a
                  /\ bs_remaining entry = alert_remaining a
                  /\ bs_percentage entry = alert_percentage a)
    /\ 1 <= bs_transaction_count entry.
Proof.
  intros Hv Hrun Hok Hb.
  pose proof Hv as Hbounds. unfold valid_ymd in Hbounds.
  repeat (apply andb_true_iff in Hbounds; destruct Hbounds as [Hbounds ?]).
  repeat match goal with
         | H : (_ <=? _) = true |- _ => apply Z.leb_le in H
         end.
  assert (Hlast : add_expense_last_day (year_month_key year month)
                  = Some (pad2 (days_in_month year month)))
    by (apply last_day_days_in_month; lia).
  destruct (add_expense_alert_value tx _ amount category subcategory note d r d' b
              (pad2 (days_in_month year month)) Hrun Hok Hb Hlast) as [Halert Hnew].
  rewrite slice_month_of_date in Halert.
  unfold get_budget_status.
  rewrite strptime_month_key by lia.
  change (get_budget_status_last_day (year_month_key year month))
    with (add_expense_last_day (year_month_key year month)).
  rewrite Hlast.
  pose proof Hb as Hfind. unfold budget_row in Hfind.
  apply find_some in Hfind. destruct Hfind as [Hin Hcat].
  apply String.eqb_eq in Hcat.
  destruct (budgets d') as [|b0 bs] eqn:Ebs; [destruct Hin|].
  rewrite <- Ebs in *.
  eexists. eexists. split; [reflexivity|]. split.
  { apply in_map_iff. exists b. split; [reflexivity | exact Hin]. }
  cbn [bs_category bs_alert_status bs_spent bs_limit bs_remaining bs_percentage
                   bs_transaction_count].
  rewrite Hcat. fold (spent_in d' category
                               (year_month_key year month ++ "-01")
                               (year_month_key year month ++ "-"
                                  ++ pad2 (days_in_month year month))).
  split; [reflexivity|]. split.
  { rewrite Halert. apply alert_status_of_verdict. }
  split.
  { intros a Ha. rewrite Halert in Ha. unfold threshold_alert in Ha.
    destruct (Qgeb _ 100); [injection Ha as <-; now repeat split|].
    destruct (Qgeb _ (float_mul (b_alert_threshold b) 100)); [|discriminate Ha].
    injection Ha as <-. now repeat split. }
  assert (Hmatch : In (mkExpense (expenses_seq d + 1) (iso_date year month day) amount
                                 category subcategory note)
                      (filter (in_category_window category
                                 (year_month_key year month ++ "-01")
                                 (year_month_key year month ++ "-"
                                    ++ pad2 (days_in_month year month)))
                              (expenses d'))).
  { apply filter_In. split; [exact Hnew|].
    unfold in_category_window. cbn [e_category e_date].
    rewrite String.eqb_refl. cbn [andb].
    apply month_window_between; [lia | lia | exact Hv | now split]. }
  unfold sql_count.
  destruct (filter _ (expenses d')) as [|x xs]; [destruct Hmatch|].
  cbn [List.length]. lia.
Qed.

Lemma budget_status_matches_alert_witness :
  exists report entry,
    get_budget_status (year_month_key 2024 2)
      (snd (add_expense sample_categories (iso_date 2024 2 15) 80 "food" "groceries" ""
                        sample_db))
    = BudgetStatus (year_month_key 2024 2) report
    /\ In entry report
    /\ bs_category entry = "food"
    /\ bs_alert_status entry = "warning".
Proof.
  destruct (budget_status_matches_alert sample_categories 2024 2 15 80 "food"
              "groceries" "" sample_db _ _ (mkBudget "food" 100 (8 # 10))
              eq_refl (surjective_pairing _) eq_refl eq_refl)
    as [report [entry [H1 [H2 [H3 [H4 _]]]]]].
  exists report, entry. repeat split; assumption.
Defined.

(** ** The first instance of a recurring expense *)

(** X13. A successful add_recurring_expense records its first instance
    exactly as add_expense would record an expense of the same date,
    amount, category and subcategory with the recurring note: the same
    expense id, the same ledger and budgets afterwards, and the same budget
    alert in the response. *)
Theorem recurring_first_instance_as_add (tx : taxonomy) (amount : Q)
        (category frequency start_date subcategory note : string)
        (end_date : option string) (d : db) (r : response) (d' : db) :
  add_recurring_expense tx amount category frequency start_date subcategory
                        note end_date d = (r, d') ->
  status r = "ok" ->
  exists d_add,
    add_expense tx start_date amount category subcategory
                (if truthy note then "[Recurring " ++ frequency ++ "] " ++ note
                 else "Recurring " ++ frequency ++ " expense") d
    = (ExpenseAdded (expenses_seq d + 1) (budget_alert_of r), d_add)
    /\ r = RecurringAdded (recurring_seq d + 1) (expenses_seq d + 1) (budget_alert_of r)
    /\ expenses d' = expenses d_add
    /\ expenses_seq d' = expenses_seq d_add
    /\ budgets d' = budgets d_add.
Proof.
  intros Hrun Hok.
  destruct (add_recurring_expense_cases tx amount category frequency start_date
              subcategory note end_date d)
    as [[m Hm] | [Ha [Hs [He [Hf Hc]]]]].
  { rewrite Hm in Hrun. injection Hrun as <- _. discriminate Hok. }
  revert Hrun. unfold add_recurring_expense, add_expense.
  rewrite Ha, Hs, Hc. cbn [negb].
  replace (match end_date with
           | Some t => (truthy t && negb (validate_date t))%bool
           | None => false
           end) with false.
  2:{ destruct end_date as [t|]; [|reflexivity].
      destruct (He t eq_refl) as [-> | ->]; [reflexivity|].
      now rewrite andb_false_r. }
  replace (existsb (String.eqb frequency) ["daily"; "weekly"; "monthly"; "yearly"])
    with true.
  2:{ symmetry. apply existsb_exists. exists frequency.
      split; [exact Hf | apply String.eqb_refl]. }
  cbn [negb]. unfold insert_expense, budget_row, spent_in.
  cbn [expenses expenses_seq budgets recurring_expenses recurring_seq].
  change add_recurring_expense_last_day with add_expense_last_day.
  destruct (find _ (budgets d)) as [b|].
  - destruct (valid_date_last_day start_date Hs) as [last_day ->].
    intro Hrun. injection Hrun as <- <-.
    eexists. split; [reflexivity|]. now repeat split.
  - intro Hrun. injection Hrun as <- <-.
    eexists. split; [reflexivity|]. now repeat split.
Qed.

Lemma recurring_first_instance_as_add_witness :
  exists d_add,
    add_expense sample_categories "2024-02-20" 95 "food" "dining"
                "[Recurring weekly] club" sample_db
    = (ExpenseAdded 3
         (budget_alert_of
            (fst (add_recurring_expense sample_categories 95 "food" "weekly"
                    "2024-02-20" "dining" "club" None sample_db))),
       d_add).
Proof.
  destruct (recurring_first_instance_as_add sample_categories 95 "food" "weekly"
              "2024-02-20" "dining" "club" None sample_db _ _
              (surjective_pairing _) eq_refl)
    as [d_add [H _]].
  exists d_add. exact H.
Defined.

(** ** An unreadable category file *)

(** X14. When the category file cannot be read, so that the taxonomy is
    empty, no expense, budget or recurring expense can be created and no
    update may set a category: each of these calls returns an error and
    leaves the database as it was. *)
Theorem empty_taxonomy_rejects_writes (d : db) :
  (forall date amount category subcategory note,
      exists m, add_expense [] date amount category subcategory note d = (Error m, d))
  /\ (forall category monthly_limit alert_threshold,
         exists m, set_budget [] category monthly_limit alert_threshold d = (Error m, d))
  /\ (forall amount category frequency start_date subcategory note end_date,
         exists m,
           add_recurring_expense [] amount category frequency start_date subcategory
                                 note end_date d = (Error m, d))
  /\ (forall id date amount category subcategory note,
         exists m,
           update_expense [] id date amount (Some category) subcategory note d
           = (Error m, d)).
Proof.
  repeat split.
  - intros. destruct (add_expense_cases [] date amount category subcategory note d)
      as [H | [_ [_ [Hc _]]]]; [exact H | discriminate Hc].
  - intros. destruct (set_budget_cases [] category monthly_limit alert_threshold d)
      as [H | [_ [_ [_ [Hc _]]]]]; [exact H | discriminate Hc].
  - intros. destruct (add_recurring_expense_cases [] amount category frequency
                        start_date subcategory note end_date d)
      as [H | [_ [_ [_ [_ Hc]]]]]; [exact H | discriminate Hc].
  - intros. destruct (update_expense_cases [] id date amount (Some category)
                        subcategory note d)
      as [H | [_ [_ [[_ [_ Hc]] _]]]]; [exact H|].
    specialize (Hc category eq_refl). discriminate Hc.
Qed.

(** ** Summaries *)

Section PartitionBy.

Variable K : Type.
Variable key : expense -> K.
Variable member : K -> expense -> bool.
Hypothesis member_key : forall k e, member k e = true <-> key e = k.


End PartitionBy.








(** ** Largest expenses *)

Lemma sorted_prefix {A : Type} (R : A -> A -> Prop) (l1 l2 : list A) :
  StronglySorted R (l1 ++ l2) ->
  StronglySorted R l1 /\ (forall a b, In a l1 -> In b l2 -> R a b).
Proof.
  induction l1 as [|x l1 IH]; simpl; intro H.
  - split; [constructor | intros a b []].
  - inversion H as [|? ? Hs Hx]; subst.
    destruct (IH Hs) as [Hs1 Hcross]. split.
    + constructor; [exact Hs1|].
      apply Forall_app in Hx. tauto.
    + intros a b [<- | Ha] Hb.
      * rewrite Forall_forall in Hx. apply Hx. apply in_or_app. now right.
      * now apply Hcross.
Qed.

Lemma amount_desc_total (e1 e2 : expense) :
  amount_desc e1 e2 = true \/ amount_desc e2 e1 = true.
Proof.
  unfold amount_desc.
  destruct (Qlt_le_dec (e_amount e1) (e_amount e2)) as [H | H].
  - right. apply Qle_bool_iff. now apply Qlt_le_weak.
  - left. now apply Qle_bool_iff.
Qed.

Lemma amount_desc_trans (e1 e2 e3 : expense) :
  amount_desc e1 e2 = true -> amount_desc e2 e3 = true -> amount_desc e1 e3 = true.
Proof.
  unfold amount_desc. rewrite !Qle_bool_iff. intros H1 H2.
  now apply Qle_trans with (e_amount e2).
Qed.

(** X16. For valid dates and a limit that fits 64 bits, get_top_expenses
    returns expenses of the range ordered by amount descending; with a
    non-negative limit it returns as many as the limit allows (all of them
    when fewer exist, none for limit 0), with a negative limit all of them;
    and every expense of the range that is left out is no larger than any
    expense returned. *)
Theorem top_expenses_are_largest (start_date end_date : string) (limit : Z) (d : db) :
  validate_date start_date = true ->
  validate_date end_date = true ->
  fits_int64 limit = true ->
  exists top,
    get_top_expenses start_date end_date limit d = ReportOk top
    /\ (forall e, In e top -> In e (in_range_rows d start_date end_date))
    /\ (0 <= limit ->
        sql_count top = Z.min limit (sql_count (in_range_rows d start_date end_date)))
    /\ (limit < 0 -> Permutation top (in_range_rows d start_date end_date))
    /\ StronglySorted (fun e1 e2 => (e_amount e2 <= e_amount e1)%Q) top
    /\ (forall e e',
          In e top -> In e' (in_range_rows d start_date end_date) -> ~ In e' top ->
          (e_amount e' <= e_amount e)%Q).
Proof.
  intros Hs Ht Hfit. unfold get_top_expenses. rewrite Hs, Ht, Hfit. cbn [negb orb].
  fold (in_range_rows d start_date end_date).
  set (rows := in_range_rows d start_date end_date).
  set (sorted := sort_by amount_desc rows).
  assert (Hperm : Permutation sorted rows) by apply sort_by_permutation.
  assert (Hsorted : StronglySorted (fun e1 e2 => (e_amount e2 <= e_amount e1)%Q) sorted).
  { apply (StronglySorted_impl (fun a b => amount_desc a b = true)).
    - intros x y H. unfold amount_desc in H. now apply Qle_bool_iff in H.
    - apply sort_by_sorted; [exact amount_desc_total | exact amount_desc_trans]. }
  eexists. split; [reflexivity|].
  unfold sql_limit. destruct (Z.ltb_spec limit 0) as [Hneg | Hpos].
  - repeat split.
    + intros e He. now apply (Permutation_in _ Hperm).
    + intro H. lia.
    + intros _. exact Hperm.
    + exact Hsorted.
    + intros e e' _ He' Hout. exfalso. apply Hout.
      now apply (Permutation_in _ (Permutation_sym Hperm)).
  - rewrite <- (firstn_skipn (Z.to_nat limit) sorted) in Hsorted.
    destruct (sorted_prefix _ _ _ Hsorted) as [Hfirst Hcross].
    repeat split.
    + intros e He. apply (Permutation_in _ Hperm).
      rewrite <- (firstn_skipn (Z.to_nat limit) sorted). apply in_or_app. now left.
    + intros _. unfold sql_count.
      rewrite length_firstn, (Permutation_length Hperm). lia.
    + intro H. lia.
    + exact Hfirst.
    + intros e e' He He' Hout. apply Hcross; [exact He|].
      apply (Permutation_in _ (Permutation_sym Hperm)) in He'.
      rewrite <- (firstn_skipn (Z.to_nat limit) sorted) in He'.
      apply in_app_or in He'. destruct He' as [He' | He']; [contradiction | exact He'].
Qed.

Lemma top_expenses_are_largest_witness :
  exists top,
    get_top_expenses "2024-01-01" "2024-12-31" 2 two_budgets_db = ReportOk top
    /\ map e_id top = [1; 3].
Proof.
  destruct (top_expenses_are_largest "2024-01-01" "2024-12-31" 2 two_budgets_db
              eq_refl eq_refl eq_refl) as [top [H _]].
  exists top. split; [exact H|]. injection H as <-. reflexivity.
Defined.

(** ** Listing budgets *)

Lemma budget_category_asc_total (b1 b2 : budget) :
  budget_category_asc b1 b2 = true \/ budget_category_asc b2 b1 = true.
Proof. apply String.leb_total. Qed.

Lemma string_leb_trans (a b c : string) :
  String.leb a b = true -> String.leb b c = true -> String.leb a c = true.
Proof.
  unfold String.leb.
  destruct (String.compare a b) eqn:Eab; try discriminate;
    destruct (String.compare b c) eqn:Ebc; try discriminate; intros _ _.
  - apply String.compare_eq_iff in Eab, Ebc. subst. now rewrite compare_refl.
  - apply String.compare_eq_iff in Eab. subst. now rewrite Ebc.
  - apply String.compare_eq_iff in Ebc. subst. now rewrite Eab.
  - now rewrite (compare_lt_trans _ _ _ Eab Ebc).
Qed.

(** X17. list_budgets returns every stored budget exactly once, ordered
    by category ascending, each with its limit rounded to two decimals and
    its threshold as stored. *)
Theorem list_budgets_sorted (d : db) :
  Permutation (list_budgets d)
              (map (fun b => mkBudgetEntry (b_category b) (py_round (b_monthly_limit b) 2)
                                           (b_alert_threshold b))
                   (budgets d))
  /\ StronglySorted (fun e1 e2 => String.leb (le_category e1) (le_category e2) = true)
                    (list_budgets d)
  /\ sql_count (list_budgets d) = sql_count (budgets d).
Proof.
  unfold list_budgets.
  pose proof (sort_by_permutation _ budget_category_asc (budgets d)) as Hperm.
  split; [now apply Permutation_map|]. split.
  - assert (Hs : StronglySorted (fun a b => budget_category_asc a b = true)
                                (sort_by budget_category_asc (budgets d))).
    { apply sort_by_sorted; [exact budget_category_asc_total|].
      intros x y z. apply string_leb_trans. }
    clear Hperm. revert Hs. generalize (sort_by budget_category_asc (budgets d)).
    intros rows Hs. induction Hs as [|x l Hs IH Hx]; simpl; constructor; [exact IH|].
    rewrite Forall_forall in *. intros e He.
    apply in_map_iff in He. destruct He as [b [<- Hb]]. simpl. now apply Hx.
  - unfold sql_count. now rewrite length_map, (Permutation_length Hperm).
Qed.

(** ** Dates written with a one-digit month *)

Lemma endswith_after_dash (s : string) (x y : ascii) :
  y <> "-"%char -> endswith (s ++ "-") (String x (String y "")) = false.
Proof.
  intro Hy. induction s as [|c s IH].
  - cbn [append endswith].
    destruct (String.eqb "-" (String x (String y ""))) eqn:E.
    + apply String.eqb_eq in E. discriminate.
    + destruct (String.eqb "" (String x (String y ""))) eqn:E'; [|reflexivity].
      apply String.eqb_eq in E'. discriminate.
  - cbn [append endswith]. rewrite IH.
    destruct (String.eqb (String c (s ++ "-")) (String x (String y ""))) eqn:E;
      [|reflexivity].
    apply String.eqb_eq in E. injection E as _ E.
    destruct s as [|c' s]; simpl in E.
    + injection E as E. congruence.
    + injection E as _ E. destruct s; discriminate.
Qed.

(** The month key cut from a date with a one-digit month ends in a dash, and
    falls through to the 31-day branch. *)
Lemma last_day_of_dash_key (a b c e mo : ascii) :
  add_expense_last_day
    (String a (String b (String c (String e (String "-" (String mo "-"))))))
  = Some "31".
Proof.
  change (String a (String b (String c (String e (String "-" (String mo "-"))))))
    with (String a (String b (String c (String e (String "-" (String mo ""))))) ++ "-").
  unfold add_expense_last_day, endswith_any. cbn [existsb].
  rewrite !endswith_after_dash by discriminate. reflexivity.
Qed.

(** A text between two texts that share a prefix has that prefix. *)
Lemma between_common_prefix (shared lo hi s : string) :
  sql_between s (shared ++ lo) (shared ++ hi) = true -> exists t, s = shared ++ t.
Proof.
  revert s. induction shared as [|c shared IH]; intros s H.
  - now exists s.
  - destruct s as [|c' s]; [discriminate H|].
    unfold sql_between, String.leb in H. cbn [append String.compare] in H.
    rewrite (Ascii.compare_antisym c' c) in H.
    destruct (Ascii.compare c c') eqn:E; cbn [CompOpp] in H.
    + apply Ascii.compare_eq_iff in E. subst c'.
      destruct (IH s H) as [t ->]. now exists t.
    + rewrite andb_false_r in H. discriminate.
    + discriminate.
Qed.

Lemma directive_d_dash (t : list ascii) : directive_d ("-"%char :: t) = [].
Proof. destruct t; reflexivity. Qed.

(** No accepted date has two dashes after a one-character month. *)
Lemma double_dash_rejected (a b c e x mo : ascii) (t : string) :
  validate_date
    (String a (String b (String c (String e (String x (String mo
       (String "-" (String "-" t))))))))
  = false.
Proof.
  unfold validate_date, strptime_Y_m_d, match_Y_m_d.
  cbn [list_ascii_of_string]. unfold directive_Y.
  destruct (is_digit a && is_digit b && is_digit c && is_digit e)%bool; [|reflexivity].
  unfold literal_dash at 1.
  destruct (Ascii.eqb x "-"); [|reflexivity].
  unfold directive_m.
  change (in_range "0" "2" "-") with false.
  change (in_range "1" "9" "-") with false.
  rewrite !andb_false_r. cbn [app].
  destruct (in_range "1" "9" mo); [|reflexivity].
  cbn [first_match snd fst].
  rewrite literal_dash_matches, directive_d_dash. reflexivity.
Qed.

Lemma digit_char_not_dash (k : Z) : 0 <= k <= 9 -> digit_char k <> "-"%char.
Proof. intro H. each_digit H; discriminate. Qed.

Lemma run_invariant (tx : taxonomy) (max_vars : Z) (inv : db -> Prop) :
  (forall c d, inv d -> inv (snd (invoke tx max_vars c d))) ->
  forall calls d, inv d -> inv (run tx max_vars calls d).
Proof.
  intros Hstep calls. induction calls as [|c calls IH]; intros d Hd; [exact Hd|].
  apply IH. now apply Hstep.
Qed.

Lemma thresholds_positive_run (tx : taxonomy) (max_vars : Z) (calls : list call) :
  Forall (fun b => (0 < b_alert_threshold b)%Q) (budgets (run tx max_vars calls init_db)).
Proof.
  apply (run_invariant tx max_vars
           (fun d => Forall (fun b => (0 < b_alert_threshold b)%Q) (budgets d)));
    [|constructor].
  intros c d Hall.
  destruct (budgets_invoke tx max_vars c d)
    as [-> | [[category [l [t [Hv ->]]]] | [category ->]]].
  - exact Hall.
  - apply Forall_app. split.
    + rewrite Forall_forall in *. intros b Hb. apply filter_In in Hb. now apply Hall.
    + constructor; [|constructor]. now destruct Hv as [_ [Hv _]].
  - rewrite Forall_forall in *. intros b Hb. apply filter_In in Hb. now apply Hall.
Qed.

Lemma dates_valid_run (tx : taxonomy) (max_vars : Z) (calls : list call) :
  Forall (fun e => validate_date (e_date e) = true) (expenses (run tx max_vars calls init_db)).
Proof.
  assert (H : Forall (expense_valid tx) (expenses (run tx max_vars calls init_db))).
  { apply (run_invariant tx max_vars (fun d => Forall (expense_valid tx) (expenses d))
                         (expenses_valid_invoke tx max_vars)).
    constructor. }
  rewrite Forall_forall in *. intros e He. now destruct (H e He).
Qed.

Lemma zero_spent_no_alert (category : string) (limit threshold : Q) :
  (0 < threshold)%Q -> threshold_alert category 0 limit threshold = None.
Proof.
  intro Ht.
  assert (Hp : percentage_of 0 limit = 0%Q).
  { unfold percentage_of, float_mul, float_div.
    destruct (Qgtb limit 0); [|reflexivity].
    rewrite (binary64_zero (0 / limit)) by (unfold Qdiv; ring).
    now apply binary64_zero. }
  pose proof (binary64_positive (threshold * 100)) as Hpos.
  fold (float_mul threshold 100) in Hpos.
  destruct (threshold_alert_cases category 0 limit threshold)
    as [[H _] | [[_ [H _]] | [_ [_ H]]]]; [| |exact H].
  - rewrite Hp in H. lra.
  - rewrite Hp in H. lra.
Qed.

(** X18. validate_date also accepts a date whose month is written with one
    digit (YYYY-M-D).  In every database reached from the empty one,
    add_expense stores such an expense under the next id and never reports
    a budget alert for it, whatever the amount and the budget of its
    category: the month key cut from its first seven characters ends in a
    dash and no stored date lies in that key's window.  Nor does the date
    lie in the window of any month key written YYYY-MM. *)
Theorem one_digit_month_never_alerts (tx : taxonomy) (max_vars : Z) (calls : list call)
        (a b c e mo : ascii) (rest : string) (amount : Q)
        (category subcategory note : string) :
  let date :=
    String a (String b (String c (String e (String "-" (String mo (String "-" rest))))))
  in
  let d := run tx max_vars calls init_db in
  validate_date date = true ->
  (0 < amount)%Q ->
  validate_category tx category subcategory = None ->
  add_expense tx date amount category subcategory note d
  = (ExpenseAdded (expenses_seq d + 1) None,
     snd (insert_expense date amount category subcategory note d))
  /\ (forall year month last_day,
         sql_between date (year_month_key year month ++ "-01")
                     (year_month_key year month ++ "-" ++ last_day) = false).
Proof.
  intros date d Hdate Hamount Hcat. split.
  - unfold add_expense, validate_amount.
    rewrite Hdate, (proj2 (Qgtb_true amount 0) Hamount), Hcat.
    cbn [negb]. unfold insert_expense. cbn [snd].
    match goal with
    | |- context [budget_row ?d1 category] =>
        destruct (budget_row d1 category) as [bud|] eqn:Hb; [|reflexivity]
    end.
    assert (Hkey : py_slice_to 7 date
                   = String a (String b (String c (String e (String "-" (String mo "-")))))).
    { unfold py_slice_to, date. cbn [substring]. now destruct rest. }
    rewrite Hkey, last_day_of_dash_key. do 2 f_equal.
    unfold spent_in. cbn [expenses].
    rewrite filter_nothing.
    + apply zero_spent_no_alert.
      unfold budget_row in Hb. cbn [budgets] in Hb. apply find_some in Hb.
      pose proof (thresholds_positive_run tx max_vars calls) as Hall.
      rewrite Forall_forall in Hall. apply Hall. exact (proj1 Hb).
    + match goal with
      | |- existsb ?p ?l = false => destruct (existsb p l) eqn:E; [|reflexivity]
      end.
      apply existsb_exists in E. destruct E as [row [Hin Hwin]].
      assert (Hrow : validate_date (e_date row) = true).
      { apply in_app_or in Hin. destruct Hin as [Hin | [<- | []]]; [|exact Hdate].
        pose proof (dates_valid_run tx max_vars calls) as Hall.
        rewrite Forall_forall in Hall. now apply Hall. }
      unfold in_category_window in Hwin. apply andb_true_iff in Hwin.
      destruct Hwin as [_ Hwin].
      apply (between_common_prefix
               (String a (String b (String c (String e (String "-" (String mo "--"))))))
               "01" "31") in Hwin.
      destruct Hwin as [t Ht]. rewrite Ht in Hrow. cbn [append] in Hrow.
      rewrite double_dash_rejected in Hrow. discriminate.
  - intros year month last_day.
    destruct (sql_between date (year_month_key year month ++ "-01")
                          (year_month_key year month ++ "-" ++ last_day)) eqn:E;
      [|reflexivity].
    apply (between_common_prefix (year_month_key year month ++ "-") "01" last_day) in E.
    destruct E as [t Ht]. unfold date, year_month_key, pad4, pad2 in Ht.
    cbn [append] in Ht. injection Ht as _ _ _ _ _ Hm _.
    exfalso. apply (digit_char_not_dash (month mod 10));
      [pose proof (Z.mod_pos_bound month 10); lia | now symmetry].
Qed.

Lemma one_digit_month_never_alerts_witness :
  validate_date "2024-3-5" = true
  /\ fst (add_expense sample_categories "2024-3-5" 500 "food" "groceries" ""
            (run sample_categories 32766 [SetBudget "food" 100 (8 # 10)] init_db))
     = ExpenseAdded 1 None.
Proof.
  split; [reflexivity|].
  rewrite (proj1 (one_digit_month_never_alerts
                    sample_categories 32766 [SetBudget "food" 100 (8 # 10)]
                    "2" "0" "2" "4" "3" "5" 500 "food" "groceries" ""
                    eq_refl eq_refl eq_refl)).
  reflexivity.
Defined.
